(** * node-tftp-server: the per-connection state machine of [src/connection.js]

    A shallow embedding of the read-request parser ([Packet]), the error
    taxonomy ([getErrorCode]), the five state handlers ([init], [getData],
    [oack], [prepareDataPacket], [sendDataPacket]), the [final] handler and
    of the event-driven driver that runs them, followed by the properties
    of the connection that the specification states.

    Conventions.
    - A Node [Buffer] is a [list byte]; an index read outside the buffer is
      [None] (JavaScript's [undefined]).
    - A JavaScript string is the list of its UTF-16 code units; [toString]
      is the UTF-8 decoder and [Buffer.write] the UTF-8 encoder.
    - A JavaScript number is an integer of [Z], but for [ctx.blocksize],
      which [Math.min(v, 1428)] on the text of a [blksize] option can make
      any double: it is a [Number].
    - A thrown exception is the [Throw] result; a loop that has not finished
      within its fuel is the [Fuel] result. *)

From Stdlib Require Import String Ascii.
From Stdlib.Strings Require Import Byte.
From Stdlib Require Import List ZArith Lia Bool Arith.
From Stdlib Require Import DecimalString Decimal.
Import ListNotations.
Open Scope Z_scope.

(** ** Results of fallible code *)

Inductive Exn : Set :=
| ERR_OUT_OF_RANGE (* RangeError of readUInt16BE / writeUInt16BE *)
| TypeError.       (* a method call on undefined *)

Inductive result (A : Type) : Type :=
| Ok (a : A)
| Throw (e : Exn)
| Fuel.             (* a loop did not finish within its fuel *)
Arguments Ok {A} a.
Arguments Throw {A} e.
Arguments Fuel {A}.

Definition bind {A B : Type} (r : result A) (k : A -> result B) : result B :=
  match r with
  | Ok a => k a
  | Throw e => Throw e
  | Fuel => Fuel
  end.

Notation "'let*' x ':=' r 'in' k" := (bind r (fun x => k))
  (at level 10, x pattern, r at level 100, k at level 200).

(** ** Buffers *)

Definition Buffer := list byte.

Definition byte_val (b : byte) : Z := Z.of_N (Byte.to_N b).

Definition byte_of (z : Z) : byte :=
  match Byte.of_N (Z.to_N (z mod 256)) with
  | Some b => b
  | None => x00
  end.

(* Buffer.alloc(n): n zero bytes *)
Definition Buffer_alloc (n : nat) : Buffer := repeat x00 n.

(* Buffer.concat *)
Definition Buffer_concat (l : list Buffer) : Buffer := concat l.

(* bytes [bs] stored from offset [off]; the callers make sure they fit *)
Definition overwrite (b : Buffer) (off : nat) (bs : list byte) : Buffer :=
  firstn off b ++ bs ++ skipn (off + length bs) b.

(* buf.readUInt16BE(off) *)
Definition readUInt16BE (b : Buffer) (off : nat) : result Z :=
  match nth_error b off, nth_error b (S off) with
  | Some hi, Some lo => Ok (byte_val hi * 256 + byte_val lo)
  | _, _ => Throw ERR_OUT_OF_RANGE
  end.

(* buf.writeUInt16BE(value, off) *)
Definition writeUInt16BE (b : Buffer) (value : Z) (off : nat) : result Buffer :=
  if (value <? 0) || (65535 <? value) then Throw ERR_OUT_OF_RANGE
  else if (length b <? off + 2)%nat then Throw ERR_OUT_OF_RANGE
  else Ok (overwrite b off [byte_of (value / 256); byte_of value]).

(* an index of slice(): negative counts from the end, all clamped *)
Definition clampIndex (len i : Z) : Z :=
  if i <? 0 then Z.max 0 (len + i) else Z.min i len.

(* buf.slice(start, end) for integer indices *)
Definition Buffer_slice (b : Buffer) (s e : Z) : Buffer :=
  let len := Z.of_nat (length b) in
  let s' := clampIndex len s in
  let e' := clampIndex len e in
  firstn (Z.to_nat (e' - s')) (skipn (Z.to_nat s') b).

(** ** Strings *)

Definition jsstring := list Z.

(* a string literal of the source (all of them are ASCII) *)
Definition js (s : string) : jsstring :=
  map (fun a => Z.of_N (N_of_ascii a)) (list_ascii_of_string s).

Fixpoint jsstring_eqb (a b : jsstring) : bool :=
  match a, b with
  | [], [] => true
  | x :: a', y :: b' => (x =? y) && jsstring_eqb a' b'
  | _, _ => false
  end.

(* the UTF-16 code units of a code point *)
Definition utf16_units (cp : Z) : jsstring :=
  if cp <? 65536 then [cp]
  else [55296 + (cp - 65536) / 1024; 56320 + (cp - 65536) mod 1024].

(* The UTF-8 decoder behind buf.toString(): [need] continuation bytes are
   still expected for the code point accumulated in [cp], the next one
   within [lo..hi]; an ill-formed sequence gives one U+FFFD and the
   offending byte is read again as a lead byte. *)
Fixpoint utf8_decode_from (bs : list byte) (need : nat) (cp lo hi : Z) : jsstring :=
  match bs with
  | [] => match need with O => [] | S _ => [65533] end
  | b :: r =>
    let v := byte_val b in
    let lead :=
      if v <? 128 then v :: utf8_decode_from r 0 0 128 191
      else if (194 <=? v) && (v <=? 223) then
        utf8_decode_from r 1 (Z.land v 31) 128 191
      else if (224 <=? v) && (v <=? 239) then
        utf8_decode_from r 2 (Z.land v 15)
          (if v =? 224 then 160 else 128) (if v =? 237 then 159 else 191)
      else if (240 <=? v) && (v <=? 244) then
        utf8_decode_from r 3 (Z.land v 7)
          (if v =? 240 then 144 else 128) (if v =? 244 then 143 else 191)
      else 65533 :: utf8_decode_from r 0 0 128 191 in
    match need with
    | O => lead
    | S n =>
      if (lo <=? v) && (v <=? hi) then
        let cp' := cp * 64 + Z.land v 63 in
        match n with
        | O => utf16_units cp' ++ utf8_decode_from r 0 0 128 191
        | S _ => utf8_decode_from r n cp' 128 191
        end
      else 65533 :: lead
    end
  end.

(* buf.toString() *)
Definition Buffer_toString (b : Buffer) : jsstring :=
  utf8_decode_from b 0 0 128 191.

Definition utf8_bytes (cp : Z) : list byte :=
  if cp <? 128 then [byte_of cp]
  else if cp <? 2048 then [byte_of (192 + cp / 64); byte_of (128 + cp mod 64)]
  else if cp <? 65536 then
    [byte_of (224 + cp / 4096); byte_of (128 + (cp / 64) mod 64);
     byte_of (128 + cp mod 64)]
  else
    [byte_of (240 + cp / 262144); byte_of (128 + (cp / 4096) mod 64);
     byte_of (128 + (cp / 64) mod 64); byte_of (128 + cp mod 64)].

Definition is_high_surrogate (c : Z) : bool := (55296 <=? c) && (c <=? 56319).
Definition is_low_surrogate (c : Z) : bool := (56320 <=? c) && (c <=? 57343).

(* The UTF-8 bytes that buf.write(str, off) stores when [room] bytes are
   left: whole characters only, a lone surrogate as U+FFFD. *)
Fixpoint utf8_write (s : jsstring) (room : nat) : list byte :=
  match s with
  | [] => []
  | c :: r =>
    let single (cp : Z) :=
      let bs := utf8_bytes cp in
      if (length bs <=? room)%nat then bs ++ utf8_write r (room - length bs) else [] in
    if is_high_surrogate c then
      match r with
      | d :: r' =>
        if is_low_surrogate d then
          let bs := utf8_bytes (65536 + (c - 55296) * 1024 + (d - 56320)) in
          if (length bs <=? room)%nat then bs ++ utf8_write r' (room - length bs) else []
        else single 65533
      | [] => single 65533
      end
    else if is_low_surrogate c then single 65533
    else single c
  end.

(* buf.write(str, off) *)
Definition Buffer_write (b : Buffer) (str : jsstring) (off : nat) : Buffer :=
  overwrite b off (utf8_write str (length b - off)).

(* String(n) for an integer n *)
Definition String_of_int (n : Z) : jsstring :=
  js (NilZero.string_of_int (Z.to_int n)).

(** ** The request reader: [Packet] *)

Record Packet : Type := mkPacket { buf : Buffer; ptr : nat }.

(* buf[i] used as a condition: a byte that exists and is not 0 *)
Definition truthy_at (b : Buffer) (i : nat) : bool :=
  match nth_error b i with
  | Some x => negb (Byte.eqb x x00)
  | None => false
  end.

(* Packet.prototype.uint16 *)
Definition Packet_uint16 (p : Packet) : result (Z * Packet) :=
  let* v := readUInt16BE (buf p) (ptr p) in
  Ok (v, mkPacket (buf p) (ptr p + 2)).

(* while (this.buf[this.ptr]) this.ptr++ *)
Fixpoint cstr_scan (fuel : nat) (b : Buffer) (i : nat) : result nat :=
  match fuel with
  | O => Fuel
  | S f => if truthy_at b i then cstr_scan f b (S i) else Ok i
  end.

(* Packet.prototype.cstr *)
Definition Packet_cstr (fuel : nat) (p : Packet) : result (jsstring * Packet) :=
  let start := ptr p in
  let* stop := cstr_scan fuel (buf p) (ptr p) in
  Ok (Buffer_toString (Buffer_slice (buf p) (Z.of_nat start) (Z.of_nat stop)),
      mkPacket (buf p) (S stop)).

(* Packet.prototype.endReached *)
Definition Packet_endReached (p : Packet) : bool := (length (buf p) <? ptr p)%nat.

(** ** Error taxonomy *)

Definition getErrorCode (message : jsstring) : Z :=
  if jsstring_eqb message (js "File not found.") then 1
  else if jsstring_eqb message (js "Access violation.") then 2
  else if jsstring_eqb message (js "Disk full or allocation exceeded.") then 3
  else if jsstring_eqb message (js "Illegal TFTP operation.") then 4
  else if jsstring_eqb message (js "Unknown transfer ID.") then 5
  else if jsstring_eqb message (js "File already exists.") then 6
  else if jsstring_eqb message (js "No such user.") then 7
  else 0.

(** ** Numbers

    A JavaScript number is a double. The integers among them are [Int];
    [Frac s m e] is the double (-1)^s * m / 2^e that is no integer ([m] odd);
    zero has no sign here: the source neither divides by a number nor prints
    a sign of zero. [ctx.blocksize] is the only number of the source that
    can be something else than an integer: it is [Math.min(v, 1428)] for the
    text [v] of a [blksize] option. The other numbers of the source
    (counters, lengths, offsets) are integers of [Z], and sums and products
    of integers are exact: a double rounds them beyond 2^53, which no length
    of a Buffer reaches. *)

Inductive Number : Type :=
| Int (n : Z)
| Frac (negative : bool) (m e : positive)
| NaN
| Infinity (negative : bool).
Coercion Int : Z >-> Number.

Definition signed (negative : bool) (z : Z) : Z := if negative then - z else z.

Definition minus_sign (negative : bool) : jsstring := if negative then [45] else [].

(* a / b rounded to the nearest integer, a tie to the even one *)
Definition div_nearest_even (a b : Z) : Z :=
  let q := a / b in
  let r := a mod b in
  if 2 * r <? b then q
  else if b <? 2 * r then q + 1
  else if Z.even q then q else q + 1.

(* (p / q) / 2^u as a fraction *)
Definition shifted (p q u : Z) : Z * Z :=
  if 0 <=? u then (p, q * 2 ^ u) else (p * 2 ^ (- u), q).

Fixpoint lowest_terms (m : positive) (e : Z) : positive * Z :=
  match m with
  | xO m' => if 0 <? e then lowest_terms m' (e - 1) else (m, e)
  | _ => (m, e)
  end.

(* the number m * 2^u, 0 <= m *)
Definition dyadic (negative : bool) (m u : Z) : Number :=
  if 0 <=? u then Int (signed negative (m * 2 ^ u))
  else
    match m with
    | Zpos p =>
      let (p', e) := lowest_terms p (- u) in
      match e with
      | Zpos e' => Frac negative p' e'
      | _ => Int (signed negative (Zpos p'))
      end
    | _ => Int 0
    end.

(* the double nearest to p / q, a tie to the even significand (53 bits,
   exponents -1074 .. 971), for 0 <= p and 0 < q; [negative] is its sign *)
Definition nearest_double (negative : bool) (p q : Z) : Number :=
  if p =? 0 then Int 0
  else
    let l := Z.log2 p - Z.log2 q in
    let ex := (let (a, b) := shifted p q l in if b <=? a then l else l - 1) in
    if 1024 <=? ex then Infinity negative
    else
      let u := Z.max (ex - 52) (-1074) in
      let (a, b) := shifted p q u in
      let m := div_nearest_even a b in
      if (u =? 971) && (2 ^ 53 <=? m) then Infinity negative
      else dyadic negative m u.

(* a === b *)
Definition Number_eqb (a b : Number) : bool :=
  match a, b with
  | Int x, Int y => x =? y
  | Frac s m e, Frac s' m' e' => Bool.eqb s s' && Pos.eqb m m' && Pos.eqb e e'
  | Infinity s, Infinity s' => Bool.eqb s s'
  | _, _ => false
  end.

(* a < b *)
Definition Number_ltb (a b : Number) : bool :=
  match a, b with
  | NaN, _ | _, NaN => false
  | Int x, Int y => x <? y
  | Infinity s, Infinity s' => s && negb s'
  | Infinity s, _ => s
  | _, Infinity s' => negb s'
  | Int x, Frac s' m' e' => x * 2 ^ Zpos e' <? signed s' (Zpos m')
  | Frac s m e, Int y => signed s (Zpos m) <? y * 2 ^ Zpos e
  | Frac s m e, Frac s' m' e' =>
    signed s (Zpos m) * 2 ^ Zpos e' <? signed s' (Zpos m') * 2 ^ Zpos e
  end.

Definition Math_min (a b : Number) : Number :=
  match a, b with
  | NaN, _ | _, NaN => NaN
  | _, _ => if Number_ltb b a then b else a
  end.

(* k * x for an integer k *)
Definition Number_times (k : Z) (x : Number) : Number :=
  match x with
  | Int n => Int (k * n)
  | Frac s m e => nearest_double (xorb s (k <? 0)) (Z.abs k * Zpos m) (2 ^ Zpos e)
  | NaN => NaN
  | Infinity s => if k =? 0 then NaN else Infinity (xorb s (k <? 0))
  end.

(* x + k for an integer k *)
Definition Number_plus (x : Number) (k : Z) : Number :=
  match x with
  | Int n => Int (n + k)
  | Frac s m e =>
    let p := signed s (Zpos m) + k * 2 ^ Zpos e in
    nearest_double (p <? 0) (Z.abs p) (2 ^ Zpos e)
  | NaN => NaN
  | Infinity s => Infinity s
  end.

Definition Math_trunc (x : Number) : Number :=
  match x with
  | Frac s m e => Int (signed s (Zpos m / 2 ^ Zpos e))
  | _ => x
  end.

(** *** String(x)

    Number::toString of ECMAScript: the digits are the shortest decimal
    [s * 10^(n-k)], [s] of [k] digits, that denotes [x], the one nearest to
    [x] if there are two; they are laid out plainly for -6 < n <= 21 and
    with an exponent otherwise. *)

(* p / q < 10^n *)
Definition below_power_of_ten (p q n : Z) : bool :=
  if 0 <=? n then p <? q * 10 ^ n else p * 10 ^ (- n) <? q.

Fixpoint magnitude (fuel : nat) (p q n : Z) : Z :=
  match fuel with
  | O => n
  | S f => if below_power_of_ten p q n then n else magnitude f p q (n + 1)
  end.

Definition times_power_of_ten (s n : Z) : Z * Z :=
  if 0 <=? n then (s * 10 ^ n, 1) else (s, 10 ^ (- n)).

(* the decimal s * 10^n is read as the double p / q *)
Definition denotes (s n p q : Z) : bool :=
  let (a, b) := times_power_of_ten s n in
  Number_eqb (nearest_double false a b) (nearest_double false p q).

(* the [k] digits, if [k] digits are enough *)
Definition digits_for (p q n k : Z) : option Z :=
  let (a, b) := (if 0 <=? n - k then (p, q * 10 ^ (n - k)) else (p * 10 ^ (k - n), q)) in
  let lo := a / b in
  let hi := lo + 1 in
  match denotes lo (n - k) p q, denotes hi (n - k) p q with
  | true, true =>
    if 2 * a <? (2 * lo + 1) * b then Some lo
    else if (2 * lo + 1) * b <? 2 * a then Some hi
    else if Z.even lo then Some lo else Some hi
  | true, false => Some lo
  | false, true => Some hi
  | false, false => None
  end.

Definition layout (ds : jsstring) (n : Z) : jsstring :=
  let k := Z.of_nat (length ds) in
  if (k <=? n) && (n <=? 21) then ds ++ repeat 48 (Z.to_nat (n - k))
  else if (0 <? n) && (n <=? 21) then
    firstn (Z.to_nat n) ds ++ [46] ++ skipn (Z.to_nat n) ds
  else if (-6 <? n) && (n <=? 0) then [48; 46] ++ repeat 48 (Z.to_nat (- n)) ++ ds
  else
    let e := [101] ++ (if n - 1 <? 0 then [45] else [43]) ++ String_of_int (Z.abs (n - 1)) in
    match ds with
    | [] => []
    | [d] => d :: e
    | d :: r => d :: 46 :: r ++ e
    end.

Fixpoint shortest (fuel : nat) (p q n k : Z) : jsstring :=
  match fuel with
  | O => [] (* not reached: 17 digits tell a double from its neighbours *)
  | S f =>
    match digits_for p q n k with
    | Some s =>
      if s =? 10 ^ k then layout (String_of_int (10 ^ (k - 1))) (n + 1)
      else layout (String_of_int s) n
    | None => shortest f p q n (k + 1)
    end
  end.

(* the least n with p / q < 10^n; the search starts below it, at an
   estimate from the binary logarithms *)
Definition decimal_exponent (p q : Z) : Z :=
  magnitude 8 p q ((Z.log2 p - Z.log2 q - 1) * 30103 / 100000 - 1).

Definition positive_toString (p q : Z) : jsstring :=
  shortest 17 p q (decimal_exponent p q) 1.

Definition Number_toString (x : Number) : jsstring :=
  match x with
  | Int n =>
    if Z.abs n <=? 2 ^ 53 then String_of_int n
    else minus_sign (n <? 0) ++ positive_toString (Z.abs n) 1
  | Frac s m e => minus_sign s ++ positive_toString (Zpos m) (2 ^ Zpos e)
  | NaN => js "NaN"
  | Infinity s => minus_sign s ++ js "Infinity"
  end.

(** *** ToNumber(v)

    StringToNumber of ECMAScript, the conversion that [Math.min] applies to
    the text of an option: white space is trimmed, the empty text is 0, a
    decimal literal (sign, digits, fraction, exponent, Infinity) or a
    binary, octal or hexadecimal integer is rounded to the nearest double,
    and every other text is NaN. *)

Definition is_StrWhiteSpaceChar (c : Z) : bool :=
  existsb (Z.eqb c) [9; 10; 11; 12; 13; 32; 160; 5760; 8232; 8233; 8239; 8287; 12288; 65279]
  || ((8192 <=? c) && (c <=? 8202)).

Fixpoint skip_space (s : jsstring) : jsstring :=
  match s with
  | c :: r => if is_StrWhiteSpaceChar c then skip_space r else s
  | [] => []
  end.

Definition trim (s : jsstring) : jsstring :=
  List.rev (skip_space (List.rev (skip_space s))).

Definition digit_value (radix c : Z) : option Z :=
  let v := if (48 <=? c) && (c <=? 57) then c - 48
           else if (97 <=? c) && (c <=? 122) then c - 87
           else if (65 <=? c) && (c <=? 90) then c - 55
           else radix in
  if v <? radix then Some v else None.

(* the longest run of digits at the start of [s], added to [acc]: the
   value, the number of digits, the rest of the text *)
Fixpoint digits (radix : Z) (s : jsstring) (acc n : Z) : Z * Z * jsstring :=
  match s with
  | c :: r =>
    match digit_value radix c with
    | Some v => digits radix r (acc * radix + v) (n + 1)
    | None => (acc, n, s)
    end
  | [] => (acc, n, [])
  end.

Definition ExponentPart (s : jsstring) : option Z :=
  match s with
  | [] => Some 0
  | c :: r =>
    if (c =? 101) || (c =? 69) then
      let (negative, r') :=
        match r with
        | d :: t => if d =? 45 then (true, t) else if d =? 43 then (false, t) else (false, r)
        | [] => (false, r)
        end in
      match digits 10 r' 0 0 with
      | (v, n, []) => if 0 <? n then Some (signed negative v) else None
      | _ => None
      end
    else None
  end.

Definition StrUnsignedDecimalLiteral (negative : bool) (s : jsstring) : Number :=
  if jsstring_eqb s (js "Infinity") then Infinity negative
  else
    let '(ip, ni, r1) := digits 10 s 0 0 in
    let '(m, nf, r2) :=
      match r1 with
      | c :: t => if c =? 46 then digits 10 t ip 0 else (ip, 0, r1)
      | [] => (ip, 0, r1)
      end in
    if ni + nf =? 0 then NaN
    else
      match ExponentPart r2 with
      | Some e =>
        (* m * 10^(e - nf), m below 10^(ni + nf): beyond the exponents of a
           double the power of ten need not be computed *)
        if m =? 0 then Int 0
        else if 400 <? e - nf then Infinity negative
        else if e + ni <? -400 then Int 0
        else if 0 <=? e - nf then nearest_double negative (m * 10 ^ (e - nf)) 1
        else nearest_double negative m (10 ^ (nf - e))
      | None => NaN
      end.

Definition NonDecimalIntegerLiteral (radix : Z) (s : jsstring) : Number :=
  match digits radix s 0 0 with
  | (v, n, []) => if 0 <? n then nearest_double false v 1 else NaN
  | _ => NaN
  end.

Definition ToNumber (v : jsstring) : Number :=
  match trim v with
  | [] => Int 0
  | c :: r =>
    if c =? 43 then StrUnsignedDecimalLiteral false r
    else if c =? 45 then StrUnsignedDecimalLiteral true r
    else
      match r with
      | d :: t =>
        if (c =? 48) && ((d =? 120) || (d =? 88)) then NonDecimalIntegerLiteral 16 t
        else if (c =? 48) && ((d =? 111) || (d =? 79)) then NonDecimalIntegerLiteral 8 t
        else if (c =? 48) && ((d =? 98) || (d =? 66)) then NonDecimalIntegerLiteral 2 t
        else StrUnsignedDecimalLiteral false (c :: r)
      | [] => StrUnsignedDecimalLiteral false (c :: r)
      end
  end.

(* buf.slice(start, end) for any two numbers: an index is truncated, NaN is
   0, and then it is clamped as an integer index is (adjustOffset) *)
Definition adjustOffset (x : Number) (len : Z) : Z :=
  match Math_trunc x with
  | Int i => clampIndex len i
  | Infinity negative => if negative then 0 else len
  | _ => 0
  end.

Definition Buffer_slice_between (b : Buffer) (s e : Number) : Buffer :=
  let len := Z.of_nat (length b) in
  let s' := adjustOffset s len in
  let e' := adjustOffset e len in
  firstn (Z.to_nat (e' - s')) (skipn (Z.to_nat s') b).

(** ** The options: a JavaScript [Map], keys in insertion order *)

Definition Map := list (jsstring * jsstring).

(* map.set(k, v): an existing key keeps its place and takes the new value *)
Fixpoint Map_set (k v : jsstring) (m : Map) : Map :=
  match m with
  | [] => [(k, v)]
  | (k', v') :: m' =>
    if jsstring_eqb k' k then (k', v) :: m' else (k', v') :: Map_set k v m'
  end.

Fixpoint Map_get (k : jsstring) (m : Map) : option jsstring :=
  match m with
  | [] => None
  | (k', v') :: m' => if jsstring_eqb k' k then Some v' else Map_get k m'
  end.

Definition Map_size (m : Map) : nat := length m.

(** ** Routes and the connection context *)

Inductive Filter : Type :=
| filter_undefined
| filter_RegExp (test : jsstring -> bool)
| filter_string (s : jsstring)
| filter_other.

(* what a route handler answers through its two callbacks *)
Inductive Answer : Type :=
| answer_data (d : Buffer)            (* success callback *)
| answer_error (message : jsstring)   (* failure callback with an Error *)
| answer_decline.                     (* failure callback without one *)

(* a handler sees the parsed request: filename, mode, options *)
Record Route : Type := mkRoute {
  filter : Filter;
  handler : jsstring -> jsstring -> Map -> Answer
}.

Record Ctx : Type := mkCtx {
  clientKey : jsstring;
  routes : list (option Route);
  request : option Buffer;
  filename : jsstring;
  mode : jsstring;
  try : Z;
  options : Map;
  data : Buffer;
  block : Z;
  blocksize : Number;
  packet : Buffer
}.

Definition set_request (v : option Buffer) (c : Ctx) : Ctx :=
  mkCtx (clientKey c) (routes c) v (filename c) (mode c) (try c) (options c)
        (data c) (block c) (blocksize c) (packet c).
Definition set_filename (v : jsstring) (c : Ctx) : Ctx :=
  mkCtx (clientKey c) (routes c) (request c) v (mode c) (try c) (options c)
        (data c) (block c) (blocksize c) (packet c).
Definition set_mode (v : jsstring) (c : Ctx) : Ctx :=
  mkCtx (clientKey c) (routes c) (request c) (filename c) v (try c) (options c)
        (data c) (block c) (blocksize c) (packet c).
Definition set_try (v : Z) (c : Ctx) : Ctx :=
  mkCtx (clientKey c) (routes c) (request c) (filename c) (mode c) v (options c)
        (data c) (block c) (blocksize c) (packet c).
Definition set_options (v : Map) (c : Ctx) : Ctx :=
  mkCtx (clientKey c) (routes c) (request c) (filename c) (mode c) (try c) v
        (data c) (block c) (blocksize c) (packet c).
Definition set_data (v : Buffer) (c : Ctx) : Ctx :=
  mkCtx (clientKey c) (routes c) (request c) (filename c) (mode c) (try c) (options c)
        v (block c) (blocksize c) (packet c).
Definition set_block (v : Z) (c : Ctx) : Ctx :=
  mkCtx (clientKey c) (routes c) (request c) (filename c) (mode c) (try c) (options c)
        (data c) v (blocksize c) (packet c).
Definition set_blocksize (v : Number) (c : Ctx) : Ctx :=
  mkCtx (clientKey c) (routes c) (request c) (filename c) (mode c) (try c) (options c)
        (data c) (block c) v (packet c).
Definition set_packet (v : Buffer) (c : Ctx) : Ctx :=
  mkCtx (clientKey c) (routes c) (request c) (filename c) (mode c) (try c) (options c)
        (data c) (block c) (blocksize c) v.

(* the context that the server creates for a first datagram *)
Definition new_ctx (key : jsstring) (rs : list (option Route)) (req : Buffer) : Ctx :=
  mkCtx key rs (Some req) [] [] 0 [] [] 0 0 [].

(** ** The state machine

    The connection is an [edfsm] machine. A state handler receives the
    context and the four capabilities [i], [o], [next] and [next.timeout];
    what it did with them is recorded in a [Handled]. *)

Inductive StateName : Set :=
| init | getData | oack | prepareDataPacket | sendDataPacket.

(* the argument of next(...) *)
Inductive Target : Type :=
| to_state (s : StateName)
| to_null
| to_error (message : jsstring).

(* the two callbacks that the source registers with i(ctx.clientKey, ...) *)
Inductive Listener : Set :=
| oack_ack   (* the one of the oack state *)
| data_ack.  (* the one of the sendDataPacket state *)

Inductive Effect : Type :=
| Enter (s : StateName)                      (* a state handler starts *)
| Out (to : jsstring) (pkt : Buffer)         (* o(clientKey, pkt) *)
| Call (i : nat)                             (* ctx.routes[i].handler(...) *)
| Raise (e : Exn)                            (* an exception reaches the caller *)
| Final (err : option jsstring) (last : StateName) (* the final handler starts *)
| Stuck.                                     (* a loop of the model ran out of fuel *)

Record Handled : Type := mkHandled {
  h_ctx : Ctx;
  h_effects : list Effect;
  h_listen : option Listener;           (* i(...) *)
  h_timeout : option (Z * StateName);   (* next.timeout(ms, state) *)
  h_next : option Target                (* next(...) *)
}.

Definition next (c : Ctx) (es : list Effect) (t : Target) : Handled :=
  mkHandled c es None None (Some t).

(** *** init *)

(* while (!req.endReached()) { key = cstr(); val = cstr(); if (key) set } *)
Fixpoint options_loop (fuel : nat) (req : Packet) (opts : Map) : result (Packet * Map) :=
  match fuel with
  | O => Fuel
  | S f =>
    if Packet_endReached req then Ok (req, opts)
    else
      let* (key, req1) := Packet_cstr (S f) req in
      let* (val, req2) := Packet_cstr (S f) req1 in
      options_loop f req2
        (match key with [] => opts | _ :: _ => Map_set key val opts end)
  end.

(* fuel that is enough for every loop over a request of this length *)
Definition init_fuel (b : Buffer) : nat := (length b + 2)%nat.

Definition state_init (c : Ctx) : result Handled :=
  match request c with
  | None => Throw TypeError
  | Some b =>
    let req := mkPacket b 0 in
    let c := set_request None c in
    let* (opcode, req) := Packet_uint16 req in
    if negb (opcode =? 1) then Ok (next c [] (to_error (js "Illegal TFTP operation.")))
    else
      let* (name, req) := Packet_cstr (init_fuel b) req in
      let c := set_filename name c in
      if (length name =? 0)%nat then Ok (next c [] (to_error (js "File not found.")))
      else
        let* (m, req) := Packet_cstr (init_fuel b) req in
        let c := set_mode m c in
        let c := set_try 0 c in
        let* (_, opts) := options_loop (init_fuel b) req [] in
        let c := set_options opts c in
        Ok (next c [] (to_state getData))
  end.

(** *** getData *)

Definition filter_matches (f : Filter) (name : jsstring) : bool :=
  match f with
  | filter_undefined => true
  | filter_RegExp test => test name
  | filter_string s => jsstring_eqb s name
  | filter_other => false
  end.

Fixpoint tryRoute (fuel : nat) (c : Ctx) (calls : list Effect) (i : nat) : result Handled :=
  match fuel with
  | O => Fuel
  | S f =>
    if (length (routes c) <=? i)%nat then
      Ok (next c calls (to_error (js "File not found.")))
    else
      match nth_error (routes c) i with
      | Some (Some r) =>
        if filter_matches (filter r) (filename c) then
          match handler r (filename c) (mode c) (options c) with
          | answer_data d =>
            let c := set_data d c in
            let c := set_block 0 c in
            let c := set_blocksize 512 c in
            Ok (next c (calls ++ [Call i]) (to_state oack))
          | answer_error message => Ok (next c (calls ++ [Call i]) (to_error message))
          | answer_decline => tryRoute f c (calls ++ [Call i]) (S i)
          end
        else tryRoute f c calls (S i)
      | _ => tryRoute f c calls (S i)
      end
  end.

Definition state_getData (c : Ctx) : result Handled :=
  tryRoute (S (length (routes c))) c [] 0.

(** *** oack *)

(* the callback of [...ctx.options.entries()].map *)
Definition oack_option (c : Ctx) (kv : jsstring * jsstring) : result (Ctx * Buffer) :=
  let '(k, v) := kv in
  let* (c, acceptedValue) :=
    if jsstring_eqb k (js "blksize") then
      let c := set_blocksize (Math_min (ToNumber v) 1428) c in
      Ok (c, Some (Number_toString (blocksize c)))
    else if jsstring_eqb k (js "windowsize") then Ok (c, Some (js "1"))
    else if jsstring_eqb k (js "tsize") then
      Ok (c, Some (String_of_int (Z.of_nat (length (data c)))))
    else Ok (c, None) in
  let str :=
    match acceptedValue with
    | Some a => k ++ [0] ++ a ++ [0]
    | None => []
    end in
  let option := Buffer_alloc (length str) in
  let option := Buffer_write option str 0 in
  Ok (c, option).

Fixpoint oack_options (c : Ctx) (entries : Map) : result (Ctx * list Buffer) :=
  match entries with
  | [] => Ok (c, [])
  | kv :: rest =>
    let* (c, b) := oack_option c kv in
    let* (c, bs) := oack_options c rest in
    Ok (c, b :: bs)
  end.

Definition state_oack (c : Ctx) : result Handled :=
  let t := try c in
  let c := set_try (t + 1) c in
  if 3 <? t then Ok (next c [] to_null)
  else if (Map_size (options c) =? 0)%nat then Ok (next c [] (to_state prepareDataPacket))
  else
    let header := Buffer_alloc 2 in
    let* header := writeUInt16BE header 6 0 in
    let* (c, opts) := oack_options c (options c) in
    let packet := Buffer_concat (header :: opts) in
    Ok (mkHandled c [Out (clientKey c) packet] (Some oack_ack) (Some (1000, oack)) None).

Definition listener_oack (c : Ctx) (msg : Buffer) : result (option Target) :=
  let* opcode := readUInt16BE msg 0 in
  if negb (opcode =? 4) then Ok None
  else
    let* blk := readUInt16BE msg 2 in
    if negb (blk =? 0) then Ok None
    else Ok (Some (to_state prepareDataPacket)).

(** *** prepareDataPacket *)

Definition state_prepareDataPacket (c : Ctx) : result Handled :=
  let header := Buffer_alloc 4 in
  let* header := writeUInt16BE header 3 0 in
  let* header := writeUInt16BE header (block c + 1) 2 in
  let body := Buffer_slice_between (data c) (Number_times (block c) (blocksize c))
                (Number_times (block c + 1) (blocksize c)) in
  let c := set_packet (Buffer_concat [header; body]) c in
  let c := set_block (block c + 1) c in
  let c := set_try 0 c in
  Ok (next c [] (to_state sendDataPacket)).

(** *** sendDataPacket *)

Definition state_sendDataPacket (c : Ctx) : result Handled :=
  let t := try c in
  let c := set_try (t + 1) c in
  if 3 <? t then Ok (next c [] to_null)
  else
    Ok (mkHandled c [Out (clientKey c) (packet c)] (Some data_ack)
          (Some (1000, sendDataPacket)) None).

Definition listener_data (c : Ctx) (msg : Buffer) : result (option Target) :=
  let* opcode := readUInt16BE msg 0 in
  if negb (opcode =? 4) then Ok None
  else
    let* blk := readUInt16BE msg 2 in
    if negb (blk =? block c) then Ok None
    else if negb (Number_eqb (Z.of_nat (length (packet c))) (Number_plus (blocksize c) 4))
    then Ok (Some to_null)
    else Ok (Some (to_state prepareDataPacket)).

(** *** final *)

Definition final (c : Ctx) (err : option jsstring) : result (list Effect) :=
  match err with
  | Some message =>
    let error := Buffer_alloc (5 + length message) in
    let* error := writeUInt16BE error 5 0 in
    let* error := writeUInt16BE error (getErrorCode message) 2 in
    let error := Buffer_write error message 4 in
    Ok [Out (clientKey c) error]
  | None => Ok []
  end.

(** ** The driver

    The machine is run by the [edfsm] package, whose code is not part of
    the repository; this is what it does with the handlers. [next(state)]
    removes the listener and the timer of the state that is left and runs
    the handler of the new state; [next(null)] and [next(error)] run the
    final handler; a listener registered with [i] stays registered until
    the state is left; the timer of [next.timeout(ms, state)] performs
    [next(state)] when it fires. An exception that a state handler raises is
    caught and handed to the final handler, as [next(error)] does; an
    exception of a listener goes to the caller of the listener, and the
    machine keeps what was armed at that moment. Time is not
    measured: a [Timeout] event is the pending timer firing. Only the
    datagrams of the connection's own client are events, and every
    datagram that is sent goes to [ctx.clientKey]. *)

Record Fsm : Type := mkFsm {
  ctx : Ctx;
  current : StateName;
  listener : option Listener;
  timer : option (Z * StateName);
  ended : bool
}.

Inductive Event : Type :=
| Datagram (msg : Buffer)   (* a datagram of this client arrives *)
| Timeout.                  (* the pending timer fires *)

Definition state_handler (s : StateName) : Ctx -> result Handled :=
  match s with
  | init => state_init
  | getData => state_getData
  | oack => state_oack
  | prepareDataPacket => state_prepareDataPacket
  | sendDataPacket => state_sendDataPacket
  end.

Definition listener_body (l : Listener) : Ctx -> Buffer -> result (option Target) :=
  match l with
  | oack_ack => listener_oack
  | data_ack => listener_data
  end.

(* a machine with nothing armed *)
Definition idle (c : Ctx) (s : StateName) : Fsm := mkFsm c s None None false.

Definition leave (c : Ctx) (err : option jsstring) (last : StateName) : Fsm * list Effect :=
  match final c err with
  | Ok es => (mkFsm c last None None true, Final err last :: es)
  | Throw e => (idle c last, [Final err last; Raise e])
  | _ => (idle c last, [Final err last; Stuck])
  end.

(* Node groups the digits of an integer beyond 2^32 by three when it
   reports it (addNumericalSeparator); [ds] is the digits, last one first *)
Fixpoint separate (ds : jsstring) : jsstring :=
  match ds with
  | a :: b :: c :: rest =>
    match rest with
    | [] => ds
    | _ :: _ => a :: b :: c :: 95 :: separate rest
    end
  | _ => ds
  end.

Definition received (value : Z) : jsstring :=
  if Z.abs value <=? 4294967296 then String_of_int value
  else (if value <? 0 then [45] else []) ++
       List.rev (separate (List.rev (String_of_int (Z.abs value)))).

(* the messages of Node's two RangeErrors *)
Definition ERR_BUFFER_OUT_OF_BOUNDS_message : jsstring :=
  js "Attempt to access memory outside buffer bounds".

Definition ERR_OUT_OF_RANGE_message (value : Z) : jsstring :=
  js "The value of " ++ [34] ++ js "value" ++ [34] ++
  js " is out of range. It must be >= 0 and <= 65535. Received " ++ received value.

(* The message of the exception that a state handler raises. The RangeError
   of the model stands for two errors of Node: readUInt16BE on a buffer of
   fewer than two bytes (the opcode read of init) is
   ERR_BUFFER_OUT_OF_BOUNDS, writeUInt16BE of a value outside 0..65535 (the
   block number of prepareDataPacket) is ERR_OUT_OF_RANGE. *)
Definition raised_message (s : StateName) (c : Ctx) (e : Exn) : jsstring :=
  match e with
  | ERR_OUT_OF_RANGE =>
    match s with
    | prepareDataPacket => ERR_OUT_OF_RANGE_message (block c + 1)
    | _ => ERR_BUFFER_OUT_OF_BOUNDS_message
    end
  | TypeError => js "Cannot read properties of undefined (reading 'readUInt16BE')"
  end.

(* The context as the handler has left it when it raises: init has deleted
   ctx.request before it reads the opcode; prepareDataPacket raises before
   it changes the context, and the other handlers do not raise. *)
Definition raised_ctx (s : StateName) (c : Ctx) : Ctx :=
  match s with
  | init => set_request None c
  | _ => c
  end.

Fixpoint goto (fuel : nat) (s : StateName) (c : Ctx) : Fsm * list Effect :=
  match fuel with
  | O => (idle c s, [Stuck])
  | S f =>
    match state_handler s c with
    | Ok h =>
      match h_next h with
      | Some (to_state s') =>
        let (m, es) := goto f s' (h_ctx h) in (m, Enter s :: h_effects h ++ es)
      | Some to_null =>
        let (m, es) := leave (h_ctx h) None s in (m, Enter s :: h_effects h ++ es)
      | Some (to_error message) =>
        let (m, es) := leave (h_ctx h) (Some message) s in (m, Enter s :: h_effects h ++ es)
      | None =>
        (mkFsm (h_ctx h) s (h_listen h) (h_timeout h) false, Enter s :: h_effects h)
      end
    | Throw e =>
      let (m, es) := leave (raised_ctx s c) (Some (raised_message s c e)) s in
      (m, Enter s :: es)
    | _ => (idle c s, [Enter s; Stuck])
    end
  end.

(* no chain of next(state) calls is longer than the five states *)
Definition chain : nat := 5.

Definition follow (t : Target) (m : Fsm) : Fsm * list Effect :=
  match t with
  | to_state s => goto chain s (ctx m)
  | to_null => leave (ctx m) None (current m)
  | to_error message => leave (ctx m) (Some message) (current m)
  end.

Definition deliver (ev : Event) (m : Fsm) : Fsm * list Effect :=
  match ev with
  | Datagram msg =>
    match listener m with
    | Some l =>
      match listener_body l (ctx m) msg with
      | Ok (Some t) => follow t m
      | Ok None => (m, [])
      | Throw e => (m, [Raise e])
      | _ => (m, [Stuck])
      end
    | None => (m, [])
    end
  | Timeout =>
    match timer m with
    | Some (_, s) => follow (to_state s) m
    | None => (m, [])
    end
  end.

Fixpoint run (evs : list Event) (m : Fsm) : Fsm * list Effect :=
  match evs with
  | [] => (m, [])
  | ev :: rest =>
    let (m1, es1) := deliver ev m in
    let (m2, es2) := run rest m1 in
    (m2, es1 ++ es2)
  end.

(* a connection: the machine starts in init on the first datagram *)
Definition start (key : jsstring) (rs : list (option Route)) (req : Buffer) : Fsm * list Effect :=
  goto chain init (new_ctx key rs req).

Definition connection (key : jsstring) (rs : list (option Route)) (req : Buffer)
    (evs : list Event) : Fsm * list Effect :=
  let (m, es) := start key rs req in
  let (m', es') := run evs m in
  (m', es ++ es').

(* the datagrams among the effects *)
Fixpoint sent (es : list Effect) : list Buffer :=
  match es with
  | [] => []
  | Out _ pkt :: r => pkt :: sent r
  | _ :: r => sent r
  end.

Definition ack (blk : Z) : Buffer := [x00; x04; byte_of (blk / 256); byte_of blk].

(** ** Notions used in the statements *)

(* the ERROR datagram that carries an ASCII message *)
Definition ERROR_datagram (code : byte) (message : string) : Buffer :=
  [x00; x05; x00; code] ++ list_byte_of_string message ++ [x00].

Definition is_ascii (s : jsstring) : Prop := Forall (fun u => 0 <= u < 128) s.

(* the bytes of an ASCII text *)
Definition ascii_bytes (s : jsstring) : Buffer := map byte_of s.

(* a read request as the client lays it out on the wire *)
Definition RRQ (name md : Buffer) (opts : list (Buffer * Buffer)) : Buffer :=
  [x00; x01] ++ name ++ [x00] ++ md ++ [x00] ++
  concat (map (fun kv => fst kv ++ [x00] ++ snd kv ++ [x00]) opts).

(* a route without a filter whose handler supplies [d] *)
Definition serve (d : Buffer) : option Route :=
  Some (mkRoute filter_undefined (fun _ _ _ => answer_data d)).

(* the key/value pairs that the option loop reads, in the order read *)
Fixpoint option_pairs (fuel : nat) (req : Packet)
    : result (Packet * list (jsstring * jsstring)) :=
  match fuel with
  | O => Fuel
  | S f =>
    if Packet_endReached req then Ok (req, [])
    else
      let* (key, req1) := Packet_cstr (S f) req in
      let* (val, req2) := Packet_cstr (S f) req1 in
      let* (req', ps) := option_pairs f req2 in
      Ok (req', (key, val) :: ps)
  end.

(* if (key) ctx.options.set(key, val) *)
Definition put (m : Map) (kv : jsstring * jsstring) : Map :=
  match fst kv with
  | [] => m
  | _ :: _ => Map_set (fst kv) (snd kv) m
  end.

(* the keys of a list, each at the place of its first occurrence *)
Fixpoint first_occurrences (ks : list jsstring) : list jsstring :=
  match ks with
  | [] => []
  | k :: r => k :: List.filter (fun k' => negb (jsstring_eqb k' k)) (first_occurrences r)
  end.

(* the value of the last pair with key [k] *)
Fixpoint last_value (k : jsstring) (ps : list (jsstring * jsstring)) : option jsstring :=
  match ps with
  | [] => None
  | (k', v) :: r =>
    match last_value k r with
    | Some w => Some w
    | None => if jsstring_eqb k' k then Some v else None
    end
  end.

Definition has_key (kv : jsstring * jsstring) : bool :=
  match fst kv with [] => false | _ :: _ => true end.

(* the block number that a registered listener waits for *)
Definition expected_block (l : Listener) (c : Ctx) : Z :=
  match l with
  | oack_ack => 0
  | data_ack => block c
  end.

(* where the machine goes when that block number is acknowledged *)
Definition acknowledged (l : Listener) (c : Ctx) : Target :=
  match l with
  | oack_ack => to_state prepareDataPacket
  | data_ack =>
    if negb (Number_eqb (Z.of_nat (length (packet c))) (Number_plus (blocksize c) 4))
    then to_null
    else to_state prepareDataPacket
  end.

(* a datagram with another opcode than 4, or with an ACK for another block *)
Definition mismatch (blk : Z) (msg : Buffer) : Prop :=
  exists opcode, readUInt16BE msg 0 = Ok opcode /\
    (opcode <> 4 \/ exists b, readUInt16BE msg 2 = Ok b /\ b <> blk).

(* a DATA datagram *)
Definition DATA (blk : Z) (payload : Buffer) : Buffer :=
  [x00; x03; byte_of (blk / 256); byte_of blk] ++ payload.

(* the machine that has sent ctx.packet and waits for its ACK *)
Definition awaiting_data (c : Ctx) : Fsm :=
  mkFsm c sendDataPacket (Some data_ack) (Some (1000, sendDataPacket)) false.

(* the context that prepareDataPacket leaves *)
Definition prepared (c : Ctx) : Ctx :=
  set_try 0
    (set_block (block c + 1)
       (set_packet
          (DATA (block c + 1)
             (Buffer_slice_between (data c) (Number_times (block c) (blocksize c))
                (Number_times (block c + 1) (blocksize c))))
          c)).

Fixpoint timeouts (evs : list Event) : nat :=
  match evs with
  | [] => O
  | Timeout :: r => S (timeouts r)
  | Datagram _ :: r => timeouts r
  end.

(* no event acknowledges block [blk] *)
Definition unacknowledged (blk : Z) (ev : Event) : Prop :=
  match ev with
  | Timeout => True
  | Datagram msg => mismatch blk msg
  end.

(* the effects of [n] re-entries of sendDataPacket that send [pkt] again *)
Fixpoint resends (key : jsstring) (pkt : Buffer) (n : nat) : list Effect :=
  match n with
  | O => []
  | S n' => Enter sendDataPacket :: Out key pkt :: resends key pkt n'
  end.

(* the connection from the preparation of its next block on *)
Definition transfer (c : Ctx) (evs : list Event) : Fsm * list Effect :=
  let (m0, es0) := goto chain prepareDataPacket c in
  let (m, es) := run evs m0 in
  (m, es0 ++ es).

(* the ACKs of [n] consecutive blocks, from block [k] on *)
Fixpoint acks (k : Z) (n : nat) : list Event :=
  match n with
  | O => []
  | S n' => Datagram (ack k) :: acks (k + 1) n'
  end.

(* the effects of preparing and sending [n] consecutive blocks of [d],
   the first one after [j] blocks *)
Fixpoint sends (key : jsstring) (d : Buffer) (bs j : Z) (n : nat) : list Effect :=
  match n with
  | O => []
  | S n' =>
    Enter prepareDataPacket :: Enter sendDataPacket ::
    Out key (DATA (j + 1) (Buffer_slice d (j * bs) ((j + 1) * bs))) ::
    sends key d bs (j + 1) n'
  end.

Definition no_NUL (field : Buffer) : Prop := Forall (fun b => b <> x00) field.

(* the options of a request on the wire *)
Definition wire_options (opts : list (Buffer * Buffer)) : Buffer :=
  concat (map (fun kv => fst kv ++ [x00] ++ snd kv ++ [x00]) opts).

Definition decoded (kv : Buffer * Buffer) : jsstring * jsstring :=
  (Buffer_toString (fst kv), Buffer_toString (snd kv)).

(* a text of ASCII code units without the zero unit *)
Definition plain (s : jsstring) : Prop := Forall (fun u => 1 <= u < 128) s.

(* the wire form of an option given as text *)
Definition option_bytes (kv : jsstring * jsstring) : Buffer * Buffer :=
  (ascii_bytes (fst kv), ascii_bytes (snd kv)).

(* a route whose handler is called: registered, with a filter that lets the
   filename through *)
Definition consulted (c : Ctx) (r : option Route) : bool :=
  match r with
  | Some r => filter_matches (filter r) (filename c)
  | None => false
  end.

(* a route that resolution goes past: unregistered, filtered out, or with a
   handler that declines *)
Definition passed_over (c : Ctx) (r : option Route) : Prop :=
  match r with
  | Some r =>
    filter_matches (filter r) (filename c) = true ->
    handler r (filename c) (mode c) (options c) = answer_decline
  | None => True
  end.

(* the handler calls among the routes [rs], the first of which has index [i] *)
Fixpoint calls_from (c : Ctx) (rs : list (option Route)) (i : nat) : list Effect :=
  match rs with
  | [] => []
  | r :: rest => (if consulted c r then [Call i] else []) ++ calls_from c rest (S i)
  end.

(* the machine that has sent its OACK and waits for the ACK of block 0 *)
Definition awaiting_oack (c : Ctx) : Fsm :=
  mkFsm c oack (Some oack_ack) (Some (1000, oack)) false.

(* an option name that the oack state does not know *)
Definition unknown_option (kv : jsstring * jsstring) : Prop :=
  fst kv <> js "blksize" /\ fst kv <> js "windowsize" /\ fst kv <> js "tsize".

(* the connection from the oack state on *)
Definition negotiation (c : Ctx) (evs : list Event) : Fsm * list Effect :=
  let (m0, es0) := goto chain oack c in
  let (m, es) := run evs m0 in
  (m, es0 ++ es).

(* the effects of [n] re-entries of oack that send [pkt] again *)
Fixpoint oack_resends (key : jsstring) (pkt : Buffer) (n : nat) : list Effect :=
  match n with
  | O => []
  | S n' => Enter oack :: Out key pkt :: oack_resends key pkt n'
  end.

(* A machine waits with a listener and a timer together, for the state it
   is in, with a retry count between 1 and 4; or it has neither. *)
Definition well_formed (m : Fsm) : Prop :=
  match listener m, timer m with
  | Some l, Some (ms, s) =>
    ms = 1000 /\ s = current m /\ ended m = false /\ 1 <= try (ctx m) <= 4 /\
    ((l = oack_ack /\ s = oack) \/ (l = data_ack /\ s = sendDataPacket))
  | None, None => True
  | _, _ => False
  end.

(* a state that sets ctx.try itself, or is entered with a count that is not
   negative *)
Definition enterable (s : StateName) (c : Ctx) : Prop :=
  s = init \/ s = prepareDataPacket \/ 0 <= try c.

(* how often the final handler has run *)
Fixpoint finals (es : list Effect) : nat :=
  match es with
  | [] => O
  | Final _ _ :: r => S (finals r)
  | _ :: r => finals r
  end.

(* the Final effects of a run, and what they mean for the machine *)
Definition final_once (r : Fsm * list Effect) : Prop :=
  (finals (snd r) <= 1)%nat /\
  (finals (snd r) = 1%nat -> ended (fst r) = true /\
                             listener (fst r) = None /\ timer (fst r) = None) /\
  (finals (snd r) = O -> ended (fst r) = false).

(* a machine in the transfer phase: it waits for a data ACK, or for
   nothing *)
Definition data_phase (m : Fsm) : Prop :=
  0 <= block (ctx m) /\
  match listener m, timer m with
  | Some data_ack, Some (_, sendDataPacket) => True
  | None, None => True
  | _, _ => False
  end.

(* what the transfer phase keeps of the context *)
Definition same_source (c c' : Ctx) : Prop :=
  data c' = data c /\ blocksize c' = blocksize c /\ options c' = options c /\
  filename c' = filename c /\ mode c' = mode c /\ clientKey c' = clientKey c /\
  block c <= block c'.

(* the OACK entry of an option with an accepted value *)
Definition OACK_entry (k a : jsstring) : Buffer :=
  ascii_bytes k ++ [x00] ++ ascii_bytes a ++ [x00].

(* the datagram that reports block number [value] as out of range *)
Definition out_of_range_datagram (value : Z) : Buffer :=
  [x00; x05; x00; x00] ++ ascii_bytes (ERR_OUT_OF_RANGE_message value) ++ [x00].

(* The effects of one round of the transfer: block [j + 1] of [d] is
   prepared and sent, and sent again on each timeout of the wait [w]. *)
Definition delivery (key : jsstring) (d : Buffer) (bs j : Z) (w : list Event)
    : list Effect :=
  [Enter prepareDataPacket; Enter sendDataPacket;
   Out key (DATA (j + 1) (Buffer_slice d (j * bs) ((j + 1) * bs)))] ++
  resends key (DATA (j + 1) (Buffer_slice d (j * bs) ((j + 1) * bs))) (timeouts w).

Fixpoint deliveries (key : jsstring) (d : Buffer) (bs j : Z) (waits : list (list Event))
    : list Effect :=
  match waits with
  | [] => []
  | w :: r => delivery key d bs j w ++ deliveries key d bs (j + 1) r
  end.

(* the events of these rounds: after each wait, the ACK of its block, the
   first of which is block [k] *)
Fixpoint rounds (k : Z) (waits : list (list Event)) : list Event :=
  match waits with
  | [] => []
  | w :: r => w ++ Datagram (ack k) :: rounds (k + 1) r
  end.

(* in no wait is the block acknowledged, and none has more than three
   timeouts *)
Fixpoint patient (k : Z) (waits : list (list Event)) : Prop :=
  match waits with
  | [] => True
  | w :: r =>
    Forall (unacknowledged k) w /\ (timeouts w <= 3)%nat /\ patient (k + 1) r
  end.

(* the DATA packets of these rounds: each block once, and once more for
   each timeout of its wait *)
Fixpoint copies (d : Buffer) (bs j : Z) (waits : list (list Event)) : list Buffer :=
  match waits with
  | [] => []
  | w :: r =>
    repeat (DATA (j + 1) (Buffer_slice d (j * bs) ((j + 1) * bs))) (S (timeouts w)) ++
    copies d bs (j + 1) r
  end.

(* [m] holds the pairs [ps] that have a key: each key once, at the place of
   its first occurrence, bound to the value of its last occurrence *)
Definition holds_pairs (m : Map) (ps : list (jsstring * jsstring)) : Prop :=
  let qs := List.filter has_key ps in
  map fst m = first_occurrences (map fst qs) /\
  NoDup (map fst m) /\
  forall k, In k (map fst qs) ->
    count_occ (list_eq_dec Z.eq_dec) (map fst m) k = 1%nat /\
    exists v, last_value k qs = Some v /\ Map_get k m = Some v.

(** * Properties *)

Ltac flatten :=
  repeat first [rewrite <- app_assoc | rewrite <- app_comm_cons | rewrite app_nil_l].

Ltac list_length :=
  repeat first [rewrite length_app | rewrite <- app_assoc | rewrite <- app_comm_cons
               | rewrite app_nil_l | progress cbn [length]].

(** ** The request reader *)

Lemma truthy_at_inside (b : Buffer) (i : nat) :
  truthy_at b i = true -> (i < length b)%nat.
Proof.
  unfold truthy_at. destruct (nth_error b i) eqn:E; [|discriminate].
  intros _. apply nth_error_Some. congruence.
Qed.

(* With enough fuel the scan stops, at the first position from [i] that
   holds no byte or a zero byte. *)
Lemma cstr_scan_enough (b : Buffer) :
  forall (fuel i : nat), (length b - i < fuel)%nat ->
  exists j, cstr_scan fuel b i = Ok j /\ (i <= j)%nat /\
            (j <= Nat.max i (length b))%nat /\
            truthy_at b j = false /\
            (forall k, (i <= k < j)%nat -> truthy_at b k = true).
Proof.
  induction fuel as [|f IH]; intros i Hf; [lia|].
  simpl. destruct (truthy_at b i) eqn:T.
  - pose proof (truthy_at_inside _ _ T) as Hi.
    destruct (IH (S i)) as (j & E & L1 & L2 & T' & A); [lia|].
    exists j. repeat split; try lia; auto.
    intros k Hk. destruct (Nat.eq_dec k i) as [->|]; [assumption|apply A; lia].
  - exists i. repeat split; try lia; auto.
Qed.

Lemma cstr_scan_ok (b : Buffer) :
  forall (fuel i j : nat), cstr_scan fuel b i = Ok j ->
  (i <= j)%nat /\ (j <= Nat.max i (length b))%nat /\ truthy_at b j = false /\
  (forall k, (i <= k < j)%nat -> truthy_at b k = true).
Proof.
  induction fuel as [|f IH]; intros i j E; [discriminate|].
  simpl in E. destruct (truthy_at b i) eqn:T.
  - pose proof (truthy_at_inside _ _ T) as Hi.
    destruct (IH _ _ E) as (L1 & L2 & T' & A).
    repeat split; try lia; auto.
    intros k Hk. destruct (Nat.eq_dec k i) as [->|]; [assumption|apply A; lia].
  - injection E as <-. repeat split; try lia; auto.
Qed.

(* the scan raises nothing *)
Lemma cstr_scan_cases (b : Buffer) :
  forall (fuel i : nat), (exists j, cstr_scan fuel b i = Ok j) \/ cstr_scan fuel b i = Fuel.
Proof.
  induction fuel as [|f IH]; intros i; simpl; [now right|].
  destruct (truthy_at b i); [apply IH|left; eauto].
Qed.

Lemma Packet_cstr_enough (fuel : nat) (p : Packet) :
  (length (buf p) - ptr p < fuel)%nat ->
  exists s j, Packet_cstr fuel p = Ok (s, mkPacket (buf p) (S j)) /\
              cstr_scan fuel (buf p) (ptr p) = Ok j /\
              (ptr p <= j)%nat /\ (j <= Nat.max (ptr p) (length (buf p)))%nat.
Proof.
  intros Hf. destruct (cstr_scan_enough (buf p) fuel (ptr p) Hf) as (j & E & L1 & L2 & _).
  unfold Packet_cstr. rewrite E. simpl. eauto 8.
Qed.

Lemma options_loop_enough :
  forall (fuel : nat) (req : Packet) (opts : Map),
  (1 <= fuel)%nat -> (length (buf req) + 2 - ptr req <= fuel)%nat ->
  exists req' opts', options_loop fuel req opts = Ok (req', opts') /\
                     buf req' = buf req /\ Packet_endReached req' = true.
Proof.
  induction fuel as [|f IH]; intros req opts H1 H2; [lia|].
  cbn [options_loop]. destruct (Packet_endReached req) eqn:E.
  - eauto.
  - unfold Packet_endReached in E. apply Nat.ltb_ge in E.
    destruct (Packet_cstr_enough (S f) req) as (s1 & j1 & E1 & _ & L1 & M1); [lia|].
    rewrite E1. cbn [bind].
    destruct (Packet_cstr_enough (S f) (mkPacket (buf req) (S j1)))
      as (s2 & j2 & E2 & _ & L2 & M2); [simpl; lia|].
    rewrite E2. cbn [bind]. simpl in L2, M2, E2.
    match goal with |- context [options_loop f ?r ?o] =>
      destruct (IH r o) as (req' & opts' & E3 & B3 & R3) end.
    + simpl. lia.
    + simpl. lia.
    + rewrite E3. eauto.
Qed.

Lemma state_init_total (c : Ctx) (b : Buffer) :
  request c = Some b -> (2 <= length b)%nat -> exists h, state_init c = Ok h.
Proof.
  intros R L. unfold state_init. rewrite R.
  unfold Packet_uint16, readUInt16BE. cbn [buf ptr].
  destruct b as [|b0 [|b1 r]]; simpl in L; try lia. cbn [nth_error bind].
  destruct (negb _); [eauto|].
  match goal with |- context [Packet_cstr ?f ?p] =>
    destruct (Packet_cstr_enough f p) as (s1 & j1 & E1 & _ & L1 & M1);
      [unfold init_fuel; cbn [buf ptr length]; lia|]; rewrite E1 end.
  cbn [bind]. destruct (_ =? _)%nat; [eauto|].
  match goal with |- context [Packet_cstr ?f ?p] =>
    destruct (Packet_cstr_enough f p) as (s2 & j2 & E2 & _ & L2 & M2);
      [unfold init_fuel; cbn [buf ptr length]; lia|]; rewrite E2 end.
  cbn [bind].
  match goal with |- context [options_loop ?f ?p ?o] =>
    destruct (options_loop_enough f p o) as (r' & o' & E3 & _);
      [unfold init_fuel; cbn [buf ptr length]; lia|unfold init_fuel; cbn [buf ptr length]; lia|]; rewrite E3 end.
  cbn [bind]. eauto.
Qed.

(** ** The driver at rest *)

Lemma run_quiet (evs : list Event) (m : Fsm) :
  listener m = None -> timer m = None -> run evs m = (m, []).
Proof.
  intros L T. induction evs as [|ev rest IH]; [reflexivity|].
  simpl. destruct ev; simpl; rewrite ?L, ?T, IH; reflexivity.
Qed.

Lemma leave_illegal (c : Ctx) (s : StateName) :
  leave c (Some (js "Illegal TFTP operation.")) s =
  (mkFsm c s None None true,
   [Final (Some (js "Illegal TFTP operation.")) s;
    Out (clientKey c) (ERROR_datagram x04 "Illegal TFTP operation.")]).
Proof. reflexivity. Qed.

Lemma leave_not_found (c : Ctx) (s : StateName) :
  leave c (Some (js "File not found.")) s =
  (mkFsm c s None None true,
   [Final (Some (js "File not found.")) s;
    Out (clientKey c) (ERROR_datagram x01 "File not found.")]).
Proof. reflexivity. Qed.

(** ** Request parsing *)

(** C9. The loops of the init state terminate. With fuel above the number
    of bytes left, [cstr] returns, moves the cursor forward by at least one
    position, and every position that its scan passes over lies inside the
    buffer (the scan stops at the latest at the buffer's end); with fuel of
    at least the buffer's length plus two, the option loop returns and the
    cursor it leaves is past the end ([endReached]); the init handler never
    runs out of fuel. *)
Theorem C9_option_loop_terminates :
  (forall (fuel : nat) (p : Packet),
     (length (buf p) - ptr p < fuel)%nat ->
     exists s p', Packet_cstr fuel p = Ok (s, p') /\
       buf p' = buf p /\ (ptr p < ptr p')%nat /\
       (ptr p' <= S (Nat.max (ptr p) (length (buf p))))%nat /\
       (forall k, (ptr p <= k)%nat -> (S k < ptr p')%nat -> (k < length (buf p))%nat)) /\
  (forall (fuel : nat) (req : Packet) (opts : Map),
     (1 <= fuel)%nat -> (length (buf req) + 2 - ptr req <= fuel)%nat ->
     exists req' opts', options_loop fuel req opts = Ok (req', opts') /\
       Packet_endReached req' = true) /\
  (forall c : Ctx, state_init c <> Fuel).
Proof.
  split; [|split].
  - intros fuel p Hf.
    destruct (cstr_scan_enough (buf p) fuel (ptr p) Hf) as (j & E & L1 & L2 & _ & A).
    unfold Packet_cstr. rewrite E. cbn [bind].
    eexists _, _. split; [reflexivity|]. cbn [buf ptr].
    split; [reflexivity|]. split; [lia|]. split; [lia|].
    intros k K1 K2. apply truthy_at_inside, A. lia.
  - intros fuel req opts H1 H2.
    destruct (options_loop_enough fuel req opts H1 H2) as (r & o & E & _ & R). eauto.
  - intros c. unfold state_init. destruct (request c) as [b|] eqn:R; [|discriminate].
    destruct (Nat.lt_ge_cases (length b) 2) as [L|L].
    + unfold Packet_uint16, readUInt16BE. cbn [buf ptr].
      destruct b as [|b0 [|b1 r]]; simpl in L; try lia; discriminate.
    + destruct (state_init_total c b R L) as (h & E).
      unfold state_init in E. rewrite R in E. rewrite E. discriminate.
Qed.

Lemma C9_option_loop_terminates_witness :
  (exists s p',
     Packet_cstr 5 (mkPacket [x61; x62; x00; x63] 0) = Ok (s, p') /\
     buf p' = [x61; x62; x00; x63] /\ (0 < ptr p')%nat /\ (ptr p' <= 5)%nat) /\
  (exists req' opts',
     options_loop 6 (mkPacket [x61; x62; x00; x63] 0) [] = Ok (req', opts') /\
     Packet_endReached req' = true).
Proof.
  destruct C9_option_loop_terminates as (H1 & H2 & _). split.
  - destruct (H1 5%nat (mkPacket [x61; x62; x00; x63] 0)) as (s & p' & E & B & L & U & _);
      [simpl; lia|].
    exists s, p'. simpl in L, U. auto.
  - apply (H2 6%nat (mkPacket [x61; x62; x00; x63] 0) []); simpl; lia.
Defined.

(** C7. A request whose opcode is not 1 ends the connection in the init
    state: one ERROR datagram with code 4 and the message
    "Illegal TFTP operation." is sent, the getData state is not entered and
    no route handler is called, whatever the routes and later events. *)
Theorem C7_illegal_operation (key : jsstring) (rs : list (option Route)) (b : Buffer)
    (evs : list Event) (opcode : Z) :
  readUInt16BE b 0 = Ok opcode -> opcode <> 1 ->
  exists m, connection key rs b evs =
    (m, [Enter init;
         Final (Some (js "Illegal TFTP operation.")) init;
         Out key (ERROR_datagram x04 "Illegal TFTP operation.")]) /\
    ended m = true.
Proof.
  intros R N. unfold connection, start. cbn [goto chain state_handler].
  unfold state_init. cbn [request new_ctx]. unfold Packet_uint16. cbn [buf ptr].
  rewrite R. cbn [bind]. apply Z.eqb_neq in N. rewrite N. cbn [negb next h_next h_ctx h_effects].
  rewrite leave_illegal. cbn [app]. rewrite run_quiet by reflexivity.
  eexists. split; reflexivity.
Qed.

Lemma C7_illegal_operation_witness :
  exists m, connection [] [] [x00; x02; x61; x00] [Timeout] =
    (m, [Enter init;
         Final (Some (js "Illegal TFTP operation.")) init;
         Out [] (ERROR_datagram x04 "Illegal TFTP operation.")]) /\
    ended m = true.
Proof.
  apply (C7_illegal_operation [] [] [x00; x02; x61; x00] [Timeout] 2).
  - reflexivity.
  - lia.
Defined.

(** ** Decoded text *)

Lemma utf16_units_not_nil (cp : Z) (s : jsstring) : utf16_units cp ++ s <> [].
Proof. unfold utf16_units. destruct (cp <? 65536); discriminate. Qed.

(* the decoder gives at least one code unit for any input but the empty one *)
Lemma utf8_decode_from_not_nil :
  forall (bs : list byte) (need : nat) (cp lo hi : Z),
  bs <> [] \/ need <> O -> utf8_decode_from bs need cp lo hi <> [].
Proof.
  induction bs as [|b r IH]; intros need cp lo hi H.
  - destruct need; [destruct H; congruence|discriminate].
  - cbn [utf8_decode_from]. cbv zeta.
    assert (L : forall n c l h, n <> O -> utf8_decode_from r n c l h <> [])
      by (intros; apply IH; now right).
    repeat match goal with
    | |- (match ?n with O => _ | S _ => _ end) <> [] => destruct n
    | |- (if ?x then _ else _) <> [] => destruct x
    | |- _ :: _ <> [] => discriminate
    | |- utf16_units _ ++ _ <> [] => apply utf16_units_not_nil
    | |- utf8_decode_from r _ _ _ _ <> [] => apply L; discriminate
    end.
Qed.

Lemma Buffer_toString_nil (b : Buffer) : Buffer_toString b = [] <-> b = [].
Proof.
  split.
  - intros E. destruct b as [|x r]; [reflexivity|].
    exfalso. revert E. apply utf8_decode_from_not_nil. left. discriminate.
  - intros ->. reflexivity.
Qed.

Lemma Buffer_slice_nat (b : Buffer) (i j : nat) :
  (i <= j <= length b)%nat ->
  Buffer_slice b (Z.of_nat i) (Z.of_nat j) = firstn (j - i) (skipn i b).
Proof.
  intros H. unfold Buffer_slice, clampIndex.
  destruct (Z.ltb_spec (Z.of_nat i) 0); [lia|].
  destruct (Z.ltb_spec (Z.of_nat j) 0); [lia|].
  rewrite !Z.min_l by lia. rewrite Nat2Z.id. f_equal. lia.
Qed.

Lemma Buffer_slice_empty (b : Buffer) (i : nat) :
  Buffer_slice b (Z.of_nat i) (Z.of_nat i) = [].
Proof.
  unfold Buffer_slice, clampIndex.
  destruct (Z.ltb_spec (Z.of_nat i) 0); [lia|].
  rewrite Z.sub_diag. reflexivity.
Qed.

(* The filename that init reads is empty exactly when offset 2 holds no
   byte or a zero byte. *)
Lemma empty_filename_on_wire (b : Buffer) :
  truthy_at b 2 = false <->
  exists req', Packet_cstr (init_fuel b) (mkPacket b 2) = Ok ([], req').
Proof.
  split.
  - intros T. unfold Packet_cstr, init_fuel. cbn [buf ptr].
    rewrite Nat.add_comm. cbn [Nat.add cstr_scan]. rewrite T. cbn [bind].
    rewrite Buffer_slice_empty. eexists. reflexivity.
  - intros (req' & E). unfold Packet_cstr in E. cbn [buf ptr] in E.
    destruct (cstr_scan (init_fuel b) b 2) as [j| |] eqn:S; try discriminate.
    cbn [bind] in E. injection E as E _.
    apply cstr_scan_ok in S. destruct S as (L1 & L2 & T & A).
    destruct (Nat.eq_dec j 2) as [->|N]; [assumption|].
    exfalso. assert (I : truthy_at b 2 = true) by (apply A; lia).
    apply truthy_at_inside in I.
    apply Buffer_toString_nil in E. change 2 with (Z.of_nat 2) in E.
    rewrite Buffer_slice_nat in E by lia.
    apply (f_equal (@length byte)) in E. rewrite length_firstn, length_skipn in E.
    simpl in E. lia.
Qed.

(** C8. A request with opcode 1 and an empty filename ends the connection
    in the init state: one ERROR datagram with code 1 and the message
    "File not found." is sent, the getData state is not entered, so the
    route list is not looked at and no handler is called, whatever the
    routes and later events. *)
Theorem C8_empty_filename (key : jsstring) (rs : list (option Route)) (b : Buffer)
    (evs : list Event) (req' : Packet) :
  readUInt16BE b 0 = Ok 1 ->
  Packet_cstr (init_fuel b) (mkPacket b 2) = Ok ([], req') ->
  exists m, connection key rs b evs =
    (m, [Enter init;
         Final (Some (js "File not found.")) init;
         Out key (ERROR_datagram x01 "File not found.")]) /\
    ended m = true.
Proof.
  intros R N. unfold connection, start. cbn [goto chain state_handler].
  unfold state_init. cbn [request new_ctx]. unfold Packet_uint16. cbn [buf ptr].
  rewrite R. cbn [bind Z.eqb Pos.eqb negb Nat.add]. rewrite N.
  cbn [bind length Nat.eqb next h_next h_ctx h_effects].
  rewrite leave_not_found. cbn [app]. rewrite run_quiet by reflexivity.
  eexists. split; reflexivity.
Qed.

Lemma C8_empty_filename_witness :
  exists m, connection [] [] [x00; x01; x00; x6f; x00] [Timeout] =
    (m, [Enter init;
         Final (Some (js "File not found.")) init;
         Out [] (ERROR_datagram x01 "File not found.")]) /\
    ended m = true.
Proof.
  apply (C8_empty_filename [] [] [x00; x01; x00; x6f; x00] [Timeout]
           (mkPacket [x00; x01; x00; x6f; x00] 3)); reflexivity.
Defined.

(** ** The ERROR datagram *)

Lemma getErrorCode_range (message : jsstring) : 0 <= getErrorCode message <= 7.
Proof.
  unfold getErrorCode.
  repeat match goal with |- context [if ?x then _ else _] => destruct x end; lia.
Qed.

Lemma utf8_bytes_length (cp : Z) : (1 <= length (utf8_bytes cp) <= 4)%nat.
Proof.
  unfold utf8_bytes.
  repeat match goal with |- context [if ?x then _ else _] => destruct x end; simpl; lia.
Qed.

(* buf.write never stores more than the room it has *)
Lemma utf8_write_length_bounded :
  forall (n : nat) (s : jsstring) (room : nat),
  (length s <= n)%nat -> (length (utf8_write s room) <= room)%nat.
Proof.
  assert (G : forall (r : jsstring),
            (forall room, (length (utf8_write r room) <= room)%nat) ->
            forall (bs : list byte) room,
            (length (if (length bs <=? room)%nat
                     then bs ++ utf8_write r (room - length bs) else []) <= room)%nat).
  { intros r IH bs room. destruct (Nat.leb_spec (length bs) room); simpl; [|lia].
    rewrite length_app. specialize (IH (room - length bs)%nat). lia. }
  induction n as [|n IH]; intros s room L.
  - destruct s; [simpl; lia|simpl in L; lia].
  - destruct s as [|c r]; [simpl; lia|]. simpl in L.
    cbn [utf8_write]. cbv zeta.
    destruct (is_high_surrogate c).
    + destruct r as [|d r'].
      * apply (G []). intros. simpl. lia.
      * simpl in L. destruct (is_low_surrogate d).
        -- apply (G r'). intros. apply IH. lia.
        -- apply (G (d :: r')). intros. apply IH. simpl. lia.
    + destruct (is_low_surrogate c); apply (G r); intros; apply IH; lia.
Qed.

Lemma utf8_write_length (s : jsstring) (room : nat) :
  (length (utf8_write s room) <= room)%nat.
Proof. apply utf8_write_length_bounded with (length s). lia. Qed.

(* an ASCII text that fits is stored unit by unit *)
Lemma utf8_write_ascii :
  forall (s : jsstring) (room : nat),
  is_ascii s -> (length s <= room)%nat -> utf8_write s room = map byte_of s.
Proof.
  induction s as [|c r IH]; intros room A L; [reflexivity|].
  inversion A as [|? ? Hc Hr]; subst. simpl in L.
  cbn [utf8_write map]. cbv zeta.
  unfold is_high_surrogate, is_low_surrogate.
  destruct (Z.leb_spec 55296 c); [lia|]. cbn [andb].
  destruct (Z.leb_spec 56320 c); [lia|]. cbn [andb].
  unfold utf8_bytes. destruct (Z.ltb_spec c 128); [|lia]. cbn [length].
  destruct (Nat.leb_spec 1 room); [|lia].
  change ([byte_of c] ++ utf8_write r (room - 1)) with (byte_of c :: utf8_write r (room - 1)).
  f_equal. apply IH; [assumption|lia].
Qed.

Lemma skipn_repeat_last {A : Type} (x : A) (n : nat) : skipn n (repeat x (S n)) = [x].
Proof. induction n as [|n IH]; [reflexivity|exact IH]. Qed.

Lemma overwrite_length (b : Buffer) (off : nat) (bs : list byte) :
  (off + length bs <= length b)%nat -> length (overwrite b off bs) = length b.
Proof.
  intros L. unfold overwrite. rewrite !length_app, length_firstn, length_skipn. lia.
Qed.

Lemma writeUInt16BE_ok (b : Buffer) (value : Z) (off : nat) :
  0 <= value <= 65535 -> (off + 2 <= length b)%nat ->
  writeUInt16BE b value off = Ok (overwrite b off [byte_of (value / 256); byte_of value]).
Proof.
  intros V L. unfold writeUInt16BE.
  destruct (Z.ltb_spec value 0); [lia|]. destruct (Z.ltb_spec 65535 value); [lia|].
  cbn [orb]. destruct (Nat.ltb_spec (length b) (off + 2)); [lia|reflexivity].
Qed.

Lemma final_error (c : Ctx) (message : jsstring) :
  final c (Some message) =
  Ok [Out (clientKey c)
        ([x00; x05; x00; byte_of (getErrorCode message)] ++
         utf8_write message (S (length message)) ++
         skipn (length (utf8_write message (S (length message))))
               (repeat x00 (S (length message))))].
Proof.
  pose proof (getErrorCode_range message) as R.
  unfold final.
  rewrite writeUInt16BE_ok by (unfold Buffer_alloc; rewrite ?repeat_length; lia).
  cbn [bind].
  rewrite writeUInt16BE_ok
    by (rewrite ?overwrite_length; unfold Buffer_alloc; rewrite ?repeat_length;
        cbn [length]; lia).
  cbn [bind]. rewrite (Z.div_small (getErrorCode message)) by lia.
  unfold Buffer_write. rewrite !overwrite_length
    by (rewrite ?overwrite_length; unfold Buffer_alloc; rewrite ?repeat_length;
        cbn [length]; lia).
  unfold Buffer_alloc. rewrite repeat_length.
  replace (5 + length message - 4)%nat with (S (length message)) by lia.
  unfold overwrite. change (5 + length message)%nat with (S (S (S (S (S (length message)))))).
  change (5 / 256) with 0. change (byte_of 0) with x00. change (byte_of 5) with x05.
  cbn [repeat]. cbn [firstn app Nat.add length skipn].
  cbn [firstn app Nat.add length skipn].
  reflexivity.
Qed.

(** C4 (as amended). The ERROR datagram that the final handler sends is five
    bytes longer than the message has UTF-16 code units: the 16-bit opcode
    5, the 16-bit mapped error code, then the text; for an ASCII message the
    text is followed by exactly one zero byte. *)
Theorem C4_error_datagram_layout (c : Ctx) (message : jsstring) :
  exists pkt,
    final c (Some message) = Ok [Out (clientKey c) pkt] /\
    length pkt = (5 + length message)%nat /\
    firstn 4 pkt = [x00; x05; x00; byte_of (getErrorCode message)] /\
    (is_ascii message ->
     pkt = [x00; x05; x00; byte_of (getErrorCode message)] ++ map byte_of message ++ [x00]).
Proof.
  eexists. split; [apply final_error|]. split; [|split].
  - pose proof (utf8_write_length message (S (length message))) as L.
    rewrite !length_app, length_skipn, repeat_length. cbn [length]. lia.
  - reflexivity.
  - intros A. rewrite utf8_write_ascii by (auto; lia).
    rewrite length_map, skipn_repeat_last. reflexivity.
Qed.

Lemma C4_error_datagram_layout_witness :
  exists pkt,
    final (new_ctx [] [] []) (Some (js "Access violation.")) = Ok [Out [] pkt] /\
    pkt = ERROR_datagram x02 "Access violation.".
Proof.
  destruct (C4_error_datagram_layout (new_ctx [] [] []) (js "Access violation."))
    as (pkt & E & _ & _ & A).
  exists pkt. split; [exact E|]. apply A.
  repeat constructor; simpl; lia.
Defined.

(* The ERROR datagram for "File not found." has 20 bytes, not 4 + 15: its
   last byte is the zero byte after the text. *)
Lemma C4_counterexample :
  exists pkt,
    final (new_ctx [] [] []) (Some (js "File not found.")) = Ok [Out [] pkt] /\
    length (js "File not found.") = 15%nat /\
    length pkt <> (4 + 15)%nat /\
    pkt = ERROR_datagram x01 "File not found." /\
    last pkt x01 = x00.
Proof.
  eexists. split; [reflexivity|]. repeat split. simpl. lia.
Qed.

(** ** Option negotiation *)

Lemma jsstring_eqb_eq : forall a b : jsstring, jsstring_eqb a b = true <-> a = b.
Proof.
  induction a as [|x a IH]; destruct b as [|y b]; simpl; split; try easy.
  - intros H. apply andb_true_iff in H. destruct H as [H1 H2].
    apply Z.eqb_eq in H1. apply IH in H2. congruence.
  - intros H. injection H as -> ->. rewrite Z.eqb_refl. apply IH. reflexivity.
Qed.

Lemma jsstring_eqb_refl (a : jsstring) : jsstring_eqb a a = true.
Proof. apply jsstring_eqb_eq. reflexivity. Qed.

Lemma jsstring_eqb_neq (a b : jsstring) : jsstring_eqb a b = false <-> a <> b.
Proof.
  destruct (jsstring_eqb a b) eqn:E.
  - apply jsstring_eqb_eq in E. split; [discriminate|congruence].
  - split; [|reflexivity]. intros _ H. apply jsstring_eqb_eq in H. congruence.
Qed.

Lemma is_ascii_app (a b : jsstring) : is_ascii a -> is_ascii b -> is_ascii (a ++ b).
Proof. intros. apply Forall_app. split; assumption. Qed.

Lemma is_ascii_uint (d : uint) : is_ascii (js (NilEmpty.string_of_uint d)).
Proof.
  induction d; cbn [NilEmpty.string_of_uint js list_ascii_of_string map];
    try (constructor; [cbn; lia|exact IHd]).
  constructor.
Qed.

Lemma is_ascii_String_of_int (n : Z) : is_ascii (String_of_int n).
Proof.
  unfold String_of_int, NilZero.string_of_int.
  destruct (Z.to_int n) as [d|d].
  - unfold NilZero.string_of_uint. destruct d; try apply is_ascii_uint.
    repeat constructor; cbn; lia.
  - cbn [js list_ascii_of_string map]. constructor; [cbn; lia|].
    unfold NilZero.string_of_uint. destruct d; try apply is_ascii_uint.
    repeat constructor; cbn; lia.
Qed.

Lemma skipn_all_repeat {A : Type} (x : A) (n : nat) : skipn n (repeat x n) = [].
Proof. induction n as [|n IH]; [reflexivity|exact IH]. Qed.

(* a buffer allocated for an ASCII text and filled with it *)
Lemma write_fresh_ascii (str : jsstring) :
  is_ascii str -> Buffer_write (Buffer_alloc (length str)) str 0 = ascii_bytes str.
Proof.
  intros A. unfold Buffer_write, Buffer_alloc, overwrite.
  rewrite repeat_length, Nat.sub_0_r, utf8_write_ascii by (auto; lia).
  cbn [firstn app Nat.add]. rewrite length_map, skipn_all_repeat.
  apply app_nil_r.
Qed.

(* an option that is not blksize leaves the context as it is *)
Lemma oack_option_other (c : Ctx) (k v : jsstring) :
  k <> js "blksize" -> exists b, oack_option c (k, v) = Ok (c, b).
Proof.
  intros N. apply jsstring_eqb_neq in N. unfold oack_option. rewrite N.
  destruct (jsstring_eqb k (js "windowsize")); [cbn [bind]; eauto|].
  destruct (jsstring_eqb k (js "tsize")); cbn [bind]; eauto.
Qed.

Lemma oack_options_other (c : Ctx) :
  forall entries : Map,
  Forall (fun kv => fst kv <> js "blksize") entries ->
  exists bs, oack_options c entries = Ok (c, bs).
Proof.
  induction entries as [|[k v] rest IH]; intros F; [simpl; eauto|].
  inversion F as [|? ? Hk Hr]; subst. cbn [fst] in Hk.
  destruct (oack_option_other c k v Hk) as (b & E).
  destruct (IH Hr) as (bs & E').
  cbn [oack_options]. rewrite E. cbn [bind]. rewrite E'. cbn [bind]. eauto.
Qed.

Lemma is_ascii_firstn (n : nat) (s : jsstring) : is_ascii s -> is_ascii (firstn n s).
Proof.
  intros A. rewrite <- (firstn_skipn n s) in A. now apply Forall_app in A.
Qed.

Lemma is_ascii_skipn (n : nat) (s : jsstring) : is_ascii s -> is_ascii (skipn n s).
Proof.
  intros A. rewrite <- (firstn_skipn n s) in A. now apply Forall_app in A.
Qed.

Lemma is_ascii_zeros (n : nat) : is_ascii (repeat 48 n).
Proof. induction n as [|n IH]; constructor; [lia|exact IH]. Qed.

Lemma is_ascii_layout (ds : jsstring) (n : Z) : is_ascii ds -> is_ascii (layout ds n).
Proof.
  intros A. unfold layout.
  destruct (_ && _); [apply is_ascii_app; [exact A|apply is_ascii_zeros]|].
  destruct (_ && _).
  { apply is_ascii_app; [now apply is_ascii_firstn|].
    apply is_ascii_app; [repeat constructor; lia|now apply is_ascii_skipn]. }
  destruct (_ && _).
  { apply is_ascii_app; [repeat constructor; lia|].
    apply is_ascii_app; [apply is_ascii_zeros|exact A]. }
  assert (E : is_ascii ([101] ++ (if n - 1 <? 0 then [45] else [43]) ++
                        String_of_int (Z.abs (n - 1)))).
  { apply is_ascii_app; [repeat constructor; lia|].
    apply is_ascii_app; [destruct (_ <? _); repeat constructor; lia|].
    apply is_ascii_String_of_int. }
  destruct ds as [|d [|d' r]]; [constructor| |].
  - inversion A; subst. constructor; assumption.
  - inversion A as [|? ? Hd Hr]; subst. constructor; [exact Hd|].
    constructor; [lia|]. apply is_ascii_app; assumption.
Qed.

Lemma is_ascii_shortest (p q n : Z) :
  forall (fuel : nat) (k : Z), is_ascii (shortest fuel p q n k).
Proof.
  induction fuel as [|f IH]; intros k; cbn [shortest]; [constructor|].
  destruct (digits_for p q n k) as [s|]; [|apply IH].
  destruct (s =? 10 ^ k); apply is_ascii_layout, is_ascii_String_of_int.
Qed.

Lemma is_ascii_minus_sign (negative : bool) : is_ascii (minus_sign negative).
Proof. destruct negative; repeat constructor; lia. Qed.

Lemma is_ascii_Number_toString (x : Number) : is_ascii (Number_toString x).
Proof.
  destruct x as [n|s m e| |s]; cbn [Number_toString].
  - destruct (_ <=? _); [apply is_ascii_String_of_int|].
    apply is_ascii_app; [apply is_ascii_minus_sign|apply is_ascii_shortest].
  - apply is_ascii_app; [apply is_ascii_minus_sign|apply is_ascii_shortest].
  - repeat constructor; cbn; lia.
  - apply is_ascii_app; [apply is_ascii_minus_sign|repeat constructor; cbn; lia].
Qed.

(* the smaller of two integers *)
Lemma Math_min_Int (a b : Z) : Math_min (Int a) (Int b) = Int (Z.min a b).
Proof.
  cbn [Math_min Number_ltb]. destruct (Z.ltb_spec b a).
  - now rewrite Z.min_r by lia.
  - now rewrite Z.min_l by lia.
Qed.

(* the text of an integer that a double holds exactly *)
Lemma Number_toString_Int (n : Z) :
  Z.abs n <= 2 ^ 53 -> Number_toString (Int n) = String_of_int n.
Proof.
  intros R. cbn [Number_toString]. destruct (Z.leb_spec (Z.abs n) (2 ^ 53)); [reflexivity|lia].
Qed.

Lemma oack_option_blksize (c : Ctx) (v : jsstring) :
  oack_option c (js "blksize", v) =
  Ok (set_blocksize (Math_min (ToNumber v) 1428) c,
      OACK_entry (js "blksize") (Number_toString (Math_min (ToNumber v) 1428))).
Proof.
  unfold oack_option. rewrite jsstring_eqb_refl. cbn [bind blocksize set_blocksize].
  rewrite write_fresh_ascii.
  - unfold OACK_entry, ascii_bytes. rewrite !map_app. reflexivity.
  - apply is_ascii_app; [repeat constructor; cbn; lia|].
    apply is_ascii_app; [repeat constructor; cbn; lia|].
    apply is_ascii_app; [apply is_ascii_Number_toString|repeat constructor; cbn; lia].
Qed.

Lemma oack_options_app (l1 : Map) :
  forall (c : Ctx) (l2 : Map),
  oack_options c (l1 ++ l2) =
  (let* (c1, b1) := oack_options c l1 in
   let* (c2, b2) := oack_options c1 l2 in
   Ok (c2, b1 ++ b2)).
Proof.
  induction l1 as [|kv rest IH]; intros c l2.
  - change ([] ++ l2) with l2. cbn [oack_options bind].
    destruct (oack_options c l2) as [[c2 b2]| |]; reflexivity.
  - change ((kv :: rest) ++ l2) with (kv :: (rest ++ l2)). cbn [oack_options]. destruct (oack_option c kv) as [[c1 b]| |]; try reflexivity.
    cbn [bind]. rewrite IH.
    destruct (oack_options c1 rest) as [[c2 bs]| |]; try reflexivity. cbn [bind].
    destruct (oack_options c2 l2) as [[c3 bs']| |]; reflexivity.
Qed.

(* the keys of a Map are distinct: around an entry no other has its key *)
Lemma NoDup_keys_split (m : Map) (k v : jsstring) :
  NoDup (map fst m) -> In (k, v) m ->
  exists pre post, m = pre ++ (k, v) :: post /\
    Forall (fun kv => fst kv <> k) pre /\ Forall (fun kv => fst kv <> k) post.
Proof.
  intros N I. apply in_split in I. destruct I as (pre & post & ->).
  exists pre, post. split; [reflexivity|].
  rewrite map_app in N. cbn [map fst] in N.
  pose proof (NoDup_remove_2 _ _ _ N) as R.
  split; apply Forall_forall; intros [k' v'] I E; cbn [fst] in E; subst k';
    apply R, in_or_app; [left|right]; change k with (fst (k, v')); now apply in_map.
Qed.

(* the oack state on options that hold a blksize *)
Lemma state_oack_blksize (c : Ctx) (v : jsstring) :
  NoDup (map fst (options c)) -> In (js "blksize", v) (options c) -> try c <= 3 ->
  exists before after,
    state_oack c =
    Ok (mkHandled (set_blocksize (Math_min (ToNumber v) 1428) (set_try (try c + 1) c))
          [Out (clientKey c)
             ([x00; x06] ++ before ++
              OACK_entry (js "blksize") (Number_toString (Math_min (ToNumber v) 1428)) ++
              after)]
          (Some oack_ack) (Some (1000, oack)) None).
Proof.
  intros N I L.
  destruct (NoDup_keys_split _ _ _ N I) as (pre & post & E & Fpre & Fpost).
  unfold state_oack. destruct (Z.ltb_spec 3 (try c)); [lia|].
  cbn [options set_try clientKey]. unfold Map_size.
  rewrite E. rewrite length_app. cbn [length].
  replace (length pre + S (length post) =? 0)%nat with false
    by (symmetry; apply Nat.eqb_neq; lia).
  change (writeUInt16BE (Buffer_alloc 2) 6 0) with (Ok [x00; x06]). cbn [bind].
  rewrite oack_options_app.
  destruct (oack_options_other (set_try (try c + 1) c) pre Fpre) as (b1 & E1).
  rewrite E1. cbn [bind oack_options]. rewrite (oack_option_blksize _ v). cbn [bind].
  destruct (oack_options_other
              (set_blocksize (Math_min (ToNumber v) 1428) (set_try (try c + 1) c))
              post Fpost) as (b2 & E2).
  rewrite E2. cbn [bind].
  exists (concat b1), (concat b2). do 3 f_equal.
  unfold Buffer_concat. cbn [concat]. rewrite concat_app. cbn [concat]. reflexivity.
Qed.

(** ** Repeated option keys *)

Lemma options_loop_pairs :
  forall (fuel : nat) (req : Packet) (opts : Map),
  options_loop fuel req opts =
  (let* (req', ps) := option_pairs fuel req in Ok (req', fold_left put ps opts)).
Proof.
  induction fuel as [|f IH]; intros req opts; [reflexivity|].
  cbn [options_loop option_pairs]. destruct (Packet_endReached req); [reflexivity|].
  destruct (Packet_cstr (S f) req) as [[key req1]| |]; try reflexivity. cbn [bind].
  destruct (Packet_cstr (S f) req1) as [[val req2]| |]; try reflexivity. cbn [bind].
  rewrite IH. destruct (option_pairs f req2) as [[req' ps]| |]; reflexivity.
Qed.

Lemma fold_put_filter (ps : list (jsstring * jsstring)) :
  forall m : Map,
  fold_left put ps m =
  fold_left (fun m kv => Map_set (fst kv) (snd kv) m) (List.filter has_key ps) m.
Proof.
  induction ps as [|[k v] r IH]; intros m; [reflexivity|].
  cbn [fold_left List.filter]. unfold has_key at 1, put at 2. cbn [fst snd].
  destruct k; [apply IH|]. cbn [fold_left fst snd]. apply IH.
Qed.

Lemma Map_set_keys (k v : jsstring) (m : Map) :
  (In k (map fst m) -> map fst (Map_set k v m) = map fst m) /\
  (~ In k (map fst m) -> map fst (Map_set k v m) = map fst m ++ [k]).
Proof.
  induction m as [|[k' v'] m' [IH1 IH2]]; [split; [intros []|reflexivity]|].
  cbn [Map_set map fst]. destruct (jsstring_eqb k' k) eqn:E.
  - apply jsstring_eqb_eq in E. subst k'. split; [reflexivity|].
    intros N. exfalso. apply N. now left.
  - apply jsstring_eqb_neq in E. cbn [map fst]. split.
    + intros [I|I]; [congruence|]. now rewrite IH1.
    + intros N. rewrite IH2; [reflexivity|]. intros I. apply N. now right.
Qed.

Lemma Map_get_set (k k' v : jsstring) (m : Map) :
  Map_get k (Map_set k' v m) = if jsstring_eqb k' k then Some v else Map_get k m.
Proof.
  induction m as [|[k0 v0] m' IH]; cbn [Map_set Map_get]; [reflexivity|].
  destruct (jsstring_eqb k0 k') eqn:E; cbn [Map_get].
  - apply jsstring_eqb_eq in E. subst k0. destruct (jsstring_eqb k' k); reflexivity.
  - rewrite IH. destruct (jsstring_eqb k0 k) eqn:E'; [|reflexivity].
    apply jsstring_eqb_eq in E'. subst k0.
    replace (jsstring_eqb k' k) with false; [reflexivity|].
    symmetry. apply jsstring_eqb_neq. apply jsstring_eqb_neq in E. congruence.
Qed.

Lemma first_occurrences_In (k : jsstring) (ks : list jsstring) :
  In k (first_occurrences ks) <-> In k ks.
Proof.
  induction ks as [|a r IH]; [reflexivity|]. cbn [first_occurrences].
  split.
  - intros [->|I]; [now left|]. apply filter_In in I. right. apply IH, I.
  - intros [->|I]; [now left|].
    destruct (jsstring_eqb k a) eqn:E.
    + apply jsstring_eqb_eq in E. now left.
    + right. apply filter_In. split; [apply IH, I|]. now rewrite E.
Qed.

Lemma first_occurrences_NoDup (ks : list jsstring) : NoDup (first_occurrences ks).
Proof.
  induction ks as [|a r IH]; [constructor|]. cbn [first_occurrences]. constructor.
  - intros I. apply filter_In in I. destruct I as [_ I].
    rewrite jsstring_eqb_refl in I. discriminate.
  - apply NoDup_filter, IH.
Qed.

Lemma first_occurrences_snoc (k : jsstring) (ks : list jsstring) :
  (In k ks -> first_occurrences (ks ++ [k]) = first_occurrences ks) /\
  (~ In k ks -> first_occurrences (ks ++ [k]) = first_occurrences ks ++ [k]).
Proof.
  induction ks as [|a r [IH1 IH2]]; [split; [intros []|reflexivity]|].
  change ((a :: r) ++ [k]) with (a :: (r ++ [k])). cbn [first_occurrences].
  destruct (in_dec (list_eq_dec Z.eq_dec) k r) as [I|N].
  - rewrite (IH1 I). split; [reflexivity|]. intros N. exfalso. apply N. now right.
  - rewrite (IH2 N), filter_app. cbn [List.filter].
    destruct (jsstring_eqb k a) eqn:E; cbn [negb].
    + apply jsstring_eqb_eq in E. subst a. split; [intros _; now rewrite app_nil_r|].
      intros N'. exfalso. apply N'. now left.
    + apply jsstring_eqb_neq in E. split; [|reflexivity].
      intros [->|I]; [congruence|contradiction].
Qed.

(* the keys of the Map after a run of set calls *)
Lemma fold_set_keys (ps : list (jsstring * jsstring)) :
  map fst (fold_left (fun m kv => Map_set (fst kv) (snd kv) m) ps []) =
  first_occurrences (map fst ps).
Proof.
  induction ps as [|[k v] ps IH] using rev_ind; [reflexivity|].
  rewrite fold_left_app, map_app. cbn [fold_left map fst snd].
  destruct (Map_set_keys k v
              (fold_left (fun m kv => Map_set (fst kv) (snd kv) m) ps [])) as [S1 S2].
  destruct (first_occurrences_snoc k (map fst ps)) as [F1 F2].
  rewrite IH in S1, S2.
  destruct (in_dec (list_eq_dec Z.eq_dec) k (map fst ps)) as [I|N].
  - rewrite S1, F1; auto. now apply first_occurrences_In.
  - rewrite S2, F2; auto. intros I. apply N. now apply first_occurrences_In.
Qed.

(* the value of a key after a run of set calls *)
Lemma fold_set_get (k : jsstring) (ps : list (jsstring * jsstring)) :
  forall m : Map,
  Map_get k (fold_left (fun m kv => Map_set (fst kv) (snd kv) m) ps m) =
  match last_value k ps with
  | Some w => Some w
  | None => Map_get k m
  end.
Proof.
  induction ps as [|[k' v] r IH]; intros m; [reflexivity|].
  cbn [fold_left last_value fst snd]. rewrite IH, Map_get_set.
  destruct (last_value k r); [reflexivity|].
  destruct (jsstring_eqb k' k); reflexivity.
Qed.

Lemma last_value_In (k : jsstring) (ps : list (jsstring * jsstring)) :
  In k (map fst ps) -> exists w, last_value k ps = Some w.
Proof.
  induction ps as [|[k' v] r IH]; [intros []|]. cbn [map fst last_value].
  intros [->|I].
  - rewrite jsstring_eqb_refl. destruct (last_value k r); eauto.
  - destruct (IH I) as (w & ->). eauto.
Qed.

(* what the init handler leaves in ctx.options *)
Lemma state_init_options (c : Ctx) (b : Buffer) (h : Handled) :
  request c = Some b -> state_init c = Ok h -> h_next h = Some (to_state getData) ->
  exists req req', buf req = b /\
    options_loop (init_fuel b) req [] = Ok (req', options (h_ctx h)).
Proof.
  intros R E N. unfold state_init in E. rewrite R in E.
  destruct (Packet_uint16 (mkPacket b 0)) as [[op r0]| |] eqn:E0; try discriminate.
  cbn [bind] in E. destruct (negb (op =? 1)).
  { injection E as <-. discriminate. }
  assert (B0 : buf r0 = b).
  { unfold Packet_uint16 in E0. destruct (readUInt16BE _ _); try discriminate.
    injection E0 as _ <-. reflexivity. }
  destruct (Packet_cstr (init_fuel b) r0) as [[name r1]| |] eqn:E1; try discriminate.
  cbn [bind] in E. destruct (length name =? 0)%nat.
  { injection E as <-. discriminate. }
  destruct (Packet_cstr (init_fuel b) r1) as [[md r2]| |] eqn:E2; try discriminate.
  cbn [bind] in E.
  destruct (options_loop (init_fuel b) r2 []) as [[r3 opts]| |] eqn:E3; try discriminate.
  cbn [bind] in E. injection E as <-. cbn [h_ctx options set_options].
  exists r2, r3. split; [|exact E3].
  unfold Packet_cstr in E1, E2.
  destruct (cstr_scan _ (buf r0) _); try discriminate. injection E1 as _ <-.
  destruct (cstr_scan _ _ _); try discriminate. injection E2 as _ <-. exact B0.
Qed.

(** ** Acknowledgements *)

Lemma byte_val_of (v : Z) : byte_val (byte_of v) = v mod 256.
Proof.
  unfold byte_val, byte_of.
  pose proof (Z.mod_pos_bound v 256 ltac:(lia)) as B.
  destruct (Byte.of_N (Z.to_N (v mod 256))) as [b|] eqn:E.
  - apply Byte.to_of_N in E. rewrite E. lia.
  - apply Byte.of_N_None_iff in E. lia.
Qed.

Lemma readUInt16BE_pair (hi lo : byte) (rest : Buffer) :
  readUInt16BE (hi :: lo :: rest) 0 = Ok (byte_val hi * 256 + byte_val lo).
Proof. reflexivity. Qed.

Lemma uint16_bytes (v : Z) :
  0 <= v <= 65535 -> byte_val (byte_of (v / 256)) * 256 + byte_val (byte_of v) = v.
Proof.
  intros R. rewrite !byte_val_of.
  rewrite (Z.mod_small (v / 256)) by (split; [apply Z.div_pos; lia|apply Z.div_lt_upper_bound; lia]).
  pose proof (Z.div_mod v 256 ltac:(lia)). lia.
Qed.

Lemma ack_opcode (blk : Z) : readUInt16BE (ack blk) 0 = Ok 4.
Proof. reflexivity. Qed.

Lemma ack_block (blk : Z) : 0 <= blk <= 65535 -> readUInt16BE (ack blk) 2 = Ok blk.
Proof.
  intros R. unfold ack, readUInt16BE. cbn [nth_error]. now rewrite uint16_bytes.
Qed.

(** ** Waiting for an acknowledgement *)

Lemma listener_mismatch (l : Listener) (c : Ctx) (msg : Buffer) :
  mismatch (expected_block l c) msg -> listener_body l c msg = Ok None.
Proof.
  intros (op & O & H). destruct l; cbn [listener_body expected_block] in *;
    unfold listener_oack, listener_data; rewrite O; cbn [bind];
    (destruct (Z.eqb_spec op 4) as [->|N]; cbn [negb]; [|reflexivity]);
    (destruct H as [H|(b & B & H)]; [congruence|]);
    rewrite B; cbn [bind]; apply Z.eqb_neq in H; rewrite H; reflexivity.
Qed.

Lemma listener_match (l : Listener) (c : Ctx) (a : Buffer) :
  readUInt16BE a 0 = Ok 4 -> readUInt16BE a 2 = Ok (expected_block l c) ->
  listener_body l c a = Ok (Some (acknowledged l c)).
Proof.
  intros O B. destruct l; cbn [listener_body expected_block acknowledged] in *;
    unfold listener_oack, listener_data; rewrite O; cbn [bind Z.eqb Pos.eqb negb];
    rewrite B; cbn [bind]; rewrite ?Z.eqb_refl; cbn [negb Z.eqb]; [reflexivity|].
  destruct (negb _); reflexivity.
Qed.

Lemma deliver_mismatch (m : Fsm) (l : Listener) (msg : Buffer) :
  listener m = Some l -> mismatch (expected_block l (ctx m)) msg ->
  deliver (Datagram msg) m = (m, []).
Proof.
  intros L M. cbn [deliver]. rewrite L, (listener_mismatch _ _ _ M). reflexivity.
Qed.

Lemma run_mismatch (m : Fsm) (l : Listener) (junk : list Buffer) :
  listener m = Some l -> Forall (mismatch (expected_block l (ctx m))) junk ->
  run (map Datagram junk) m = (m, []).
Proof.
  intros L F. induction F as [|msg r M _ IH]; [reflexivity|].
  cbn [map run]. rewrite (deliver_mismatch m l msg L M), IH. reflexivity.
Qed.

Lemma run_app (e1 e2 : list Event) (m : Fsm) :
  run (e1 ++ e2) m =
  (let (m1, es1) := run e1 m in let (m2, es2) := run e2 m1 in (m2, es1 ++ es2)).
Proof.
  revert m. induction e1 as [|ev r IH]; intros m.
  - change ([] ++ e2) with e2. cbn [run]. destruct (run e2 m). reflexivity.
  - change ((ev :: r) ++ e2) with (ev :: (r ++ e2)). cbn [run].
    destruct (deliver ev m) as [m1 es1]. rewrite IH.
    destruct (run r m1) as [m2 es2]. destruct (run e2 m2) as [m3 es3].
    now rewrite app_assoc.
Qed.

(** ** Sending blocks *)

Lemma state_prepare_ok (c : Ctx) :
  0 <= block c < 65535 ->
  state_prepareDataPacket c = Ok (next (prepared c) [] (to_state sendDataPacket)).
Proof.
  intros R. unfold state_prepareDataPacket.
  change (writeUInt16BE (Buffer_alloc 4) 3 0) with (Ok [x00; x03; x00; x00]).
  cbn [bind]. rewrite writeUInt16BE_ok by (cbn [length]; lia). cbn [bind].
  unfold prepared, DATA, Buffer_concat, overwrite.
  cbn [firstn skipn length Nat.add concat app set_packet block data blocksize].
  rewrite !app_nil_r. reflexivity.
Qed.

Lemma state_prepare_overflow (c : Ctx) :
  65535 <= block c -> state_prepareDataPacket c = Throw ERR_OUT_OF_RANGE.
Proof.
  intros R. unfold state_prepareDataPacket.
  change (writeUInt16BE (Buffer_alloc 4) 3 0) with (Ok [x00; x03; x00; x00]).
  cbn [bind]. unfold writeUInt16BE.
  destruct (Z.ltb_spec (block c + 1) 0); [reflexivity|].
  destruct (Z.ltb_spec 65535 (block c + 1)); [reflexivity|lia].
Qed.

Lemma goto_send_ok (f : nat) (c : Ctx) :
  try c <= 3 ->
  goto (S f) sendDataPacket c =
  (awaiting_data (set_try (try c + 1) c),
   [Enter sendDataPacket; Out (clientKey c) (packet c)]).
Proof.
  intros T. cbn [goto state_handler]. unfold state_sendDataPacket.
  destruct (Z.ltb_spec 3 (try c)); [lia|]. reflexivity.
Qed.

Lemma goto_send_abort (f : nat) (c : Ctx) :
  3 < try c ->
  goto (S f) sendDataPacket c =
  (mkFsm (set_try (try c + 1) c) sendDataPacket None None true,
   [Enter sendDataPacket; Final None sendDataPacket]).
Proof.
  intros T. cbn [goto state_handler]. unfold state_sendDataPacket.
  destruct (Z.ltb_spec 3 (try c)); [|lia]. reflexivity.
Qed.

Lemma goto_prepare_ok (f : nat) (c : Ctx) :
  0 <= block c < 65535 ->
  goto (S (S f)) prepareDataPacket c =
  (awaiting_data (set_try 1 (prepared c)),
   [Enter prepareDataPacket; Enter sendDataPacket;
    Out (clientKey c) (packet (prepared c))]).
Proof.
  intros R. cbn [goto state_handler]. rewrite (state_prepare_ok c R).
  cbn [h_next next h_ctx h_effects]. unfold state_sendDataPacket.
  change (3 <? try (prepared c)) with false. reflexivity.
Qed.

(* the final handler on an ASCII message *)
Lemma leave_ascii (c : Ctx) (message : jsstring) (s : StateName) :
  is_ascii message ->
  leave c (Some message) s =
  (mkFsm c s None None true,
   [Final (Some message) s;
    Out (clientKey c)
      ([x00; x05; x00; byte_of (getErrorCode message)] ++ ascii_bytes message ++ [x00])]).
Proof.
  intros A. unfold leave. rewrite final_error. rewrite utf8_write_ascii by (auto; lia).
  rewrite length_map, skipn_repeat_last. reflexivity.
Qed.

Lemma is_ascii_rev (s : jsstring) : is_ascii s -> is_ascii (List.rev s).
Proof. apply Forall_rev. Qed.

Lemma is_ascii_separate :
  forall (n : nat) (ds : jsstring),
  (length ds <= n)%nat -> is_ascii ds -> is_ascii (separate ds).
Proof.
  induction n as [|n IH]; intros ds L A.
  - destruct ds; [constructor|simpl in L; lia].
  - destruct ds as [|a [|b [|c [|d r]]]]; try exact A.
    inversion A as [|? ? Ha A1]; subst. inversion A1 as [|? ? Hb A2]; subst.
    inversion A2 as [|? ? Hc A3]; subst.
    change (separate (a :: b :: c :: d :: r)) with (a :: b :: c :: 95 :: separate (d :: r)).
    repeat (constructor; [assumption || lia|]).
    apply IH; [simpl in *; lia|exact A3].
Qed.

Lemma is_ascii_received (value : Z) : is_ascii (received value).
Proof.
  unfold received. destruct (_ <=? _); [apply is_ascii_String_of_int|].
  apply is_ascii_app; [destruct (_ <? _); repeat constructor; lia|].
  apply is_ascii_rev, (is_ascii_separate (length (List.rev (String_of_int (Z.abs value)))));
    [lia|]. apply is_ascii_rev, is_ascii_String_of_int.
Qed.

Lemma is_ascii_ERR_OUT_OF_RANGE_message (value : Z) :
  is_ascii (ERR_OUT_OF_RANGE_message value).
Proof.
  unfold ERR_OUT_OF_RANGE_message.
  repeat (apply is_ascii_app; [repeat constructor; cbn; lia|]). apply is_ascii_received.
Qed.

(* Block number 65536 does not fit the header: prepareDataPacket raises, the
   machine hands the exception to the final handler, and the connection
   ends with an ERROR datagram of code 0. *)
Lemma goto_prepare_overflow (f : nat) (c : Ctx) :
  65535 <= block c ->
  goto (S f) prepareDataPacket c =
  (mkFsm c prepareDataPacket None None true,
   [Enter prepareDataPacket;
    Final (Some (ERR_OUT_OF_RANGE_message (block c + 1))) prepareDataPacket;
    Out (clientKey c) (out_of_range_datagram (block c + 1))]).
Proof.
  intros R. cbn [goto state_handler]. rewrite (state_prepare_overflow c R).
  cbn [raised_ctx raised_message].
  rewrite leave_ascii by apply is_ascii_ERR_OUT_OF_RANGE_message. reflexivity.
Qed.

(** ** Retransmission *)

Lemma run_unacknowledged :
  forall (evs : list Event) (c : Ctx),
  1 <= try c <= 4 ->
  Forall (unacknowledged (block c)) evs ->
  let left := Z.to_nat (4 - try c) in
  exists m,
    run evs (awaiting_data c) =
      (m, resends (clientKey c) (packet c) (Nat.min left (timeouts evs)) ++
          (if (left <? timeouts evs)%nat
           then [Enter sendDataPacket; Final None sendDataPacket] else [])) /\
    ended m = (left <? timeouts evs)%nat /\
    ((timeouts evs <= left)%nat ->
     m = awaiting_data (set_try (try c + Z.of_nat (timeouts evs)) c)).
Proof.
  induction evs as [|ev r IH]; intros c T F left.
  - exists (awaiting_data c). cbn [run timeouts]. rewrite Nat.min_0_r.
    split; [reflexivity|]. split; [reflexivity|].
    intros _. rewrite Z.add_0_r. destruct c. reflexivity.
  - inversion F as [|? ? U F']; subst. destruct ev as [msg|].
    + cbn [unacknowledged] in U. cbn [run timeouts].
      rewrite (deliver_mismatch (awaiting_data c) data_ack msg eq_refl U).
      destruct (IH c T F') as (m & E & D & W). rewrite E. exists m. auto.
    + cbn [run timeouts deliver awaiting_data timer follow ctx]. unfold chain.
      destruct (Z.le_gt_cases (try c) 3) as [L|L].
      * rewrite (goto_send_ok _ c L).
        destruct (IH (set_try (try c + 1) c)) as (m & E & D & W);
          [cbn [try set_try]; lia|exact F'|].
        cbn [try set_try clientKey packet block] in E, D, W. rewrite E.
        assert (P : left = S (Z.to_nat (4 - (try c + 1)))) by (unfold left; lia).
        clearbody left. subst left. set (k := Z.to_nat (4 - (try c + 1))) in *.
        exists m. cbn [Nat.min resends Nat.ltb Nat.leb app].
        split; [reflexivity|]. split; [exact D|].
        intros Le. rewrite W by lia. unfold awaiting_data, set_try.
        cbn [clientKey routes request filename mode options data block blocksize packet].
        do 2 f_equal. lia.
      * rewrite (goto_send_abort _ c L). rewrite run_quiet by reflexivity.
        assert (P : left = O) by (unfold left; lia). clearbody left. subst left.
        eexists. cbn [Nat.min resends Nat.ltb Nat.leb app ended].
        split; [reflexivity|]. split; [reflexivity|]. lia.
Qed.

Lemma sent_app (a b : list Effect) : sent (a ++ b) = sent a ++ sent b.
Proof.
  induction a as [|e a IH]; [reflexivity|].
  change ((e :: a) ++ b) with (e :: (a ++ b)).
  destruct e; cbn [sent]; rewrite IH; reflexivity.
Qed.

Lemma sent_resends (key : jsstring) (pkt : Buffer) (n : nat) :
  sent (resends key pkt n) = repeat pkt n.
Proof. induction n as [|n IH]; [reflexivity|]. cbn [resends sent repeat]. now rewrite IH. Qed.

(** C2. A block that is never acknowledged is sent four times: once when
    the sendDataPacket state is entered after the block was prepared and
    once on each of the first three timeouts, the same packet each time.
    The fourth timeout ends the connection through the final handler
    without an error, so no ERROR datagram is sent: the datagrams of the
    whole run are copies of the DATA packet. Datagrams that do not
    acknowledge the block change nothing in between. *)
Theorem C2_retransmission_bound (c : Ctx) (evs : list Event) :
  0 <= block c < 65535 ->
  Forall (unacknowledged (block c + 1)) evs ->
  let pkt := DATA (block c + 1)
               (Buffer_slice_between (data c) (Number_times (block c) (blocksize c))
                  (Number_times (block c + 1) (blocksize c))) in
  let t := timeouts evs in
  snd (transfer c evs) =
    [Enter prepareDataPacket; Enter sendDataPacket; Out (clientKey c) pkt] ++
    resends (clientKey c) pkt (Nat.min 3 t) ++
    (if (3 <? t)%nat then [Enter sendDataPacket; Final None sendDataPacket] else []) /\
  sent (snd (transfer c evs)) = repeat pkt (Nat.min 4 (S t)) /\
  ended (fst (transfer c evs)) = (3 <? t)%nat.
Proof.
  intros R F pkt t. unfold transfer, chain. rewrite (goto_prepare_ok _ c R).
  destruct (run_unacknowledged evs (set_try 1 (prepared c))) as (m & E & D & _);
    [cbn; lia|exact F|].
  change (Z.to_nat (4 - try (set_try 1 (prepared c)))) with 3%nat in E, D.
  change (clientKey (set_try 1 (prepared c))) with (clientKey c) in E.
  change (packet (set_try 1 (prepared c))) with pkt in E.
  change (packet (prepared c)) with pkt.
  rewrite E. cbn [fst snd]. fold t. split; [reflexivity|]. split; [|exact D].
  rewrite !sent_app, sent_resends. cbn [sent app].
  destruct (3 <? t)%nat; cbn [sent]; rewrite app_nil_r; reflexivity.
Qed.

Lemma C2_retransmission_bound_witness :
  let c := set_blocksize 512 (set_data [x61; x62] (new_ctx [] [] [])) in
  let evs := [Timeout; Datagram (ack 7); Timeout; Timeout; Timeout; Timeout] in
  sent (snd (transfer c evs)) = repeat (DATA 1 [x61; x62]) 4 /\
  ended (fst (transfer c evs)) = true.
Proof.
  intros c evs.
  destruct (C2_retransmission_bound c evs) as (_ & S & D).
  - cbn. lia.
  - repeat constructor.
    exists 4. split; [reflexivity|]. right. exists 7. split; [reflexivity|].
    cbn. lia.
  - split; [exact S|exact D].
Defined.

(** ** Transferring a data source *)

(* with a block size that is an integer, the indices of the slice and the
   length test are those of integers *)
Lemma prepared_Int (c : Ctx) (bs : Z) :
  blocksize c = Int bs ->
  prepared c =
  set_try 0
    (set_block (block c + 1)
       (set_packet
          (DATA (block c + 1)
             (Buffer_slice (data c) (block c * bs) ((block c + 1) * bs))) c)).
Proof. intros B. unfold prepared. rewrite B. reflexivity. Qed.

Lemma acknowledged_Int (c : Ctx) (bs : Z) :
  blocksize c = Int bs ->
  acknowledged data_ack c =
  if negb (Z.of_nat (length (packet c)) =? bs + 4) then to_null
  else to_state prepareDataPacket.
Proof. intros B. cbn [acknowledged]. rewrite B. reflexivity. Qed.

Lemma Buffer_slice_length (d : Buffer) (s e : Z) :
  0 <= s <= e ->
  length (Buffer_slice d s e) =
  Z.to_nat (Z.min e (Z.of_nat (length d)) - Z.min s (Z.of_nat (length d))).
Proof.
  intros R. unfold Buffer_slice, clampIndex.
  destruct (Z.ltb_spec s 0); [lia|]. destruct (Z.ltb_spec e 0); [lia|].
  rewrite length_firstn, length_skipn. lia.
Qed.

Lemma Buffer_slice_past_end (d : Buffer) (s e : Z) :
  Z.of_nat (length d) <= s -> s <= e -> Buffer_slice d s e = [].
Proof.
  intros L R. apply length_zero_iff_nil. rewrite Buffer_slice_length by lia. lia.
Qed.

Lemma Buffer_slice_whole (d : Buffer) (e : Z) :
  Z.of_nat (length d) <= e -> Buffer_slice d 0 e = d.
Proof.
  intros L. unfold Buffer_slice, clampIndex. cbn [Z.ltb Z.compare].
  destruct (Z.ltb_spec e 0); [lia|].
  rewrite (Z.min_l 0), (Z.min_r e) by lia. cbn [Z.to_nat skipn].
  rewrite Z.sub_0_r, Nat2Z.id. apply firstn_all.
Qed.

Lemma acks_snoc (n : nat) :
  forall k : Z, acks k (S n) = acks k n ++ [Datagram (ack (k + Z.of_nat n))].
Proof.
  induction n as [|n IH]; intros k.
  - cbn [acks app Z.of_nat]. now rewrite Z.add_0_r.
  - change (acks k (S (S n))) with (Datagram (ack k) :: acks (k + 1) (S n)).
    rewrite IH. cbn [acks app].
    replace (k + 1 + Z.of_nat n) with (k + Z.of_nat (S n)) by lia. reflexivity.
Qed.

Lemma sends_snoc (key : jsstring) (d : Buffer) (bs : Z) (n : nat) :
  forall j : Z,
  sends key d bs j (S n) =
  sends key d bs j n ++
  [Enter prepareDataPacket; Enter sendDataPacket;
   Out key (DATA (j + Z.of_nat n + 1)
              (Buffer_slice d ((j + Z.of_nat n) * bs) ((j + Z.of_nat n + 1) * bs)))].
Proof.
  induction n as [|n IH]; intros j.
  - cbn [sends app Z.of_nat]. now rewrite Z.add_0_r.
  - change (sends key d bs j (S (S n))) with
      (Enter prepareDataPacket :: Enter sendDataPacket ::
       Out key (DATA (j + 1) (Buffer_slice d (j * bs) ((j + 1) * bs))) ::
       sends key d bs (j + 1) (S n)).
    rewrite IH. cbn [sends app].
    replace (j + 1 + Z.of_nat n) with (j + Z.of_nat (S n)) by lia. reflexivity.
Qed.

Lemma sent_sends_length (key : jsstring) (d : Buffer) (bs : Z) (n : nat) :
  forall j : Z, length (sent (sends key d bs j n)) = n.
Proof. induction n as [|n IH]; intros j; cbn [sends sent length]; [|rewrite IH]; reflexivity. Qed.

Lemma deliver_ack (c : Ctx) :
  0 <= block c <= 65535 ->
  deliver (Datagram (ack (block c))) (awaiting_data c) =
  follow (acknowledged data_ack c) (awaiting_data c).
Proof.
  intros R. cbn [deliver awaiting_data listener ctx].
  rewrite (listener_match data_ack c (ack (block c))); [reflexivity|apply ack_opcode|].
  now apply ack_block.
Qed.

Lemma DATA_length (blk : Z) (payload : Buffer) :
  Z.of_nat (length (DATA blk payload)) = Z.of_nat (length payload) + 4.
Proof. unfold DATA. rewrite length_app. cbn [length]. lia. Qed.

Lemma prepared_set_try (t : Z) (c : Ctx) : prepared (set_try t c) = prepared c.
Proof. destruct c. reflexivity. Qed.

Lemma packet_prepared_Int (c : Ctx) (bs : Z) :
  blocksize c = Int bs ->
  packet (prepared c) =
  DATA (block c + 1) (Buffer_slice (data c) (block c * bs) ((block c + 1) * bs)).
Proof. intros B. rewrite (prepared_Int c bs B). reflexivity. Qed.

Lemma goto_prepare_Int (f : nat) (c : Ctx) (bs : Z) :
  blocksize c = Int bs -> 0 <= block c < 65535 ->
  goto (S (S f)) prepareDataPacket c =
  (awaiting_data (set_try 1 (prepared c)),
   [Enter prepareDataPacket; Enter sendDataPacket;
    Out (clientKey c)
      (DATA (block c + 1) (Buffer_slice (data c) (block c * bs) ((block c + 1) * bs)))]).
Proof.
  intros B R. rewrite goto_prepare_ok by exact R. now rewrite (packet_prepared_Int c bs B).
Qed.

(* the ACK of a full block goes on to the next block, the ACK of a shorter
   one ends the connection *)
Lemma full_block_acknowledged (c : Ctx) (bs t : Z) :
  blocksize c = Int bs -> 0 <= block c -> 1 <= bs ->
  (block c + 1) * bs <= Z.of_nat (length (data c)) ->
  acknowledged data_ack (set_try t (prepared c)) = to_state prepareDataPacket.
Proof.
  intros B B0 S L.
  rewrite (acknowledged_Int _ bs) by exact B.
  change (packet (set_try t (prepared c))) with (packet (prepared c)).
  rewrite (packet_prepared_Int c bs B), DATA_length, Buffer_slice_length by nia.
  replace (_ =? _) with true; [reflexivity|]. symmetry. apply Z.eqb_eq. nia.
Qed.

Lemma short_block_acknowledged (c : Ctx) (bs t : Z) :
  blocksize c = Int bs -> 0 <= block c -> 1 <= bs ->
  Z.of_nat (length (data c)) < (block c + 1) * bs ->
  acknowledged data_ack (set_try t (prepared c)) = to_null.
Proof.
  intros B B0 S L.
  rewrite (acknowledged_Int _ bs) by exact B.
  change (packet (set_try t (prepared c))) with (packet (prepared c)).
  rewrite (packet_prepared_Int c bs B), DATA_length, Buffer_slice_length by nia.
  replace (_ =? _) with false; [reflexivity|]. symmetry. apply Z.eqb_neq. nia.
Qed.

(* After [j] blocks, with [n] more full blocks in the data source, the ACKs
   of the next [n] blocks leave the machine waiting for the ACK of block
   [j + n + 1], which it has sent. *)
Lemma run_full_blocks :
  forall (n : nat) (c : Ctx) (bs : Z),
  blocksize c = Int bs ->
  0 <= block c -> block c + Z.of_nat n < 65535 -> 1 <= bs ->
  (block c + Z.of_nat n) * bs <= Z.of_nat (length (data c)) ->
  exists c',
    run (acks (block c + 1) n) (awaiting_data (set_try 1 (prepared c))) =
      (awaiting_data (set_try 1 (prepared c')),
       sends (clientKey c) (data c) bs (block c + 1) n) /\
    block c' = block c + Z.of_nat n /\ data c' = data c /\
    blocksize c' = blocksize c /\ clientKey c' = clientKey c.
Proof.
  induction n as [|n IH]; intros c bs B B0 B1 S L.
  - exists c. cbn [acks run sends]. repeat split. lia.
  - cbn [acks run].
    set (c1 := set_try 1 (prepared c)).
    change (block c + 1) with (block c1). rewrite deliver_ack by (cbn; lia).
    unfold c1 at 1. rewrite (full_block_acknowledged c bs 1 B) by nia.
    cbn [follow awaiting_data ctx]. unfold chain.
    rewrite (goto_prepare_Int _ c1 bs) by (try exact B; cbn; lia).
    destruct (IH c1 bs) as (c' & E & Bk & Dt & Bs & Ky); try exact B; try (cbn; nia).
    rewrite E. exists c'. split.
    + reflexivity.
    + cbn in Bk, Dt, Bs, Ky. repeat split; try assumption. lia.
Qed.

Lemma transfer_full_blocks (c : Ctx) (bs : Z) (n : nat) :
  blocksize c = Int bs ->
  0 <= block c -> block c + Z.of_nat n < 65535 -> 1 <= bs ->
  (block c + Z.of_nat n) * bs <= Z.of_nat (length (data c)) ->
  exists c',
    transfer c (acks (block c + 1) n) =
      (awaiting_data (set_try 1 (prepared c')),
       sends (clientKey c) (data c) bs (block c) (S n)) /\
    block c' = block c + Z.of_nat n /\ data c' = data c /\
    blocksize c' = blocksize c /\ clientKey c' = clientKey c.
Proof.
  intros B B0 B1 S L. unfold transfer, chain. rewrite (goto_prepare_Int _ c bs) by (auto; lia).
  destruct (run_full_blocks n c bs B B0 B1 S L) as (c' & E & H).
  rewrite E. exists c'. split; [reflexivity|exact H].
Qed.

Lemma transfer_app (c : Ctx) (e1 e2 : list Event) :
  transfer c (e1 ++ e2) =
  (let (m1, es1) := transfer c e1 in
   let (m2, es2) := run e2 m1 in (m2, es1 ++ es2)).
Proof.
  unfold transfer. destruct (goto chain prepareDataPacket c) as [m0 es0].
  rewrite run_app. destruct (run e1 m0) as [m1 es1]. destruct (run e2 m1) as [m2 es2].
  now rewrite app_assoc.
Qed.

(* The ACK of a block that is not full ends the connection without an
   error. *)
Lemma short_block_ends (c : Ctx) (bs : Z) (evs : list Event) :
  blocksize c = Int bs ->
  0 <= block c < 65535 -> 1 <= bs ->
  Z.of_nat (length (data c)) < (block c + 1) * bs ->
  run (Datagram (ack (block c + 1)) :: evs) (awaiting_data (set_try 1 (prepared c))) =
  (mkFsm (set_try 1 (prepared c)) sendDataPacket None None true,
   [Final None sendDataPacket]).
Proof.
  intros B B0 S L. cbn [run]. set (c1 := set_try 1 (prepared c)).
  change (block c + 1) with (block c1). rewrite deliver_ack by (cbn; lia).
  unfold c1 at 1. rewrite (short_block_acknowledged c bs 1 B) by lia.
  cbn [follow awaiting_data ctx current]. unfold leave. cbn [final].
  rewrite run_quiet by reflexivity. reflexivity.
Qed.

(* Block number 65536 does not fit the header: when the ACK of block 65535
   asks for it, the connection ends with an ERROR datagram. *)
Lemma block_number_overflow (c : Ctx) (bs : Z) (evs : list Event) :
  blocksize c = Int bs ->
  block c = 65534 -> 1 <= bs ->
  65535 * bs <= Z.of_nat (length (data c)) ->
  run (Datagram (ack 65535) :: evs) (awaiting_data (set_try 1 (prepared c))) =
  (mkFsm (set_try 1 (prepared c)) prepareDataPacket None None true,
   [Enter prepareDataPacket;
    Final (Some (ERR_OUT_OF_RANGE_message 65536)) prepareDataPacket;
    Out (clientKey c) (out_of_range_datagram 65536)]).
Proof.
  intros B B0 S L. cbn [run]. set (c1 := set_try 1 (prepared c)).
  assert (B1 : block c1 = 65535) by (cbn; lia).
  rewrite <- B1 at 1. rewrite deliver_ack by lia.
  unfold c1 at 1. rewrite (full_block_acknowledged c bs 1 B) by lia.
  cbn [follow awaiting_data ctx]. unfold chain.
  rewrite (goto_prepare_overflow _ c1) by lia. rewrite B1.
  rewrite run_quiet by reflexivity. reflexivity.
Qed.

(** *** Blocks that are sent again *)

(* a wait for the ACK of a block: each of its at most three timeouts sends
   the block again *)
Lemma run_wait (c : Ctx) (w : list Event) :
  try c = 1 -> Forall (unacknowledged (block c)) w -> (timeouts w <= 3)%nat ->
  run w (awaiting_data c) =
  (awaiting_data (set_try (1 + Z.of_nat (timeouts w)) c),
   resends (clientKey c) (packet c) (timeouts w)).
Proof.
  intros T F L. destruct (run_unacknowledged w c) as (m & E & _ & W); [lia|exact F|].
  rewrite T in E, W. change (Z.to_nat (4 - 1)) with 3%nat in E, W.
  rewrite E, W by exact L. rewrite Nat.min_r by exact L.
  replace (3 <? timeouts w)%nat with false by (symmetry; apply Nat.ltb_ge; exact L).
  now rewrite app_nil_r.
Qed.

(* a round of the transfer: block [block c + 1] is prepared and sent, sent
   again on each timeout of [w], and acknowledged *)
Lemma transfer_round_full (c : Ctx) (bs : Z) (w rest : list Event) :
  blocksize c = Int bs -> 0 <= block c < 65535 -> 1 <= bs ->
  (block c + 1) * bs <= Z.of_nat (length (data c)) ->
  Forall (unacknowledged (block c + 1)) w -> (timeouts w <= 3)%nat ->
  transfer c (w ++ Datagram (ack (block c + 1)) :: rest) =
  (let (m, es) := transfer (set_try (1 + Z.of_nat (timeouts w)) (prepared c)) rest in
   (m, delivery (clientKey c) (data c) bs (block c) w ++ es)).
Proof.
  intros B B0 S L F T. unfold transfer at 1, chain.
  rewrite (goto_prepare_Int _ c bs) by (auto; lia).
  rewrite run_app. set (c1 := set_try 1 (prepared c)).
  rewrite (run_wait c1 w) by (auto; reflexivity).
  cbn [run]. set (c2 := set_try (1 + Z.of_nat (timeouts w)) c1).
  change (block c + 1) with (block c2). rewrite deliver_ack by (cbn; lia).
  assert (A : acknowledged data_ack c2 = to_state prepareDataPacket).
  { change c2 with (set_try (1 + Z.of_nat (timeouts w)) (prepared c)).
    apply (full_block_acknowledged c bs); auto; lia. }
  rewrite A. cbn [follow awaiting_data ctx].
  change c2 with (set_try (1 + Z.of_nat (timeouts w)) (prepared c)).
  unfold transfer.
  destruct (goto chain prepareDataPacket _) as [m0 es0].
  destruct (run rest m0) as [m es].
  unfold delivery. change (clientKey c1) with (clientKey c).
  change (packet c1) with (packet (prepared c)).
  rewrite (packet_prepared_Int c bs B). flatten. reflexivity.
Qed.

Lemma transfer_round_short (c : Ctx) (bs : Z) (w rest : list Event) :
  blocksize c = Int bs -> 0 <= block c < 65535 -> 1 <= bs ->
  Z.of_nat (length (data c)) < (block c + 1) * bs ->
  Forall (unacknowledged (block c + 1)) w -> (timeouts w <= 3)%nat ->
  transfer c (w ++ Datagram (ack (block c + 1)) :: rest) =
  (mkFsm (set_try (1 + Z.of_nat (timeouts w)) (prepared c)) sendDataPacket None None true,
   delivery (clientKey c) (data c) bs (block c) w ++ [Final None sendDataPacket]).
Proof.
  intros B B0 S L F T. unfold transfer, chain.
  rewrite (goto_prepare_Int _ c bs) by (auto; lia).
  rewrite run_app. set (c1 := set_try 1 (prepared c)).
  rewrite (run_wait c1 w) by (auto; reflexivity).
  cbn [run]. set (c2 := set_try (1 + Z.of_nat (timeouts w)) c1).
  change (block c + 1) with (block c2). rewrite deliver_ack by (cbn; lia).
  assert (A : acknowledged data_ack c2 = to_null).
  { change c2 with (set_try (1 + Z.of_nat (timeouts w)) (prepared c)).
    apply (short_block_acknowledged c bs); auto; lia. }
  rewrite A. cbn [follow awaiting_data ctx current]. unfold leave. cbn [final].
  rewrite run_quiet by reflexivity.
  unfold delivery. change (clientKey c1) with (clientKey c).
  change (packet c1) with (packet (prepared c)).
  rewrite (packet_prepared_Int c bs B). flatten. reflexivity.
Qed.

Lemma timeouts_app (a b : list Event) :
  timeouts (a ++ b) = (timeouts a + timeouts b)%nat.
Proof.
  induction a as [|e a IH]; [reflexivity|].
  change ((e :: a) ++ b) with (e :: (a ++ b)). destruct e; cbn [timeouts]; rewrite IH; lia.
Qed.

Lemma rounds_app (a b : list (list Event)) :
  forall k : Z, rounds k (a ++ b) = rounds k a ++ rounds (k + Z.of_nat (length a)) b.
Proof.
  induction a as [|w a IH]; intros k.
  - cbn [app rounds length Z.of_nat]. now rewrite Z.add_0_r.
  - change ((w :: a) ++ b) with (w :: (a ++ b)). cbn [rounds]. rewrite IH.
    replace (k + 1 + Z.of_nat (length a)) with (k + Z.of_nat (length (w :: a)))
      by (cbn [length]; lia).
    flatten. reflexivity.
Qed.

Lemma deliveries_app (key : jsstring) (d : Buffer) (bs : Z) (a b : list (list Event)) :
  forall j : Z,
  deliveries key d bs j (a ++ b) =
  deliveries key d bs j a ++ deliveries key d bs (j + Z.of_nat (length a)) b.
Proof.
  induction a as [|w a IH]; intros j.
  - cbn [app deliveries length Z.of_nat]. now rewrite Z.add_0_r.
  - change ((w :: a) ++ b) with (w :: (a ++ b)). cbn [deliveries]. rewrite IH.
    replace (j + 1 + Z.of_nat (length a)) with (j + Z.of_nat (length (w :: a)))
      by (cbn [length]; lia).
    now rewrite app_assoc.
Qed.

Lemma copies_app (d : Buffer) (bs : Z) (a b : list (list Event)) :
  forall j : Z,
  copies d bs j (a ++ b) = copies d bs j a ++ copies d bs (j + Z.of_nat (length a)) b.
Proof.
  induction a as [|w a IH]; intros j.
  - cbn [app copies length Z.of_nat]. now rewrite Z.add_0_r.
  - change ((w :: a) ++ b) with (w :: (a ++ b)). cbn [copies]. rewrite IH.
    replace (j + 1 + Z.of_nat (length a)) with (j + Z.of_nat (length (w :: a)))
      by (cbn [length]; lia).
    now rewrite app_assoc.
Qed.

Lemma sent_delivery (key : jsstring) (d : Buffer) (bs j : Z) (w : list Event) :
  sent (delivery key d bs j w) =
  repeat (DATA (j + 1) (Buffer_slice d (j * bs) ((j + 1) * bs))) (S (timeouts w)).
Proof. unfold delivery. rewrite sent_app, sent_resends. reflexivity. Qed.

Lemma sent_deliveries (key : jsstring) (d : Buffer) (bs : Z) (waits : list (list Event)) :
  forall j : Z, sent (deliveries key d bs j waits) = copies d bs j waits.
Proof.
  induction waits as [|w r IH]; intros j; [reflexivity|].
  cbn [deliveries copies]. now rewrite sent_app, sent_delivery, IH.
Qed.

(* each block once, and once more for each timeout *)
Lemma copies_length (d : Buffer) (bs : Z) (waits : list (list Event)) :
  forall j k : Z,
  length (copies d bs j waits) = (length waits + timeouts (rounds k waits))%nat.
Proof.
  induction waits as [|w r IH]; intros j k; [reflexivity|].
  cbn [copies rounds length]. rewrite length_app, repeat_length, timeouts_app.
  cbn [timeouts]. rewrite (IH (j + 1) (k + 1)). lia.
Qed.

Lemma last_app_repeat {A : Type} (l : list A) (x y : A) (n : nat) :
  last (l ++ repeat x (S n)) y = x.
Proof.
  change (repeat x (S n)) with (x :: repeat x n).
  rewrite repeat_cons, app_assoc. apply last_last.
Qed.

Lemma patient_app (a b : list (list Event)) :
  forall k : Z,
  patient k (a ++ b) <-> patient k a /\ patient (k + Z.of_nat (length a)) b.
Proof.
  induction a as [|w a IH]; intros k.
  - cbn [app patient length Z.of_nat]. rewrite Z.add_0_r. tauto.
  - change ((w :: a) ++ b) with (w :: (a ++ b)). cbn [patient]. rewrite IH.
    replace (k + 1 + Z.of_nat (length a)) with (k + Z.of_nat (length (w :: a)))
      by (cbn [length]; lia).
    tauto.
Qed.

(* Rounds of full blocks: each is prepared, sent, sent again on the
   timeouts of its wait, and acknowledged; the transfer then goes on from
   the context [c'] with what follows. *)
Lemma transfer_rounds_full (bs : Z) (rest : list Event) :
  forall (waits : list (list Event)) (c : Ctx),
  blocksize c = Int bs -> 0 <= block c ->
  block c + Z.of_nat (length waits) <= 65535 -> 1 <= bs ->
  (block c + Z.of_nat (length waits)) * bs <= Z.of_nat (length (data c)) ->
  patient (block c + 1) waits ->
  exists c',
    transfer c (rounds (block c + 1) waits ++ rest) =
      (let (m, es) := transfer c' rest in
       (m, deliveries (clientKey c) (data c) bs (block c) waits ++ es)) /\
    block c' = block c + Z.of_nat (length waits) /\ data c' = data c /\
    blocksize c' = blocksize c /\ clientKey c' = clientKey c.
Proof.
  induction waits as [|w r IH]; intros c B B0 B1 S L P.
  - exists c. change (rounds (block c + 1) [] ++ rest) with rest.
    destruct (transfer c rest) as [m es]. split; [reflexivity|].
    cbn [length Z.of_nat]. repeat split. lia.
  - cbn [length] in B1, L. destruct P as (F & T & P).
    cbn [rounds]. rewrite <- app_assoc, <- app_comm_cons.
    rewrite (transfer_round_full c bs w) by (auto; try lia; nia).
    set (c1 := set_try (1 + Z.of_nat (timeouts w)) (prepared c)).
    destruct (IH c1) as (c' & E & Bk & Dt & Bs & Ky);
      try exact B; try exact P; try (cbn; lia); try (cbn; nia).
    change (block c1 + 1) with (block c + 1 + 1) in E. rewrite E.
    exists c'. split.
    + destruct (transfer c' rest) as [m es]. cbn [deliveries].
      change (clientKey c1) with (clientKey c). change (data c1) with (data c).
      change (block c1) with (block c + 1). now rewrite app_assoc.
    + cbn in Bk, Dt, Bs, Ky. cbn [length]. repeat split; try assumption. lia.
Qed.

(** C1 (as amended). With a block size that is an integer of at least 1 and
    a data source of exactly N block sizes, N at most 65534, a transfer in
    which every DATA packet is acknowledged in the end, after at most three
    timeouts and any datagrams that are no ACK of its block, sends N + 1
    different DATA packets, blocks 1 to N + 1 in order, each once and once
    more for each timeout of its wait; the last one has no payload, and the
    connection ends without an error on the ACK of block N + 1 (not
    before). A data source shorter than the block size is sent in one DATA
    packet, block 1 with the whole data, again once more for each timeout,
    and its ACK ends the connection. [waits] are the waits for the ACKs of
    blocks 1 to N, [w] is the wait for the last ACK. *)
Theorem C1_block_count (c : Ctx) (bs : Z) (waits : list (list Event)) (w : list Event) :
  block c = 0 -> blocksize c = Int bs -> 1 <= bs ->
  (let N := length waits in
   let r := transfer c (rounds 1 (waits ++ [w])) in
   Z.of_nat N < 65535 -> patient 1 (waits ++ [w]) ->
   Z.of_nat (length (data c)) = Z.of_nat N * bs ->
     snd r = deliveries (clientKey c) (data c) bs 0 (waits ++ [w]) ++
             [Final None sendDataPacket] /\
     sent (snd r) = copies (data c) bs 0 (waits ++ [w]) /\
     length (sent (snd r)) = (S N + timeouts (rounds 1 (waits ++ [w])))%nat /\
     last (sent (snd r)) [] = DATA (Z.of_nat N + 1) [] /\
     ended (fst r) = true /\
     ended (fst (transfer c (rounds 1 waits ++ w))) = false) /\
  (let r := transfer c (rounds 1 [w]) in
   patient 1 [w] ->
   Z.of_nat (length (data c)) < bs ->
     snd r = delivery (clientKey c) (data c) bs 0 w ++ [Final None sendDataPacket] /\
     sent (snd r) = repeat (DATA 1 (data c)) (S (timeouts w)) /\
     ended (fst r) = true).
Proof.
  intros B0 B HS. split.
  - intros N r NN P L.
    assert (Pw : patient 1 waits /\ Forall (unacknowledged (1 + Z.of_nat N)) w /\
                 (timeouts w <= 3)%nat).
    { apply patient_app in P. cbn [patient] in P. fold N in P. tauto. }
    destruct Pw as (Pf & Fw & Tw).
    assert (Run : forall rest, exists c',
              transfer c (rounds 1 waits ++ rest) =
                (let (m, es) := transfer c' rest in
                 (m, deliveries (clientKey c) (data c) bs 0 waits ++ es)) /\
              block c' = Z.of_nat N /\ data c' = data c /\
              blocksize c' = Int bs /\ clientKey c' = clientKey c).
    { intros rest.
      assert (H0 : 0 <= block c) by lia.
      assert (H1 : block c + Z.of_nat (length waits) <= 65535) by (fold N; lia).
      assert (H2 : (block c + Z.of_nat (length waits)) * bs <= Z.of_nat (length (data c)))
        by (fold N; rewrite B0, L; lia).
      assert (H3 : patient (block c + 1) waits) by (rewrite B0; exact Pf).
      destruct (transfer_rounds_full bs rest waits c B H0 H1 HS H2 H3)
        as (c' & E & Bk & Dt & Bs & Ky).
      rewrite B0 in E, Bk. exists c'. split; [exact E|].
      fold N in Bk. rewrite Bs. repeat split; auto. }
    destruct (Run (w ++ [Datagram (ack (1 + Z.of_nat N))])) as (c' & E & Bk & Dt & Bs & Ky).
    assert (R : r = (mkFsm (set_try (1 + Z.of_nat (timeouts w)) (prepared c'))
                       sendDataPacket None None true,
                     deliveries (clientKey c) (data c) bs 0 (waits ++ [w]) ++
                     [Final None sendDataPacket])).
    { unfold r. rewrite rounds_app. cbn [rounds]. fold N. rewrite E.
      replace (1 + Z.of_nat N) with (block c' + 1) by lia.
      rewrite (transfer_round_short c' bs w []);
        try (rewrite ?Bk, ?Dt; auto; lia); try (rewrite ?Bk, ?Dt; nia).
      + rewrite deliveries_app. cbn [deliveries]. fold N.
        rewrite Ky, Dt, Bk, Z.add_0_l, app_nil_r, app_assoc. reflexivity.
      + rewrite Bk. replace (Z.of_nat N + 1) with (1 + Z.of_nat N) by lia. exact Fw. }
    rewrite R. cbn [fst snd ended].
    rewrite sent_app, sent_deliveries. cbn [sent]. rewrite app_nil_r.
    split; [reflexivity|]. split; [reflexivity|]. split; [|split; [|split; [reflexivity|]]].
    + rewrite (copies_length _ _ _ 0 1), length_app. cbn [length]. fold N. lia.
    + rewrite copies_app. cbn [copies]. rewrite (app_nil_r (repeat _ _)). fold N.
      rewrite Z.add_0_l.
      rewrite last_app_repeat, Buffer_slice_past_end by nia. reflexivity.
    + destruct (Run w) as (c'' & E' & Bk' & Dt' & Bs' & Ky'). rewrite E'.
      unfold transfer, chain. rewrite goto_prepare_ok by lia.
      rewrite (run_wait (set_try 1 (prepared c'')) w);
        [reflexivity|reflexivity| |exact Tw].
      cbn [block set_try prepared set_block set_packet]. rewrite Bk'.
      replace (Z.of_nat N + 1) with (1 + Z.of_nat N) by lia. exact Fw.
  - intros r (F & T & _) L.
    assert (R : r = (mkFsm (set_try (1 + Z.of_nat (timeouts w)) (prepared c))
                       sendDataPacket None None true,
                     delivery (clientKey c) (data c) bs 0 w ++ [Final None sendDataPacket])).
    { unfold r. cbn [rounds]. replace 1 with (block c + 1) at 1 by lia.
      rewrite (transfer_round_short c bs w []) by (rewrite ?B0; auto; lia).
      now rewrite B0. }
    rewrite R. cbn [fst snd ended]. split; [reflexivity|]. split; [|reflexivity].
    rewrite sent_app, sent_delivery. cbn [sent]. rewrite app_nil_r.
    change (0 + 1) with 1. change (0 * bs) with 0. rewrite Z.mul_1_l.
    rewrite Buffer_slice_whole by lia. reflexivity.
Qed.

Lemma C1_block_count_witness :
  (let c := set_blocksize 2 (set_data [x61; x62; x63; x64] (new_ctx [] [] [])) in
   let evs := [Timeout; Datagram (ack 1); Datagram (ack 1); Datagram (ack 2);
               Timeout; Timeout; Datagram (ack 3)] in
   sent (snd (transfer c evs)) =
     [DATA 1 [x61; x62]; DATA 1 [x61; x62]; DATA 2 [x63; x64];
      DATA 3 []; DATA 3 []; DATA 3 []] /\
   ended (fst (transfer c evs)) = true) /\
  (let c := set_blocksize 512 (set_data [x61; x62; x63] (new_ctx [] [] [])) in
   sent (snd (transfer c [Datagram (ack 1)])) = [DATA 1 [x61; x62; x63]] /\
   ended (fst (transfer c [Datagram (ack 1)])) = true).
Proof.
  split; intros c.
  - intros evs.
    destruct (C1_block_count c 2 [[Timeout]; [Datagram (ack 1)]] [Timeout; Timeout])
      as [[_ [T [_ [_ [E _]]]]] _]; try reflexivity; try (cbn; lia).
    + cbn [app patient]. repeat split; try (cbn; lia); repeat constructor.
      exists 4. split; [reflexivity|]. right. exists 1. split; [reflexivity|]. lia.
    + split; [exact T|exact E].
  - destruct (C1_block_count c 512 [] []) as [_ [_ [T E]]];
      try reflexivity; try (cbn; lia).
    + cbn [patient]. repeat split; try (cbn; lia); constructor.
    + split; [exact T|exact E].
Defined.

Lemma goto_next (f : nat) (s s' : StateName) (c : Ctx) (h : Handled) :
  state_handler s c = Ok h -> h_next h = Some (to_state s') ->
  goto (S f) s c =
  (let (m, es) := goto f s' (h_ctx h) in (m, Enter s :: h_effects h ++ es)).
Proof. intros H N. cbn [goto]. rewrite H, N. reflexivity. Qed.

(* a request without options for a route that supplies [d]: the first block
   is out *)
Lemma start_without_options (d : Buffer) :
  start [] [serve d] (RRQ [x66] (list_byte_of_string "octet") []) =
  (awaiting_data
     (set_try 1 (prepared (mkCtx [] [serve d] None [102] (js "octet") 1 [] d 0 512 []))),
   [Enter init; Enter getData; Call 0; Enter oack; Enter prepareDataPacket;
    Enter sendDataPacket; Out [] (DATA 1 (Buffer_slice d 0 512))]).
Proof.
  unfold start, chain.
  rewrite (goto_next _ init getData _
             (next (mkCtx [] [serve d] None [102] (js "octet") 0 [] [] 0 0 []) []
                (to_state getData))) by reflexivity.
  cbn [h_ctx h_effects next].
  rewrite (goto_next _ getData oack _
             (next (mkCtx [] [serve d] None [102] (js "octet") 0 [] d 0 512 []) [Call 0]
                (to_state oack))) by reflexivity.
  cbn [h_ctx h_effects next].
  rewrite (goto_next _ oack prepareDataPacket _
             (next (mkCtx [] [serve d] None [102] (js "octet") 1 [] d 0 512 []) []
                (to_state prepareDataPacket))) by reflexivity.
  cbn [h_ctx h_effects next].
  rewrite goto_prepare_ok by (cbn [block]; lia).
  reflexivity.
Qed.

(* A data source of 65535 or more blocks of 512 bytes: block 65536 cannot
   be prepared. The ACK of block 65535 ends the connection with an ERROR
   datagram: the datagrams of the whole run are the 65535 DATA packets of
   full size and that ERROR datagram. *)
Lemma connection_block_number_overflow (d : Buffer) (more : list Event) :
  65535 * 512 <= Z.of_nat (length d) ->
  let r := connection [] [serve d] (RRQ [x66] (list_byte_of_string "octet") [])
             (acks 1 (Z.to_nat 65535) ++ more) in
  sent (snd r) =
    sent (sends [] d 512 0 (Z.to_nat 65535)) ++ [out_of_range_datagram 65536] /\
  ended (fst r) = true.
Proof.
  intros L r. subst r. unfold connection. rewrite start_without_options.
  set (c := mkCtx [] [serve d] None [102] (js "octet") 1 [] d 0 512 []).
  replace (Z.to_nat 65535) with (S (Z.to_nat 65534)) by lia.
  rewrite acks_snoc, <- app_assoc, run_app.
  destruct (run_full_blocks (Z.to_nat 65534) c 512) as (c' & E & Bk & Dt & Bs & Ky);
    try reflexivity; try (unfold c; cbn [block data length]; lia).
  change (block c + 1) with 1 in E. rewrite E.
  replace (1 + Z.of_nat (Z.to_nat 65534)) with 65535 by lia.
  change ([Datagram (ack 65535)] ++ more) with (Datagram (ack 65535) :: more).
  assert (H1 : blocksize c' = Int 512) by (rewrite Bs; reflexivity).
  assert (H2 : block c' = 65534) by (rewrite Bk; unfold c; cbn [block]; lia).
  assert (H3 : 65535 * 512 <= Z.of_nat (length (data c'))) by (rewrite Dt; exact L).
  rewrite (block_number_overflow c' 512 more H1 H2 ltac:(lia) H3).
  cbn [fst snd ended]. split; [|reflexivity].
  rewrite Ky. change (clientKey c) with (@nil Z).
  change (sends [] d 512 0 (S (Z.to_nat 65534)))
    with ([Enter prepareDataPacket; Enter sendDataPacket;
           Out [] (DATA 1 (Buffer_slice d 0 512))] ++
          sends [] d 512 1 (Z.to_nat 65534)).
  rewrite !sent_app. reflexivity.
Qed.

(* Five inputs on which the claim of N + 1 DATA packets fails.
   - With the option blksize "0" the block size is 0: the empty data source
     is 0 block sizes long, and after the ACK of block 1 a DATA packet for
     block 2 is sent instead of the connection ending.
   - With 65535 blocks of 512 bytes the connection sends 65535 DATA packets
     of full size and then an ERROR datagram: there is no DATA packet 65536
     without payload.
   - With a timeout before the ACK, the one DATA packet of a short data
     source is sent twice.
   - With the option blksize "1.5" the block size is 1.5 and a data source
     of 3 bytes is 2 block sizes long: the first DATA packet carries one
     byte and its ACK ends the connection, as 5 is not 5.5.
   - With four timeouts before the ACK of block 1, a data source of one
     block of 512 bytes is not sent in two DATA packets: the fourth timeout
     ends the connection, and the ACK that arrives then has no effect. *)
Lemma C1_counterexample :
  (let r := connection [] [serve []]
              (RRQ [x66] (list_byte_of_string "octet")
                 [(list_byte_of_string "blksize", [x30])])
              [Datagram (ack 0); Datagram (ack 1)] in
   blocksize (ctx (fst r)) = Int 0 /\
   Z.of_nat (length (data (ctx (fst r)))) = 0 * 0 /\
   sent (snd r) =
     [[x00; x06] ++ list_byte_of_string "blksize" ++ [x00; x30; x00];
      DATA 1 []; DATA 2 []] /\
   ended (fst r) = false) /\
  (let d := repeat x00 (Z.to_nat (65535 * 512)) in
   let r := connection [] [serve d] (RRQ [x66] (list_byte_of_string "octet") [])
              (acks 1 (Z.to_nat 65535)) in
   Z.of_nat (length d) = 65535 * 512 /\
   sent (snd r) =
     sent (sends [] d 512 0 (Z.to_nat 65535)) ++ [out_of_range_datagram 65536] /\
   length (sent (sends [] d 512 0 (Z.to_nat 65535))) = Z.to_nat 65535 /\
   ended (fst r) = true) /\
  (let r := connection [] [serve [x61; x62; x63]]
              (RRQ [x66] (list_byte_of_string "octet") [])
              [Timeout; Datagram (ack 1)] in
   sent (snd r) = [DATA 1 [x61; x62; x63]; DATA 1 [x61; x62; x63]] /\
   ended (fst r) = true) /\
  (let r := connection [] [serve [x61; x62; x63]]
              (RRQ [x66] (list_byte_of_string "octet")
                 [(list_byte_of_string "blksize", list_byte_of_string "1.5")])
              [Datagram (ack 0); Datagram (ack 1)] in
   blocksize (ctx (fst r)) = Frac false 3 1 /\
   Number_times 2 (blocksize (ctx (fst r))) = Int 3 /\
   sent (snd r) =
     [[x00; x06] ++ list_byte_of_string "blksize" ++ [x00] ++
      list_byte_of_string "1.5" ++ [x00];
      DATA 1 [x61]] /\
   ended (fst r) = true) /\
  (let d := repeat x00 512 in
   let r := connection [] [serve d] (RRQ [x66] (list_byte_of_string "octet") [])
              [Timeout; Timeout; Timeout; Timeout; Datagram (ack 1)] in
   Z.of_nat (length d) = 1 * 512 /\
   sent (snd r) = repeat (DATA 1 d) 4 /\
   ended (fst r) = true).
Proof.
  split; [|split; [|split; [|split]]].
  - vm_compute. repeat split; reflexivity.
  - intros d r.
    assert (L : Z.of_nat (length d) = 65535 * 512).
    { unfold d. rewrite repeat_length. apply Z2Nat.id. lia. }
    split; [exact L|].
    destruct (connection_block_number_overflow d []) as [S E]; [rewrite L; lia|].
    rewrite app_nil_r in S, E.
    split; [exact S|]. split; [apply sent_sends_length|exact E].
  - vm_compute. split; reflexivity.
  - vm_compute. repeat split; reflexivity.
  - vm_compute. repeat split; reflexivity.
Qed.

(** ** Requests in wire format

    What the reader makes of a request that is laid out as [RRQ] does:
    fields without zero bytes, each followed by one. *)

Lemma truthy_at_middle (pre rest : Buffer) (b : byte) :
  truthy_at (pre ++ b :: rest) (length pre) = negb (Byte.eqb b x00).
Proof.
  unfold truthy_at. rewrite nth_error_app2, Nat.sub_diag by lia. reflexivity.
Qed.

Lemma truthy_at_outside (b : Buffer) (i : nat) :
  (length b <= i)%nat -> truthy_at b i = false.
Proof.
  intros L. unfold truthy_at. apply nth_error_None in L. now rewrite L.
Qed.

Lemma cstr_scan_field (field : Buffer) :
  forall (pre rest : Buffer) (fuel : nat),
  no_NUL field -> (length field < fuel)%nat ->
  cstr_scan fuel (pre ++ field ++ x00 :: rest) (length pre) =
  Ok (length pre + length field)%nat.
Proof.
  induction field as [|b f IH]; intros pre rest fuel N L.
  - destruct fuel as [|fuel]; [simpl in L; lia|].
    change ([] ++ x00 :: rest) with (x00 :: rest). cbn [cstr_scan].
    rewrite truthy_at_middle. cbn [Byte.eqb negb length]. now rewrite Nat.add_0_r.
  - destruct fuel as [|fuel]; [simpl in L; lia|]. inversion N as [|? ? Hb Hf]; subst.
    cbn [cstr_scan]. change ((b :: f) ++ x00 :: rest) with (b :: (f ++ x00 :: rest)).
    rewrite truthy_at_middle.
    destruct (Byte.eqb b x00) eqn:E; [apply Byte.byte_dec_bl in E; contradiction|].
    cbn [negb].
    replace (pre ++ b :: f ++ x00 :: rest) with ((pre ++ [b]) ++ f ++ x00 :: rest)
      by (now rewrite <- app_assoc).
    replace (S (length pre)) with (length (pre ++ [b]))
      by (rewrite length_app; cbn [length]; lia).
    rewrite IH by (auto; simpl in L; lia).
    rewrite length_app. cbn [length]. f_equal. lia.
Qed.

Lemma Packet_cstr_field (pre field rest : Buffer) (fuel : nat) :
  no_NUL field -> (length field < fuel)%nat ->
  Packet_cstr fuel (mkPacket (pre ++ field ++ x00 :: rest) (length pre)) =
  Ok (Buffer_toString field,
      mkPacket (pre ++ field ++ x00 :: rest) (length (pre ++ field ++ [x00]))).
Proof.
  intros N L. unfold Packet_cstr. cbn [buf ptr].
  rewrite cstr_scan_field by assumption. cbn [bind].
  rewrite Buffer_slice_nat by (rewrite !length_app; cbn [length]; lia).
  rewrite skipn_app, skipn_all, Nat.sub_diag. cbn [skipn].
  change ([] ++ field ++ x00 :: rest) with (field ++ x00 :: rest).
  replace (length pre + length field - length pre)%nat with (length field) by lia.
  rewrite firstn_app, firstn_all, Nat.sub_diag. cbn [firstn]. rewrite app_nil_r.
  do 3 f_equal. rewrite !length_app. cbn [length]. lia.
Qed.

Lemma Packet_cstr_at_end (b : Buffer) (i fuel : nat) :
  (length b <= i)%nat -> (1 <= fuel)%nat ->
  Packet_cstr fuel (mkPacket b i) = Ok ([], mkPacket b (S i)).
Proof.
  intros L F. destruct fuel as [|fuel]; [lia|].
  unfold Packet_cstr. cbn [buf ptr cstr_scan]. rewrite truthy_at_outside by assumption.
  cbn [bind]. now rewrite Buffer_slice_empty.
Qed.

(* The option loop reads the pairs of the request in their order, and then
   one pair of empty strings at the end of the buffer. *)
Lemma option_pairs_wire (opts : list (Buffer * Buffer)) :
  forall (pre : Buffer) (fuel : nat),
  Forall (fun kv => no_NUL (fst kv) /\ no_NUL (snd kv)) opts ->
  (length (wire_options opts) + 2 <= fuel)%nat ->
  option_pairs fuel (mkPacket (pre ++ wire_options opts) (length pre)) =
  Ok (mkPacket (pre ++ wire_options opts) (length (pre ++ wire_options opts) + 2),
      map decoded opts ++ [([], [])]).
Proof.
  induction opts as [|[k v] r IH]; intros pre fuel N L.
  - cbn [wire_options map concat] in *. rewrite app_nil_r.
    destruct fuel as [|[|fuel]]; try (simpl in L; lia).
    cbn [option_pairs]. unfold Packet_endReached at 1. cbn [buf ptr].
    rewrite Nat.ltb_irrefl.
    rewrite Packet_cstr_at_end by lia. cbn [bind].
    rewrite Packet_cstr_at_end by lia. cbn [bind].
    unfold Packet_endReached. cbn [buf ptr].
    replace (length pre <? S (S (length pre)))%nat with true
      by (symmetry; apply Nat.ltb_lt; lia).
    cbn [bind map app]. do 3 f_equal. lia.
  - inversion N as [|? ? [Nk Nv] Nr]; subst. cbn [fst snd] in Nk, Nv.
    assert (W : wire_options ((k, v) :: r) = k ++ x00 :: v ++ x00 :: wire_options r).
    { unfold wire_options. cbn [map concat fst snd]. rewrite <- !app_assoc. reflexivity. }
    rewrite W in *. rewrite !length_app in L. cbn [length] in L. rewrite length_app in L.
    cbn [length] in L.
    destruct fuel as [|fuel]; [lia|]. cbn [option_pairs].
    unfold Packet_endReached at 1. cbn [buf ptr].
    replace (length (pre ++ k ++ x00 :: v ++ x00 :: wire_options r) <? length pre)%nat
      with false by (symmetry; apply Nat.ltb_ge; rewrite length_app; lia).
    rewrite Packet_cstr_field by (auto; lia). cbn [bind].
    replace (pre ++ k ++ x00 :: v ++ x00 :: wire_options r)
      with ((pre ++ k ++ [x00]) ++ v ++ x00 :: wire_options r)
      by (rewrite <- !app_assoc; reflexivity).
    rewrite Packet_cstr_field by (auto; lia). cbn [bind].
    replace ((pre ++ k ++ [x00]) ++ v ++ x00 :: wire_options r)
      with (((pre ++ k ++ [x00]) ++ v ++ [x00]) ++ wire_options r)
      by (rewrite <- !app_assoc; reflexivity).
    rewrite IH by (auto; lia). cbn [bind map app decoded fst snd]. reflexivity.
Qed.

(* The init handler on a request in wire format: filename, mode and options
   are the decoded fields, the options put into the Map in their order. *)
Lemma state_init_RRQ (key : jsstring) (rs : list (option Route))
    (name md : Buffer) (opts : list (Buffer * Buffer)) :
  no_NUL name -> name <> [] -> no_NUL md ->
  Forall (fun kv => no_NUL (fst kv) /\ no_NUL (snd kv)) opts ->
  state_init (new_ctx key rs (RRQ name md opts)) =
  Ok (next (mkCtx key rs None (Buffer_toString name) (Buffer_toString md) 0
              (fold_left put (map decoded opts) []) [] 0 0 [])
        [] (to_state getData)).
Proof.
  intros Nn Ne Nm No. unfold state_init. cbn [request new_ctx].
  set (b := RRQ name md opts).
  assert (Lb : length b =
               (2 + length name + 1 + length md + 1 + length (wire_options opts))%nat).
  { unfold b, RRQ. fold (wire_options opts). rewrite !length_app. cbn [length]. lia. }
  assert (F : init_fuel b = (length b + 2)%nat) by reflexivity.
  unfold Packet_uint16. cbn [buf ptr]. change (readUInt16BE b 0) with (Ok 1 : result Z).
  cbn [bind Z.eqb Pos.eqb negb Nat.add].
  change b with ([x00; x01] ++ name ++ x00 :: (md ++ x00 :: wire_options opts)) at 2.
  change 2%nat with (length [x00; x01]) at 1.
  rewrite Packet_cstr_field by (auto; lia). cbn [bind].
  destruct (Nat.eqb_spec (length (Buffer_toString name)) 0) as [Z|_].
  { apply length_zero_iff_nil, Buffer_toString_nil in Z. contradiction. }
  replace ([x00; x01] ++ name ++ x00 :: md ++ x00 :: wire_options opts)
    with (([x00; x01] ++ name ++ [x00]) ++ md ++ x00 :: wire_options opts)
    by (rewrite <- !app_assoc; reflexivity).
  rewrite Packet_cstr_field by (auto; lia). cbn [bind].
  rewrite options_loop_pairs.
  replace (([x00; x01] ++ name ++ [x00]) ++ md ++ x00 :: wire_options opts)
    with ((([x00; x01] ++ name ++ [x00]) ++ md ++ [x00]) ++ wire_options opts)
    by (rewrite <- !app_assoc; reflexivity).
  rewrite option_pairs_wire by (auto; lia). cbn [bind].
  rewrite fold_left_app. cbn [fold_left]. unfold put at 1. cbn [fst].
  reflexivity.
Qed.

(* The keys that init leaves for a request in wire format are the non-empty
   decoded option names, each once, in the order of first occurrence; a
   name is bound to the last value sent for it. *)
Lemma RRQ_options (key : jsstring) (rs : list (option Route))
    (name md : Buffer) (opts : list (Buffer * Buffer)) :
  no_NUL name -> name <> [] -> no_NUL md ->
  Forall (fun kv => no_NUL (fst kv) /\ no_NUL (snd kv)) opts ->
  exists h, state_init (new_ctx key rs (RRQ name md opts)) = Ok h /\
    map fst (options (h_ctx h)) =
      first_occurrences (map fst (List.filter has_key (map decoded opts))) /\
    forall k, Map_get k (options (h_ctx h)) =
              last_value k (List.filter has_key (map decoded opts)).
Proof.
  intros Nn Ne Nm No. eexists. split; [now apply state_init_RRQ|].
  cbn [h_ctx next options]. rewrite fold_put_filter. split; [apply fold_set_keys|].
  intros k. rewrite fold_set_get. destruct (last_value k _); reflexivity.
Qed.

(** ** Datagrams too short to read *)

(* A datagram without a whole opcode makes the listener raise: the
   exception goes to the emitter of the event, the machine is as before. *)
Lemma deliver_short_datagram (m : Fsm) (l : Listener) (msg : Buffer) :
  listener m = Some l -> (length msg < 2)%nat ->
  deliver (Datagram msg) m = (m, [Raise ERR_OUT_OF_RANGE]).
Proof.
  intros L S. cbn [deliver]. rewrite L.
  assert (E : readUInt16BE msg 0 = Throw ERR_OUT_OF_RANGE).
  { destruct msg as [|b0 [|b1 r]]; simpl in S; try lia; reflexivity. }
  destruct l; cbn [listener_body]; unfold listener_oack, listener_data; rewrite E;
    reflexivity.
Qed.

(** ** Route resolution returns *)

Lemma tryRoute_enough (c : Ctx) :
  forall (fuel : nat) (calls : list Effect) (i : nat),
  (length (routes c) - i < fuel)%nat ->
  exists h, tryRoute fuel c calls i = Ok h.
Proof.
  induction fuel as [|f IH]; intros calls i L; [lia|].
  cbn [tryRoute]. destruct (Nat.leb_spec (length (routes c)) i) as [G|G]; [eauto|].
  destruct (nth_error (routes c) i) as [[r|]|]; try (apply IH; lia).
  destruct (filter_matches (filter r) (filename c)); [|apply IH; lia].
  destruct (handler r (filename c) (mode c) (options c)); eauto.
  apply IH. lia.
Qed.

Lemma state_getData_total (c : Ctx) : exists h, state_getData c = Ok h.
Proof. apply tryRoute_enough. lia. Qed.

(** * Further properties of the connection *)

(** ** Text in requests *)

Lemma Buffer_toString_low (bs : Buffer) :
  Forall (fun b => byte_val b < 128) bs -> Buffer_toString bs = map byte_val bs.
Proof.
  unfold Buffer_toString. induction 1 as [|b r Hb _ IH]; [reflexivity|].
  cbn [utf8_decode_from map]. cbv zeta.
  destruct (Z.ltb_spec (byte_val b) 128); [|lia]. now rewrite IH.
Qed.

Lemma plain_bytes (s : jsstring) :
  plain s -> no_NUL (ascii_bytes s) /\ Buffer_toString (ascii_bytes s) = s.
Proof.
  intros P. split.
  - unfold no_NUL, ascii_bytes. apply Forall_map.
    eapply Forall_impl; [|exact P]. cbn beta. intros u Hu E.
    apply (f_equal byte_val) in E. rewrite byte_val_of, Z.mod_small in E by lia.
    cbn in E. lia.
  - rewrite Buffer_toString_low.
    + unfold ascii_bytes. rewrite map_map. rewrite <- (map_id s) at 2.
      apply map_ext_Forall. eapply Forall_impl; [|exact P]. cbn beta.
      intros u Hu. rewrite byte_val_of. apply Z.mod_small. lia.
    + unfold ascii_bytes. apply Forall_map. eapply Forall_impl; [|exact P].
      cbn beta. intros u Hu. rewrite byte_val_of, Z.mod_small; lia.
Qed.

(** X1. Round trip of a read request: when filename (not empty), mode and
    options are ASCII texts without zero units and are laid out as a read
    request, the init handler leaves exactly these texts in ctx.filename
    and ctx.mode, the options put into ctx.options in their order, try 0,
    and goes on to getData. *)
Theorem X1_request_round_trip (key : jsstring) (rs : list (option Route))
    (name md : jsstring) (opts : list (jsstring * jsstring)) :
  plain name -> name <> [] -> plain md ->
  Forall (fun kv => plain (fst kv) /\ plain (snd kv)) opts ->
  state_init (new_ctx key rs
                (RRQ (ascii_bytes name) (ascii_bytes md) (map option_bytes opts))) =
  Ok (next (mkCtx key rs None name md 0 (fold_left put opts []) [] 0 0 [])
        [] (to_state getData)).
Proof.
  intros Pn Ne Pm Po.
  destruct (plain_bytes name Pn) as [Nn Dn]. destruct (plain_bytes md Pm) as [Nm Dm].
  rewrite state_init_RRQ; try assumption.
  - rewrite Dn, Dm. do 3 f_equal. f_equal. rewrite map_map.
    rewrite <- (map_id opts) at 2. apply map_ext_Forall.
    eapply Forall_impl; [|exact Po]. cbn beta. intros [k v] [Pk Pv].
    unfold decoded, option_bytes. cbn [fst snd] in *.
    destruct (plain_bytes k Pk) as [_ ->]. destruct (plain_bytes v Pv) as [_ ->].
    reflexivity.
  - intros E. apply Ne. destruct name; [reflexivity|discriminate].
  - apply Forall_map. eapply Forall_impl; [|exact Po]. cbn beta.
    intros [k v] [Pk Pv]. cbn [option_bytes fst snd].
    split; [apply (plain_bytes k Pk)|apply (plain_bytes v Pv)].
Qed.

Lemma X1_request_round_trip_witness :
  state_init (new_ctx [] []
                (RRQ (ascii_bytes (js "boot.img")) (ascii_bytes (js "octet"))
                   (map option_bytes [(js "blksize", js "1024"); (js "tsize", js "0")]))) =
  Ok (next (mkCtx [] [] None (js "boot.img") (js "octet") 0
              [(js "blksize", js "1024"); (js "tsize", js "0")] [] 0 0 [])
        [] (to_state getData)).
Proof.
  apply (X1_request_round_trip [] [] (js "boot.img") (js "octet")
           [(js "blksize", js "1024"); (js "tsize", js "0")]).
  - repeat constructor; cbn; lia.
  - discriminate.
  - repeat constructor; cbn; lia.
  - repeat constructor; cbn; lia.
Defined.

(** ** Requests that end early *)

Lemma cstr_scan_tail (field : Buffer) :
  forall (pre : Buffer) (fuel : nat),
  no_NUL field -> (length field < fuel)%nat ->
  cstr_scan fuel (pre ++ field) (length pre) = Ok (length pre + length field)%nat.
Proof.
  induction field as [|b f IH]; intros pre fuel N L.
  - destruct fuel as [|fuel]; [simpl in L; lia|]. cbn [cstr_scan].
    rewrite truthy_at_outside by (rewrite app_nil_r; lia).
    cbn [length]. now rewrite Nat.add_0_r.
  - destruct fuel as [|fuel]; [simpl in L; lia|]. inversion N as [|? ? Hb Hf]; subst.
    cbn [cstr_scan]. rewrite truthy_at_middle.
    destruct (Byte.eqb b x00) eqn:E; [apply Byte.byte_dec_bl in E; contradiction|].
    cbn [negb].
    replace (pre ++ b :: f) with ((pre ++ [b]) ++ f) by (now rewrite <- app_assoc).
    replace (S (length pre)) with (length (pre ++ [b]))
      by (rewrite length_app; cbn [length]; lia).
    rewrite IH by (auto; simpl in L; lia).
    rewrite length_app. cbn [length]. f_equal. lia.
Qed.

(* a last string without its zero byte: read to the end of the buffer *)
Lemma Packet_cstr_tail (pre field : Buffer) (fuel : nat) :
  no_NUL field -> (length field < fuel)%nat ->
  Packet_cstr fuel (mkPacket (pre ++ field) (length pre)) =
  Ok (Buffer_toString field, mkPacket (pre ++ field) (S (length (pre ++ field)))).
Proof.
  intros N L. unfold Packet_cstr. cbn [buf ptr].
  rewrite cstr_scan_tail by assumption. cbn [bind].
  rewrite Buffer_slice_nat by (rewrite !length_app; lia).
  rewrite skipn_app, skipn_all, Nat.sub_diag. cbn [skipn].
  change ([] ++ field) with field.
  replace (length pre + length field - length pre)%nat with (length field) by lia.
  rewrite firstn_all. do 3 f_equal. rewrite length_app. reflexivity.
Qed.

(* the option loop over whole pairs, and then over what follows them *)
Lemma option_pairs_wire_then (opts : list (Buffer * Buffer)) :
  forall (pre tail : Buffer) (fuel : nat),
  Forall (fun kv => no_NUL (fst kv) /\ no_NUL (snd kv)) opts ->
  (length (wire_options opts ++ tail) + 2 <= fuel)%nat ->
  exists fuel', (length tail + 2 <= fuel')%nat /\
    option_pairs fuel (mkPacket (pre ++ wire_options opts ++ tail) (length pre)) =
    (let* (r, ps) := option_pairs fuel'
                       (mkPacket (pre ++ wire_options opts ++ tail)
                          (length (pre ++ wire_options opts))) in
     Ok (r, map decoded opts ++ ps)).
Proof.
  induction opts as [|[k v] r IH]; intros pre tail fuel N L.
  - exists fuel. cbn [wire_options map concat] in *. change ([] ++ tail) with tail in *.
    rewrite app_nil_r. split; [lia|].
    destruct (option_pairs fuel _) as [[r ps]| |]; reflexivity.
  - inversion N as [|? ? [Nk Nv] Nr]; subst. cbn [fst snd] in Nk, Nv.
    assert (W : wire_options ((k, v) :: r) = k ++ x00 :: v ++ x00 :: wire_options r).
    { unfold wire_options. cbn [map concat fst snd]. rewrite <- !app_assoc. reflexivity. }
    rewrite W in *.
    assert (Len : length ((k ++ x00 :: v ++ x00 :: wire_options r) ++ tail) =
                  (length k + S (length v + S (length (wire_options r ++ tail))))%nat)
      by (list_length; lia).
    rewrite Len in L. clear Len.
    destruct fuel as [|fuel]; [lia|].
    destruct (IH ((pre ++ k ++ [x00]) ++ v ++ [x00]) tail fuel Nr) as (fuel' & F & E);
      [lia|].
    exists fuel'. split; [exact F|].
    assert (B : pre ++ (k ++ x00 :: v ++ x00 :: wire_options r) ++ tail =
                ((pre ++ k ++ [x00]) ++ v ++ [x00]) ++ wire_options r ++ tail).
    { flatten. reflexivity. }
    assert (P : length (pre ++ k ++ x00 :: v ++ x00 :: wire_options r) =
                length (((pre ++ k ++ [x00]) ++ v ++ [x00]) ++ wire_options r)).
    { flatten. reflexivity. }
    rewrite P, B.
    cbn [option_pairs]. unfold Packet_endReached at 1. cbn [buf ptr].
    replace (_ <? length pre)%nat with false
      by (symmetry; apply Nat.ltb_ge; list_length; lia).
    replace (((pre ++ k ++ [x00]) ++ v ++ [x00]) ++ wire_options r ++ tail)
      with (pre ++ k ++ x00 :: (v ++ x00 :: wire_options r ++ tail))
      by (flatten; reflexivity).
    rewrite Packet_cstr_field by (auto; lia). cbn [bind].
    replace (pre ++ k ++ x00 :: v ++ x00 :: wire_options r ++ tail)
      with ((pre ++ k ++ [x00]) ++ v ++ x00 :: (wire_options r ++ tail))
      by (flatten; reflexivity).
    rewrite Packet_cstr_field by (auto; lia). cbn [bind].
    replace ((pre ++ k ++ [x00]) ++ v ++ x00 :: wire_options r ++ tail)
      with (((pre ++ k ++ [x00]) ++ v ++ [x00]) ++ wire_options r ++ tail)
      by (flatten; reflexivity).
    rewrite E. destruct (option_pairs fuel' _) as [[r' ps]| |]; reflexivity.
Qed.

(* init after a filename that has its zero byte *)
Lemma state_init_after_name (key : jsstring) (rs : list (option Route))
    (name rest : Buffer) :
  no_NUL name -> name <> [] ->
  let b := [x00; x01] ++ name ++ x00 :: rest in
  state_init (new_ctx key rs b) =
  (let* (m, req) := Packet_cstr (init_fuel b)
                      (mkPacket b (length ([x00; x01] ++ name ++ [x00]))) in
   let* (_, opts) := options_loop (init_fuel b) req [] in
   Ok (next (mkCtx key rs None (Buffer_toString name) m 0 opts [] 0 0 [])
         [] (to_state getData))).
Proof.
  intros Nn Ne b. unfold state_init. cbn [request new_ctx].
  unfold Packet_uint16. cbn [buf ptr]. change (readUInt16BE b 0) with (Ok 1 : result Z).
  cbn [bind Z.eqb Pos.eqb negb Nat.add].
  assert (F : init_fuel b = (length b + 2)%nat) by reflexivity.
  assert (Lb : length b = (2 + length name + 1 + length rest)%nat)
    by (unfold b; list_length; lia).
  change (mkPacket b 2) with (mkPacket ([x00; x01] ++ name ++ x00 :: rest) (length [x00; x01])).
  rewrite Packet_cstr_field by (auto; lia). cbn [bind].
  destruct (Nat.eqb_spec (length (Buffer_toString name)) 0) as [Z|_].
  { apply length_zero_iff_nil, Buffer_toString_nil in Z. contradiction. }
  fold b.
  destruct (Packet_cstr (init_fuel b) _) as [[m req]| |]; reflexivity.
Qed.

(* the last pair of a request whose value has no zero byte after it *)
Lemma option_pairs_last_pair (pre k v : Buffer) (fuel : nat) :
  no_NUL k -> no_NUL v -> (length (k ++ x00 :: v) + 2 <= fuel)%nat ->
  option_pairs fuel (mkPacket (pre ++ k ++ x00 :: v) (length pre)) =
  Ok (mkPacket (pre ++ k ++ x00 :: v) (S (length (pre ++ k ++ x00 :: v))),
      [(Buffer_toString k, Buffer_toString v)]).
Proof.
  intros Nk Nv L.
  assert (Len : length (k ++ x00 :: v) = (length k + S (length v))%nat)
    by (list_length; lia).
  rewrite Len in L. destruct fuel as [|[|fuel]]; try lia.
  cbn [option_pairs]. unfold Packet_endReached at 1. cbn [buf ptr].
  replace (_ <? length pre)%nat with false
    by (symmetry; apply Nat.ltb_ge; list_length; lia).
  rewrite Packet_cstr_field by (auto; lia). cbn [bind].
  replace (pre ++ k ++ x00 :: v) with ((pre ++ k ++ [x00]) ++ v) by (flatten; reflexivity).
  rewrite Packet_cstr_tail by (auto; lia). cbn [bind].
  unfold Packet_endReached. cbn [buf ptr].
  replace (_ <? _)%nat with true by (symmetry; apply Nat.ltb_lt; lia).
  reflexivity.
Qed.

(* a last key that is followed by nothing *)
Lemma option_pairs_last_key (pre k : Buffer) (fuel : nat) :
  no_NUL k -> (length k + 2 <= fuel)%nat ->
  option_pairs fuel (mkPacket (pre ++ k) (length pre)) =
  Ok (mkPacket (pre ++ k) (S (S (length (pre ++ k)))), [(Buffer_toString k, [])]).
Proof.
  intros Nk L. destruct fuel as [|[|fuel]]; try lia.
  cbn [option_pairs]. unfold Packet_endReached at 1. cbn [buf ptr].
  replace (_ <? length pre)%nat with false
    by (symmetry; apply Nat.ltb_ge; list_length; lia).
  rewrite Packet_cstr_tail by (auto; lia). cbn [bind].
  rewrite Packet_cstr_at_end by lia. cbn [bind].
  unfold Packet_endReached. cbn [buf ptr].
  replace (_ <? _)%nat with true by (symmetry; apply Nat.ltb_lt; lia).
  reflexivity.
Qed.

Lemma fold_put_decoded (a b : list (Buffer * Buffer)) :
  fold_left put (map decoded a ++ map decoded b) [] =
  fold_left put (map decoded (a ++ b)) [].
Proof. now rewrite map_app. Qed.

(** X2. A request whose last option lacks its final zero byte, or even its
    whole value, is read like the complete one: dropping the last byte of a
    request that ends in an option changes nothing in what init leaves, and
    a request that ends in an option name gives that name the empty
    value. *)
Theorem X2_last_option_unterminated (key : jsstring) (rs : list (option Route))
    (name md k v : Buffer) (opts : list (Buffer * Buffer)) :
  no_NUL name -> name <> [] -> no_NUL md ->
  Forall (fun kv => no_NUL (fst kv) /\ no_NUL (snd kv)) opts ->
  no_NUL k -> no_NUL v ->
  state_init (new_ctx key rs (removelast (RRQ name md (opts ++ [(k, v)])))) =
    state_init (new_ctx key rs (RRQ name md (opts ++ [(k, v)]))) /\
  state_init (new_ctx key rs (RRQ name md opts ++ k)) =
    state_init (new_ctx key rs (RRQ name md (opts ++ [(k, [])]))).
Proof.
  intros Nn Ne Nm No Nk Nv.
  assert (W : forall kv, wire_options (opts ++ [kv]) =
                         wire_options opts ++ fst kv ++ x00 :: snd kv ++ [x00]).
  { intros kv. unfold wire_options. rewrite map_app, concat_app. cbn [map concat].
    rewrite app_nil_r. flatten. reflexivity. }
  assert (All : forall v', no_NUL v' ->
            Forall (fun kv => no_NUL (fst kv) /\ no_NUL (snd kv)) (opts ++ [(k, v')])).
  { intros v' Nv'. apply Forall_app. split; [exact No|]. repeat constructor; assumption. }
  assert (Tail : forall tail ps r',
            (forall pre fuel, (length tail + 2 <= fuel)%nat ->
               option_pairs fuel (mkPacket (pre ++ tail) (length pre)) = Ok (r' pre, ps)) ->
            state_init (new_ctx key rs (RRQ name md opts ++ tail)) =
            Ok (next (mkCtx key rs None (Buffer_toString name) (Buffer_toString md) 0
                        (fold_left put (map decoded opts ++ ps) []) [] 0 0 [])
                  [] (to_state getData))).
  { intros tail ps r' T.
    replace (RRQ name md opts ++ tail)
      with ([x00; x01] ++ name ++ x00 :: (md ++ x00 :: wire_options opts ++ tail))
      by (unfold RRQ; fold (wire_options opts); flatten; reflexivity).
    rewrite state_init_after_name by assumption.
    set (b := [x00; x01] ++ name ++ x00 :: md ++ x00 :: wire_options opts ++ tail).
    assert (Lb : length b = (2 + length name + 1 + length md + 1 +
                             length (wire_options opts ++ tail))%nat)
      by (unfold b; list_length; lia).
    assert (F : (length b + 2 <= init_fuel b)%nat) by (unfold init_fuel; lia).
    set (fu := init_fuel b) in *. clearbody fu.
    replace b with (([x00; x01] ++ name ++ [x00]) ++ md ++ x00 :: (wire_options opts ++ tail))
      by (unfold b; flatten; reflexivity).
    rewrite Packet_cstr_field by (auto; lia). cbn [bind].
    rewrite options_loop_pairs.
    replace (([x00; x01] ++ name ++ [x00]) ++ md ++ x00 :: wire_options opts ++ tail)
      with ((([x00; x01] ++ name ++ [x00]) ++ md ++ [x00]) ++ wire_options opts ++ tail)
      by (flatten; reflexivity).
    destruct (option_pairs_wire_then opts (([x00; x01] ++ name ++ [x00]) ++ md ++ [x00])
                tail fu No) as (fuel' & Fu & E); [lia|].
    rewrite E. rewrite (app_assoc _ (wire_options opts) tail).
    rewrite T by exact Fu. reflexivity. }
  split.
  - replace (removelast (RRQ name md (opts ++ [(k, v)])))
      with (RRQ name md opts ++ k ++ x00 :: v).
    + rewrite (Tail (k ++ x00 :: v) [(Buffer_toString k, Buffer_toString v)]
                 (fun pre => mkPacket (pre ++ k ++ x00 :: v)
                               (S (length (pre ++ k ++ x00 :: v)))))
        by (intros; now apply option_pairs_last_pair).
      rewrite state_init_RRQ by auto. now rewrite map_app.
    + unfold RRQ. fold (wire_options opts) (wire_options (opts ++ [(k, v)])).
      rewrite W. cbn [fst snd].
      replace ([x00; x01] ++ name ++ [x00] ++ md ++ [x00] ++
               wire_options opts ++ k ++ x00 :: v ++ [x00])
        with (([x00; x01] ++ name ++ [x00] ++ md ++ [x00] ++
               wire_options opts ++ k ++ x00 :: v) ++ [x00])
        by (flatten; reflexivity).
      rewrite removelast_last. flatten. reflexivity.
  - rewrite (Tail k [(Buffer_toString k, [])]
               (fun pre => mkPacket (pre ++ k) (S (S (length (pre ++ k))))))
      by (intros; now apply option_pairs_last_key).
    rewrite state_init_RRQ by (auto; apply All; constructor). now rewrite map_app.
Qed.

Lemma X2_last_option_unterminated_witness :
  state_init (new_ctx [] [] (removelast (RRQ [x66] [x6f] ([] ++ [([x61], [x31])])))) =
    state_init (new_ctx [] [] (RRQ [x66] [x6f] ([] ++ [([x61], [x31])]))) /\
  state_init (new_ctx [] [] (RRQ [x66] [x6f] [] ++ [x61])) =
    state_init (new_ctx [] [] (RRQ [x66] [x6f] ([] ++ [([x61], [])]))).
Proof.
  apply (X2_last_option_unterminated [] [] [x66] [x6f] [x61] [x31] []);
    try discriminate; repeat constructor; discriminate.
Defined.

(** X3. The mode is optional: a request that ends right after the filename,
    with or without the filename's zero byte, is accepted with an empty
    mode and no options, and a mode without its zero byte is read to the
    end of the request. *)
Theorem X3_mode_optional (key : jsstring) (rs : list (option Route)) (name md : Buffer) :
  no_NUL name -> name <> [] -> no_NUL md ->
  state_init (new_ctx key rs ([x00; x01] ++ name)) =
    Ok (next (mkCtx key rs None (Buffer_toString name) [] 0 [] [] 0 0 [])
          [] (to_state getData)) /\
  state_init (new_ctx key rs ([x00; x01] ++ name ++ x00 :: md)) =
    Ok (next (mkCtx key rs None (Buffer_toString name) (Buffer_toString md) 0 [] [] 0 0 [])
          [] (to_state getData)).
Proof.
  intros Nn Ne Nm. split.
  - unfold state_init. cbn [request new_ctx]. set (b := [x00; x01] ++ name).
    unfold Packet_uint16. cbn [buf ptr].
    assert (R : readUInt16BE b 0 = Ok 1).
    { unfold b. destruct name as [|n0 r]; [contradiction|reflexivity]. }
    rewrite R. cbn [bind Z.eqb Pos.eqb negb Nat.add].
    assert (F : (length name + 4 <= init_fuel b)%nat)
      by (unfold init_fuel, b; list_length; lia).
    set (fu := init_fuel b) in *. clearbody fu.
    change (mkPacket b 2) with (mkPacket ([x00; x01] ++ name) (length [x00; x01])).
    rewrite Packet_cstr_tail by (auto; lia). cbn [bind].
    destruct (Nat.eqb_spec (length (Buffer_toString name)) 0) as [Z|_].
    { apply length_zero_iff_nil, Buffer_toString_nil in Z. contradiction. }
    rewrite Packet_cstr_at_end by lia. cbn [bind].
    destruct fu as [|fu]; [lia|]. cbn [options_loop].
    unfold Packet_endReached. cbn [buf ptr].
    replace (_ <? _)%nat with true by (symmetry; apply Nat.ltb_lt; lia).
    reflexivity.
  - rewrite state_init_after_name by assumption.
    set (b := [x00; x01] ++ name ++ x00 :: md).
    assert (F : (length md + 2 <= init_fuel b)%nat)
      by (unfold init_fuel, b; list_length; lia).
    set (fu := init_fuel b) in *. clearbody fu.
    replace b with (([x00; x01] ++ name ++ [x00]) ++ md) by (unfold b; flatten; reflexivity).
    rewrite Packet_cstr_tail by (auto; lia). cbn [bind].
    destruct fu as [|fu]; [lia|]. cbn [options_loop].
    unfold Packet_endReached. cbn [buf ptr].
    replace (_ <? _)%nat with true by (symmetry; apply Nat.ltb_lt; lia).
    reflexivity.
Qed.

Lemma X3_mode_optional_witness :
  state_init (new_ctx [] [] ([x00; x01] ++ [x66])) =
    Ok (next (mkCtx [] [] None (Buffer_toString [x66]) [] 0 [] [] 0 0 [])
          [] (to_state getData)) /\
  state_init (new_ctx [] [] ([x00; x01] ++ [x66] ++ x00 :: [x6f])) =
    Ok (next (mkCtx [] [] None (Buffer_toString [x66]) (Buffer_toString [x6f]) 0 [] [] 0 0 [])
          [] (to_state getData)).
Proof.
  apply (X3_mode_optional [] [] [x66] [x6f]); try discriminate;
    repeat constructor; discriminate.
Defined.

(** ** The options that init leaves *)

(** X4. Whatever the request, the options that init leaves have no empty
    name: a pair with an empty name is read and dropped. *)
Theorem X4_no_empty_option_name (key : jsstring) (rs : list (option Route))
    (b : Buffer) (h : Handled) :
  state_init (new_ctx key rs b) = Ok h -> ~ In [] (map fst (options (h_ctx h))).
Proof.
  intros E.
  destruct (h_next h) as [[[]| |msg]|] eqn:N;
    try (unfold state_init in E; cbn [request new_ctx] in E;
         repeat match type of E with
         | bind ?r _ = Ok _ => destruct r as [[? ?]| |]; try discriminate; cbn [bind] in E
         | (if ?x then _ else _) = Ok _ => destruct x
         | Ok _ = Ok _ => injection E as <-
         end; cbn; try discriminate; tauto).
  destruct (state_init_options (new_ctx key rs b) b h eq_refl E N) as (req & req' & _ & L).
  rewrite options_loop_pairs in L.
  destruct (option_pairs (init_fuel b) req) as [[r ps]| |]; try discriminate.
  cbn [bind] in L. injection L as _ <-.
  rewrite fold_put_filter, fold_set_keys. intros I.
  apply first_occurrences_In, in_map_iff in I. destruct I as ([k v] & K & I).
  apply filter_In in I. destruct I as [_ H]. cbn [fst] in K. subst k. discriminate.
Qed.

Lemma X4_no_empty_option_name_witness :
  exists h,
    state_init (new_ctx [] [] (RRQ [x66] [x6f] [([], [x31]); ([x61], [x32])])) = Ok h /\
    options (h_ctx h) = [([97], [50])] /\
    ~ In [] (map fst (options (h_ctx h))).
Proof.
  eexists. split; [reflexivity|]. split; [reflexivity|].
  apply (X4_no_empty_option_name [] [] (RRQ [x66] [x6f] [([], [x31]); ([x61], [x32])])).
  reflexivity.
Defined.

(** ** Error codes *)

(** X5. A code other than 0 names one message: two messages with the same
    non-zero error code are the same text, and every code is between 0 and
    7. *)
Theorem X5_error_code_names_message (m1 m2 : jsstring) :
  getErrorCode m1 = getErrorCode m2 -> getErrorCode m1 <> 0 ->
  m1 = m2 /\ 1 <= getErrorCode m1 <= 7.
Proof.
  unfold getErrorCode.
  repeat match goal with
  | |- context [if jsstring_eqb ?a ?b then _ else _] =>
    let E := fresh "E" in
    destruct (jsstring_eqb a b) eqn:E; [apply jsstring_eqb_eq in E|clear E]
  end; intros H N; try lia; try (exfalso; apply N; reflexivity); split; try lia;
  congruence.
Qed.

Lemma X5_error_code_names_message_witness :
  js "Access violation." = js "Access violation." /\
  1 <= getErrorCode (js "Access violation.") <= 7.
Proof.
  apply (X5_error_code_names_message (js "Access violation.") (js "Access violation.")).
  - reflexivity.
  - cbn. lia.
Defined.

(** ** Route resolution *)

Lemma tryRoute_passes (c : Ctx) (pre : list (option Route)) :
  forall (first rest : list (option Route)) (fuel : nat) (calls : list Effect),
  routes c = first ++ pre ++ rest -> Forall (passed_over c) pre ->
  tryRoute (length pre + fuel) c calls (length first) =
  tryRoute fuel c (calls ++ calls_from c pre (length first)) (length first + length pre).
Proof.
  induction pre as [|r pre IH]; intros first rest fuel calls R F.
  - cbn [length calls_from Nat.add]. now rewrite app_nil_r, Nat.add_0_r.
  - inversion F as [|? ? Pr Fp]; subst.
    assert (R' : routes c = (first ++ [r]) ++ pre ++ rest) by (rewrite R; flatten; reflexivity).
    specialize (IH (first ++ [r]) rest fuel).
    assert (L1 : length (first ++ [r]) = S (length first)) by (list_length; lia).
    rewrite L1 in IH.
    cbn [length Nat.add tryRoute calls_from].
    replace (length (routes c) <=? length first)%nat with false
      by (symmetry; apply Nat.leb_gt; rewrite R; list_length; lia).
    replace (nth_error (routes c) (length first)) with (Some r)
      by (rewrite R, nth_error_app2, Nat.sub_diag by lia; reflexivity).
    replace (length first + S (length pre))%nat with (S (length first) + length pre)%nat by lia.
    destruct r as [r|]; cbn [consulted passed_over] in *.
    + destruct (filter_matches (filter r) (filename c)).
      * rewrite (Pr eq_refl). rewrite (IH _ R' Fp). now rewrite <- app_assoc.
      * rewrite (IH _ R' Fp). reflexivity.
    + rewrite (IH _ R' Fp). reflexivity.
Qed.

(** X6. Route resolution takes the first route that answers. When the
    routes before route [i] are unregistered, filtered out or decline, and
    route [i] lets the filename through and supplies data, getData stores
    the data, sets block 0 and block size 512 and goes to oack; the handlers
    called are those of the consulted routes before [i], in order, then the
    one of route [i], and none after it. *)
Theorem X6_first_answering_route (c : Ctx) (pre rest : list (option Route))
    (r : Route) (d : Buffer) :
  routes c = pre ++ Some r :: rest -> Forall (passed_over c) pre ->
  filter_matches (filter r) (filename c) = true ->
  handler r (filename c) (mode c) (options c) = answer_data d ->
  state_getData c =
  Ok (next (set_blocksize 512 (set_block 0 (set_data d c)))
        (calls_from c pre 0 ++ [Call (length pre)]) (to_state oack)).
Proof.
  intros R F M H. unfold state_getData.
  replace (S (length (routes c))) with (length pre + S (S (length rest)))%nat
    by (rewrite R; list_length; lia).
  rewrite (tryRoute_passes c pre [] (Some r :: rest)) by assumption.
  cbn [length Nat.add app tryRoute].
  replace (length (routes c) <=? length pre)%nat with false
    by (symmetry; apply Nat.leb_gt; rewrite R; list_length; lia).
  replace (nth_error (routes c) (length pre)) with (Some (Some r))
    by (rewrite R, nth_error_app2, Nat.sub_diag by lia; reflexivity).
  rewrite M, H. reflexivity.
Qed.

Lemma X6_first_answering_route_witness :
  let gone : option Route := None in
  let other := Some (mkRoute (filter_string (js "b")) (fun _ _ _ => answer_data [x62])) in
  let shy := Some (mkRoute filter_undefined (fun _ _ _ => answer_decline)) in
  let c := set_filename (js "a") (new_ctx [] [gone; other; shy; serve [x61]; serve [x63]] []) in
  state_getData c =
  Ok (next (set_blocksize 512 (set_block 0 (set_data [x61] c))) [Call 2; Call 3]
        (to_state oack)).
Proof.
  intros gone other shy c.
  apply (X6_first_answering_route c [gone; other; shy] [serve [x63]]
           (mkRoute filter_undefined (fun _ _ _ => answer_data [x61])) [x61]).
  - reflexivity.
  - repeat constructor; cbn; discriminate.
  - reflexivity.
  - reflexivity.
Defined.

(** X7. When every route is unregistered, filtered out or declines (an
    empty route list included), the connection ends in getData with the
    error "File not found.": the handlers of the consulted routes are each
    called once, in order, and then one ERROR datagram with code 1 is
    sent. *)
Theorem X7_no_route_found (c : Ctx) (f : nat) :
  Forall (passed_over c) (routes c) ->
  goto (S f) getData c =
  (mkFsm c getData None None true,
   Enter getData :: calls_from c (routes c) 0 ++
   [Final (Some (js "File not found.")) getData;
    Out (clientKey c) (ERROR_datagram x01 "File not found.")]).
Proof.
  intros F. cbn [goto state_handler]. unfold state_getData.
  replace (S (length (routes c))) with (length (routes c) + 1)%nat by lia.
  rewrite (tryRoute_passes c (routes c) [] []) by (auto; now rewrite app_nil_r).
  cbn [length Nat.add app tryRoute]. rewrite Nat.leb_refl.
  cbn [h_next next h_ctx h_effects]. rewrite leave_not_found. reflexivity.
Qed.

Lemma X7_no_route_found_witness :
  let other := Some (mkRoute (filter_string (js "b")) (fun _ _ _ => answer_data [x62])) in
  let shy := Some (mkRoute filter_undefined (fun _ _ _ => answer_decline)) in
  let c := set_filename (js "a") (new_ctx [] [other; None; shy] []) in
  goto 1 getData c =
  (mkFsm c getData None None true,
   [Enter getData; Call 2; Final (Some (js "File not found.")) getData;
    Out [] (ERROR_datagram x01 "File not found.")]).
Proof.
  intros other shy c. apply (X7_no_route_found c 0).
  repeat constructor; cbn; discriminate.
Defined.

(** X8. An error from a handler ends the connection at once: when route
    [i] is the first that does not pass, and its handler fails with an
    Error whose message is of ASCII characters, no later route is
    consulted, and the ERROR datagram carries the code that the taxonomy
    gives the handler's message (0 when it is none of the seven), the
    message and a zero byte. *)
Theorem X8_handler_error (c : Ctx) (f : nat) (pre rest : list (option Route))
    (r : Route) (message : jsstring) :
  routes c = pre ++ Some r :: rest -> Forall (passed_over c) pre ->
  filter_matches (filter r) (filename c) = true ->
  handler r (filename c) (mode c) (options c) = answer_error message ->
  is_ascii message ->
  goto (S f) getData c =
  (mkFsm c getData None None true,
   Enter getData :: calls_from c pre 0 ++
   [Call (length pre); Final (Some message) getData;
    Out (clientKey c)
      ([x00; x05; x00; byte_of (getErrorCode message)] ++ ascii_bytes message ++ [x00])]).
Proof.
  intros R F M H A. cbn [goto state_handler]. unfold state_getData.
  replace (S (length (routes c))) with (length pre + S (S (length rest)))%nat
    by (rewrite R; list_length; lia).
  rewrite (tryRoute_passes c pre [] (Some r :: rest)) by assumption.
  cbn [length Nat.add app tryRoute].
  replace (length (routes c) <=? length pre)%nat with false
    by (symmetry; apply Nat.leb_gt; rewrite R; list_length; lia).
  replace (nth_error (routes c) (length pre)) with (Some (Some r))
    by (rewrite R, nth_error_app2, Nat.sub_diag by lia; reflexivity).
  rewrite M, H. cbn [h_next next h_ctx h_effects]. unfold leave.
  rewrite final_error. rewrite utf8_write_ascii by (auto; lia).
  rewrite length_map, skipn_repeat_last. rewrite <- app_assoc. reflexivity.
Qed.

Lemma X8_handler_error_witness :
  let denied := Some (mkRoute filter_undefined
                        (fun _ _ _ => answer_error (js "Access violation."))) in
  let c := set_filename (js "a") (new_ctx [] [None; denied; serve [x61]] []) in
  goto 1 getData c =
  (mkFsm c getData None None true,
   [Enter getData; Call 1; Final (Some (js "Access violation.")) getData;
    Out [] (ERROR_datagram x02 "Access violation.")]).
Proof.
  intros denied c.
  apply (X8_handler_error c 0 [None] [serve [x61]]
           (mkRoute filter_undefined (fun _ _ _ => answer_error (js "Access violation.")))
           (js "Access violation.")).
  - reflexivity.
  - repeat constructor.
  - reflexivity.
  - reflexivity.
  - repeat constructor; cbn; lia.
Defined.

(** ** The OACK *)

Lemma set_blocksize_same (c : Ctx) : set_blocksize (blocksize c) c = c.
Proof. destruct c. reflexivity. Qed.

(* One entry: it sets the block size or leaves the context alone, and its
   bytes depend on the context through the length of the data only. *)
Lemma oack_option_cases (c c1 : Ctx) (k v : jsstring) (b : Buffer) :
  oack_option c (k, v) = Ok (c1, b) ->
  (k = js "blksize" /\
     forall c2,
       oack_option c2 (k, v) = Ok (set_blocksize (Math_min (ToNumber v) 1428) c2, b)) \/
  (k <> js "blksize" /\
     forall c2, data c2 = data c -> oack_option c2 (k, v) = Ok (c2, b)).
Proof.
  intros E. destruct (jsstring_eqb k (js "blksize")) eqn:K.
  - apply jsstring_eqb_eq in K. subst k. left.
    split; [reflexivity|]. intros c2.
    rewrite (oack_option_blksize c v) in E. injection E as _ <-.
    now apply oack_option_blksize.
  - right. split; [now apply jsstring_eqb_neq|]. intros c2 D.
    unfold oack_option in *. rewrite K in *.
    destruct (jsstring_eqb k (js "windowsize")).
    + cbn [bind] in *. injection E as _ <-. reflexivity.
    + rewrite D. destruct (jsstring_eqb k (js "tsize"));
        cbn [bind] in *; injection E as _ <-; reflexivity.
Qed.

Lemma oack_option_total (c : Ctx) (kv : jsstring * jsstring) :
  exists c1 b, oack_option c kv = Ok (c1, b) /\ c1 = set_blocksize (blocksize c1) c.
Proof.
  destruct kv as [k v].
  destruct (jsstring_eqb k (js "blksize")) eqn:K.
  - apply jsstring_eqb_eq in K. subst k.
    rewrite (oack_option_blksize c v). eauto.
  - apply jsstring_eqb_neq in K. destruct (oack_option_other c k v K) as (b & E).
    rewrite E. exists c, b. split; [reflexivity|]. symmetry. apply set_blocksize_same.
Qed.

(* the oack state changes nothing in the context but try and blocksize *)
Lemma oack_options_total (entries : Map) :
  forall c : Ctx,
  exists c' bs, oack_options c entries = Ok (c', bs) /\
                c' = set_blocksize (blocksize c') c.
Proof.
  induction entries as [|kv rest IH]; intros c.
  - exists c, []. split; [reflexivity|]. symmetry. apply set_blocksize_same.
  - destruct (oack_option_total c kv) as (c1 & b & E1 & S1).
    destruct (IH c1) as (c' & bs & E & S').
    exists c', (b :: bs). cbn [oack_options]. rewrite E1. cbn [bind]. rewrite E.
    split; [reflexivity|]. rewrite S', S1. destruct c. reflexivity.
Qed.

(* Running the entries again, from a context with the same data, gives the
   same bytes; the block size comes out the same when it went in the same
   as it came out before. *)
Lemma oack_options_again (entries : Map) :
  forall (c c' c2 : Ctx) (bs : list Buffer),
  oack_options c entries = Ok (c', bs) -> data c2 = data c ->
  exists c2', oack_options c2 entries = Ok (c2', bs) /\
    c2' = set_blocksize (blocksize c2') c2 /\
    (blocksize c2' = blocksize c' \/
     (blocksize c2' = blocksize c2 /\ blocksize c' = blocksize c)).
Proof.
  induction entries as [|[k v] rest IH]; intros c c' c2 bs E D.
  - cbn [oack_options] in *. injection E as <- <-. exists c2.
    split; [reflexivity|]. split; [symmetry; apply set_blocksize_same|]. now right.
  - cbn [oack_options] in E.
    destruct (oack_option c (k, v)) as [[c1 b]| |] eqn:E1; try discriminate.
    cbn [bind] in E.
    destruct (oack_options c1 rest) as [[c3 bs']| |] eqn:E3; try discriminate.
    cbn [bind] in E. injection E as <- <-.
    destruct (oack_option_cases c c1 k v b E1) as [(K & H)|(K & H)].
    + assert (C1 : c1 = set_blocksize (Math_min (ToNumber v) 1428) c)
        by (rewrite (H c) in E1; now injection E1).
      destruct (IH c1 c3 (set_blocksize (Math_min (ToNumber v) 1428) c2) bs' E3)
        as (c2' & E2 & S2 & B2);
        [subst c1; cbn; exact D|].
      exists c2'. cbn [oack_options]. rewrite (H c2). cbn [bind]. rewrite E2.
      split; [reflexivity|]. split; [rewrite S2 at 1; destruct c2; reflexivity|].
      left. destruct B2 as [B2|[B2 B3]]; [exact B2|]. rewrite B2, B3, C1. reflexivity.
    + assert (C1 : c1 = c) by (rewrite (H c eq_refl) in E1; now injection E1).
      subst c1.
      destruct (IH c c3 c2 bs' E3 D) as (c2' & E2 & S2 & B2).
      exists c2'. cbn [oack_options]. rewrite (H c2 D). cbn [bind]. rewrite E2.
      split; [reflexivity|]. split; assumption.
Qed.

Lemma goto_oack_ok (f : nat) (c c' : Ctx) (bs : list Buffer) :
  try c <= 3 -> options c <> [] ->
  oack_options (set_try (try c + 1) c) (options c) = Ok (c', bs) ->
  goto (S f) oack c =
  (awaiting_oack c', [Enter oack; Out (clientKey c') (Buffer_concat ([x00; x06] :: bs))]).
Proof.
  intros T O E. cbn [goto state_handler]. unfold state_oack.
  destruct (Z.ltb_spec 3 (try c)); [lia|].
  cbn [options set_try]. unfold Map_size.
  destruct (options c) as [|kv rest] eqn:Eo; [contradiction|]. cbn [length Nat.eqb].
  change (writeUInt16BE (Buffer_alloc 2) 6 0) with (Ok [x00; x06]). cbn [bind].
  rewrite E. reflexivity.
Qed.

Lemma goto_oack_abort (f : nat) (c : Ctx) :
  3 < try c ->
  goto (S f) oack c =
  (mkFsm (set_try (try c + 1) c) oack None None true, [Enter oack; Final None oack]).
Proof.
  intros T. cbn [goto state_handler]. unfold state_oack.
  destruct (Z.ltb_spec 3 (try c)); [|lia]. reflexivity.
Qed.

(* the OACK holds the bytes of each entry, between those of the entries
   before and after it *)
Lemma oack_sent_entry (f : nat) (c : Ctx) (kv : jsstring * jsstring) :
  try c <= 3 -> In kv (options c) ->
  exists c1 c2 b c' before after,
    oack_option c1 kv = Ok (c2, b) /\ data c1 = data c /\
    goto (S f) oack c =
    (awaiting_oack c',
     [Enter oack; Out (clientKey c) ([x00; x06] ++ before ++ b ++ after)]).
Proof.
  intros T I.
  destruct (oack_options_total (options c) (set_try (try c + 1) c)) as (c' & bs & E & S').
  assert (O : options c <> []) by (intros Z; rewrite Z in I; destruct I).
  rewrite (goto_oack_ok f c c' bs T O E).
  apply in_split in I. destruct I as (pre & post & P). rewrite P in E.
  rewrite oack_options_app in E.
  destruct (oack_options (set_try (try c + 1) c) pre) as [[c1 b1]| |] eqn:E1;
    try discriminate.
  cbn [bind oack_options] in E.
  destruct (oack_option c1 kv) as [[c2 b]| |] eqn:E2; try discriminate. cbn [bind] in E.
  destruct (oack_options c2 post) as [[c3 b3]| |] eqn:E3; try discriminate.
  cbn [bind] in E. injection E as <- <-.
  exists c1, c2, b, c3, (concat b1), (concat b3). split; [exact E2|]. split.
  - destruct (oack_options_total pre (set_try (try c + 1) c)) as (c1' & b1' & E1' & S1).
    rewrite E1 in E1'. injection E1' as <- <-. rewrite S1. reflexivity.
  - assert (K : clientKey c3 = clientKey c) by (rewrite S'; reflexivity).
    rewrite K. unfold Buffer_concat. cbn [concat]. rewrite concat_app. reflexivity.
Qed.

(** X9. A windowsize option is answered with "1" whatever value was asked
    for: the OACK carries "windowsize", a zero byte, "1" and a zero byte. *)
Theorem X9_windowsize_one (f : nat) (c : Ctx) (v : jsstring) :
  try c <= 3 -> In (js "windowsize", v) (options c) ->
  exists c' before after,
    goto (S f) oack c =
    (awaiting_oack c',
     [Enter oack;
      Out (clientKey c)
        ([x00; x06] ++ before ++
         (list_byte_of_string "windowsize" ++ [x00; x31; x00]) ++ after)]).
Proof.
  intros T I.
  destruct (oack_sent_entry f c _ T I) as (c1 & c2 & b & c' & before & after & E & _ & G).
  exists c', before, after. rewrite G. vm_compute in E. injection E as _ <-. reflexivity.
Qed.

Lemma X9_windowsize_one_witness :
  let c := set_options [(js "windowsize", js "64")] (new_ctx [] [] []) in
  exists c' before after,
    goto 1 oack c =
    (awaiting_oack c',
     [Enter oack;
      Out [] ([x00; x06] ++ before ++
              (list_byte_of_string "windowsize" ++ [x00; x31; x00]) ++ after)]).
Proof.
  intros c. apply (X9_windowsize_one 0 c (js "64")).
  - cbn. lia.
  - left. reflexivity.
Defined.

(** X10. A tsize option is answered with the length of the data that the
    route supplied, in decimal, whatever value was asked for. *)
Theorem X10_tsize_is_data_length (f : nat) (c : Ctx) (v : jsstring) :
  try c <= 3 -> In (js "tsize", v) (options c) ->
  exists c' before after,
    goto (S f) oack c =
    (awaiting_oack c',
     [Enter oack;
      Out (clientKey c)
        ([x00; x06] ++ before ++
         (list_byte_of_string "tsize" ++ [x00] ++
          ascii_bytes (String_of_int (Z.of_nat (length (data c)))) ++ [x00]) ++ after)]).
Proof.
  intros T I.
  destruct (oack_sent_entry f c _ T I) as (c1 & c2 & b & c' & before & after & E & D & G).
  exists c', before, after. rewrite G. unfold oack_option in E.
  change (jsstring_eqb (js "tsize") (js "blksize")) with false in E.
  change (jsstring_eqb (js "tsize") (js "windowsize")) with false in E.
  change (jsstring_eqb (js "tsize") (js "tsize")) with true in E.
  cbn [bind] in E. rewrite write_fresh_ascii in E.
  - injection E as _ <-. rewrite D. unfold ascii_bytes. rewrite !map_app. reflexivity.
  - apply is_ascii_app; [repeat constructor; cbn; lia|].
    apply is_ascii_app; [repeat constructor; cbn; lia|].
    apply is_ascii_app; [apply is_ascii_String_of_int|repeat constructor; cbn; lia].
Qed.

Lemma X10_tsize_is_data_length_witness :
  let c := set_data [x61; x62; x63]
             (set_options [(js "tsize", js "0")] (new_ctx [] [] [])) in
  exists c' before after,
    goto 1 oack c =
    (awaiting_oack c',
     [Enter oack;
      Out [] ([x00; x06] ++ before ++
              (list_byte_of_string "tsize" ++ [x00] ++
               ascii_bytes (String_of_int 3) ++ [x00]) ++ after)]).
Proof.
  intros c. apply (X10_tsize_is_data_length 0 c (js "0")).
  - cbn. lia.
  - left. reflexivity.
Defined.

Lemma oack_options_unknown (c : Ctx) (entries : Map) :
  Forall unknown_option entries ->
  oack_options c entries = Ok (c, repeat [] (length entries)).
Proof.
  induction 1 as [|[k v] rest (K1 & K2 & K3) _ IH]; [reflexivity|].
  cbn [fst] in *. cbn [oack_options]. unfold oack_option.
  apply jsstring_eqb_neq in K1, K2, K3. rewrite K1, K2, K3. cbn [bind].
  rewrite IH. reflexivity.
Qed.

(** X11. Options that are all unknown are still acknowledged: the OACK is
    the bare opcode 00 06 with no option in it, the block size stays as it
    was, and the connection waits for the ACK of block 0 before it sends
    data. *)
Theorem X11_unknown_options_empty_oack (f : nat) (c : Ctx) :
  options c <> [] -> Forall unknown_option (options c) -> try c <= 3 ->
  goto (S f) oack c =
  (awaiting_oack (set_try (try c + 1) c), [Enter oack; Out (clientKey c) [x00; x06]]).
Proof.
  intros O U T.
  rewrite (goto_oack_ok f c (set_try (try c + 1) c) (repeat [] (length (options c))) T O)
    by (now apply oack_options_unknown).
  do 3 f_equal. unfold Buffer_concat. cbn [concat clientKey set_try].
  f_equal. induction (length (options c)) as [|n IH]; [reflexivity|exact IH].
Qed.

Lemma X11_unknown_options_empty_oack_witness :
  let c := set_blocksize 512 (set_options [(js "timeout", js "5")] (new_ctx [] [] [])) in
  goto 1 oack c = (awaiting_oack (set_try 1 c), [Enter oack; Out [] [x00; x06]]).
Proof.
  intros c. apply (X11_unknown_options_empty_oack 0 c).
  - discriminate.
  - repeat constructor; cbn; discriminate.
  - cbn. lia.
Defined.

(** ** Negotiation *)

Lemma sent_oack_resends (key : jsstring) (pkt : Buffer) (n : nat) :
  sent (oack_resends key pkt n) = repeat pkt n.
Proof.
  induction n as [|n IH]; [reflexivity|]. cbn [oack_resends sent repeat]. now rewrite IH.
Qed.

Lemma run_unacknowledged_oack :
  forall (evs : list Event) (c : Ctx) (bs : list Buffer),
  1 <= try c <= 4 -> options c <> [] ->
  (forall t, oack_options (set_try t c) (options c) = Ok (set_try t c, bs)) ->
  Forall (unacknowledged 0) evs ->
  let left := Z.to_nat (4 - try c) in
  let pkt := Buffer_concat ([x00; x06] :: bs) in
  exists m,
    run evs (awaiting_oack c) =
      (m, oack_resends (clientKey c) pkt (Nat.min left (timeouts evs)) ++
          (if (left <? timeouts evs)%nat then [Enter oack; Final None oack] else [])) /\
    ended m = (left <? timeouts evs)%nat.
Proof.
  induction evs as [|ev r IH]; intros c bs T O H F left pkt.
  - exists (awaiting_oack c). cbn [run timeouts]. rewrite Nat.min_0_r.
    split; reflexivity.
  - inversion F as [|? ? U F']; subst. destruct ev as [msg|].
    + cbn [unacknowledged] in U. cbn [run timeouts].
      rewrite (deliver_mismatch (awaiting_oack c) oack_ack msg eq_refl U).
      destruct (IH c bs T O H F') as (m & E & D). rewrite E. exists m. auto.
    + cbn [run timeouts deliver awaiting_oack timer follow ctx]. unfold chain.
      destruct (Z.le_gt_cases (try c) 3) as [L|L].
      * rewrite (goto_oack_ok _ c (set_try (try c + 1) c) bs L O (H _)).
        destruct (IH (set_try (try c + 1) c) bs) as (m & E & D);
          [cbn [try set_try]; lia|exact O|exact H|exact F'|].
        cbn [try set_try clientKey] in E, D. rewrite E.
        assert (P : left = S (Z.to_nat (4 - (try c + 1)))) by (unfold left; lia).
        clearbody left. subst left. set (k := Z.to_nat (4 - (try c + 1))) in *.
        exists m. cbn [Nat.min oack_resends Nat.ltb Nat.leb app clientKey set_try].
        split; [reflexivity|exact D].
      * rewrite (goto_oack_abort _ c L). rewrite run_quiet by reflexivity.
        assert (P : left = 0%nat) by (unfold left; lia). clearbody left. subst left.
        eexists. cbn [Nat.min oack_resends Nat.ltb Nat.leb app ended].
        split; reflexivity.
Qed.

(* after the first OACK, every re-entry of oack builds the same one *)
Lemma oack_options_stable (c c' : Ctx) (bs : list Buffer) :
  oack_options c (options c) = Ok (c', bs) ->
  forall t, oack_options (set_try t c') (options c') = Ok (set_try t c', bs).
Proof.
  intros E t.
  assert (O : options c' = options c).
  { destruct (oack_options_again (options c) c c' c bs E eq_refl) as (x & E' & S & _).
    rewrite E in E'. injection E' as <-. rewrite S. reflexivity. }
  assert (D : data c' = data c).
  { destruct (oack_options_again (options c) c c' c bs E eq_refl) as (x & E' & S & _).
    rewrite E in E'. injection E' as <-. rewrite S. reflexivity. }
  rewrite O.
  destruct (oack_options_again (options c) c c' (set_try t c') bs E) as (c2 & E2 & S2 & B2);
    [exact D|].
  rewrite E2. do 2 f_equal.
  assert (B : blocksize c2 = blocksize c') by (destruct B2 as [B|[B _]]; exact B).
  rewrite S2, B. destruct c'. reflexivity.
Qed.

(** X12. An OACK that is never acknowledged is sent four times, the same
    bytes each time: once when the oack state is entered and once on each
    of the first three timeouts. The fourth timeout ends the connection
    through the final handler without an error; no DATA and no ERROR
    datagram is sent. *)
Theorem X12_oack_retransmission_bound (c : Ctx) (evs : list Event) :
  try c = 0 -> options c <> [] ->
  Forall (unacknowledged 0) evs ->
  exists pkt,
    firstn 2 pkt = [x00; x06] /\
    snd (negotiation c evs) =
      [Enter oack; Out (clientKey c) pkt] ++
      oack_resends (clientKey c) pkt (Nat.min 3 (timeouts evs)) ++
      (if (3 <? timeouts evs)%nat then [Enter oack; Final None oack] else []) /\
    sent (snd (negotiation c evs)) = repeat pkt (Nat.min 4 (S (timeouts evs))) /\
    ended (fst (negotiation c evs)) = (3 <? timeouts evs)%nat.
Proof.
  intros T O F.
  destruct (oack_options_total (options c) (set_try (try c + 1) c)) as (c' & bs & E & S').
  exists (Buffer_concat ([x00; x06] :: bs)). split; [reflexivity|].
  unfold negotiation, chain. rewrite (goto_oack_ok _ c c' bs) by (auto; lia).
  assert (K : clientKey c' = clientKey c) by (rewrite S'; reflexivity).
  assert (Tc : try c' = 1) by (rewrite S'; cbn; lia).
  assert (Oc : options c' = options c) by (rewrite S'; reflexivity).
  destruct (run_unacknowledged_oack evs c' bs) as (m & R & D);
    [lia|now rewrite Oc| |exact F|].
  { apply (oack_options_stable (set_try (try c + 1) c)). exact E. }
  rewrite Tc in R, D. change (Z.to_nat (4 - 1)) with 3%nat in R, D.
  rewrite R, K. cbn [fst snd]. split; [reflexivity|]. split; [|exact D].
  rewrite !sent_app, sent_oack_resends. cbn [sent app].
  destruct (3 <? timeouts evs)%nat; cbn [sent]; rewrite app_nil_r; reflexivity.
Qed.

Lemma X12_oack_retransmission_bound_witness :
  let c := set_options [(js "blksize", js "8"); (js "tsize", js "0")] (new_ctx [] [] []) in
  let evs := [Timeout; Datagram (ack 1); Timeout; Timeout; Timeout] in
  exists pkt,
    firstn 2 pkt = [x00; x06] /\
    sent (snd (negotiation c evs)) = repeat pkt 4 /\
    ended (fst (negotiation c evs)) = true.
Proof.
  intros c evs.
  destruct (X12_oack_retransmission_bound c evs) as (pkt & H & _ & S & D).
  - reflexivity.
  - discriminate.
  - repeat constructor.
    exists 4. split; [reflexivity|]. right. exists 1. split; [reflexivity|]. lia.
  - exists pkt. auto.
Defined.

Lemma goto_oack_blksize (f : nat) (c : Ctx) (v : jsstring) :
  NoDup (map fst (options c)) -> In (js "blksize", v) (options c) -> try c <= 3 ->
  exists before after,
    goto (S f) oack c =
    (awaiting_oack (set_blocksize (Math_min (ToNumber v) 1428) (set_try (try c + 1) c)),
     [Enter oack;
      Out (clientKey c)
        ([x00; x06] ++ before ++
         OACK_entry (js "blksize") (Number_toString (Math_min (ToNumber v) 1428)) ++
         after)]).
Proof.
  intros N I T. destruct (state_oack_blksize c v N I T) as (before & after & E).
  exists before, after. cbn [goto state_handler]. rewrite E. reflexivity.
Qed.

Lemma Buffer_slice_prefix (d : Buffer) (e : Z) :
  0 <= e -> Buffer_slice d 0 e = firstn (Z.to_nat e) d.
Proof.
  intros R. unfold Buffer_slice, clampIndex. cbn [Z.ltb Z.compare].
  destruct (Z.ltb_spec e 0); [lia|].
  rewrite (Z.min_l 0) by lia. cbn [Z.to_nat skipn]. rewrite Z.sub_0_r.
  destruct (Z.le_gt_cases e (Z.of_nat (length d))) as [L|L].
  - now rewrite Z.min_l by lia.
  - rewrite Z.min_r, Nat2Z.id by lia. rewrite firstn_all, firstn_all2 by lia. reflexivity.
Qed.

(** X13. The block size that the OACK announces is the one the transfer
    uses: for a blksize text that denotes an integer [n], not negative, the
    OACK carries "blksize", a zero byte, the decimal text of min(n, 1428)
    and a zero byte, and once the OACK is acknowledged with block 0 the
    first DATA packet is block 1 with the first min(n, 1428) bytes of the
    data; ctx.blocksize is min(n, 1428). *)
Theorem X13_negotiated_size_used (c : Ctx) (v : jsstring) (n : Z) :
  try c = 0 -> block c = 0 ->
  NoDup (map fst (options c)) -> In (js "blksize", v) (options c) ->
  ToNumber v = Int n -> 0 <= n ->
  exists before after,
    snd (negotiation c [Datagram (ack 0)]) =
      [Enter oack;
       Out (clientKey c)
         ([x00; x06] ++ before ++
          OACK_entry (js "blksize") (String_of_int (Z.min n 1428)) ++ after);
       Enter prepareDataPacket; Enter sendDataPacket;
       Out (clientKey c) (DATA 1 (firstn (Z.to_nat (Z.min n 1428)) (data c)))] /\
    blocksize (ctx (fst (negotiation c [Datagram (ack 0)]))) = Int (Z.min n 1428).
Proof.
  intros T B N I Tn P.
  destruct (goto_oack_blksize 4 c v N I ltac:(lia)) as (before & after & G).
  exists before, after. unfold negotiation, chain. rewrite G.
  rewrite Tn, Math_min_Int, Number_toString_Int by lia.
  set (c' := set_blocksize (Int (Z.min n 1428)) (set_try (try c + 1) c)).
  cbn [run deliver awaiting_oack listener ctx].
  rewrite (listener_match oack_ack c' (ack 0)) by reflexivity.
  cbn [acknowledged follow ctx]. unfold chain.
  rewrite (goto_prepare_Int _ c' (Z.min n 1428)) by (try reflexivity; cbn; lia).
  cbn [fst snd app ctx awaiting_data clientKey block data c' set_blocksize set_try blocksize
       prepared set_block set_packet].
  rewrite B. change (0 + 1) with 1. change (0 * Z.min n 1428) with 0.
  rewrite Z.mul_1_l, Buffer_slice_prefix by lia. split; reflexivity.
Qed.

Lemma X13_negotiated_size_used_witness :
  let c := set_data [x61; x62; x63; x64; x65]
             (set_options [(js "blksize", js "2")] (new_ctx [] [] [])) in
  snd (negotiation c [Datagram (ack 0)]) =
    [Enter oack; Out [] ([x00; x06] ++ list_byte_of_string "blksize" ++ [x00; x32; x00]);
     Enter prepareDataPacket; Enter sendDataPacket;
     Out [] (DATA 1 [x61; x62])] /\
  blocksize (ctx (fst (negotiation c [Datagram (ack 0)]))) = Int 2.
Proof.
  intros c.
  destruct (X13_negotiated_size_used c (js "2") 2) as (before & after & _ & S).
  - reflexivity.
  - reflexivity.
  - repeat constructor. cbn. tauto.
  - left. reflexivity.
  - reflexivity.
  - lia.
  - split; [reflexivity|exact S].
Defined.

(** ** Reassembling the data *)

Lemma firstn_add {A : Type} (n m : nat) :
  forall l : list A, firstn (n + m) l = firstn n l ++ firstn m (skipn n l).
Proof.
  induction n as [|n IH]; intros l; [reflexivity|].
  destruct l as [|x l]; cbn [Nat.add firstn skipn app].
  - now rewrite firstn_nil.
  - now rewrite IH.
Qed.

Lemma skipn_add {A : Type} (n m : nat) :
  forall l : list A, skipn (n + m) l = skipn m (skipn n l).
Proof.
  induction n as [|n IH]; intros l; [reflexivity|].
  destruct l as [|x l]; cbn [Nat.add skipn]; [now rewrite skipn_nil|apply IH].
Qed.

(* adjacent slices make one slice *)
Lemma Buffer_slice_app (d : Buffer) (a b e : Z) :
  0 <= a <= b -> b <= e ->
  Buffer_slice d a b ++ Buffer_slice d b e = Buffer_slice d a e.
Proof.
  intros R1 R2. unfold Buffer_slice, clampIndex.
  destruct (Z.ltb_spec a 0); [lia|]. destruct (Z.ltb_spec b 0); [lia|].
  destruct (Z.ltb_spec e 0); [lia|].
  set (len := Z.of_nat (length d)).
  set (x := Z.to_nat (Z.min a len)). set (y := Z.to_nat (Z.min b len)).
  set (z := Z.to_nat (Z.min e len)).
  replace (Z.to_nat (Z.min b len - Z.min a len)) with (y - x)%nat by lia.
  replace (Z.to_nat (Z.min e len - Z.min b len)) with (z - y)%nat by lia.
  replace (Z.to_nat (Z.min e len - Z.min a len)) with ((y - x) + (z - y))%nat by lia.
  rewrite firstn_add. f_equal. f_equal.
  replace y with (x + (y - x))%nat at 1 by lia. apply skipn_add.
Qed.

Lemma sends_payloads (key : jsstring) (d : Buffer) (bs : Z) (n : nat) :
  forall j : Z, 0 <= j -> 0 <= bs ->
  concat (map (skipn 4) (sent (sends key d bs j n))) =
  Buffer_slice d (j * bs) ((j + Z.of_nat n) * bs).
Proof.
  induction n as [|n IH]; intros j J B.
  - cbn [sends sent map concat]. symmetry. apply length_zero_iff_nil.
    rewrite Buffer_slice_length by nia. lia.
  - cbn [sends sent map concat]. rewrite IH by lia.
    unfold DATA. cbn [skipn app].
    replace (j + Z.of_nat (S n)) with (j + 1 + Z.of_nat n) by lia.
    apply Buffer_slice_app; nia.
Qed.

Lemma sends_payload_bound (key : jsstring) (d : Buffer) (bs : Z) (n : nat) :
  forall j : Z, 0 <= j -> 0 <= bs ->
  Forall (fun pkt => Z.of_nat (length pkt) <= bs + 4) (sent (sends key d bs j n)).
Proof.
  induction n as [|n IH]; intros j J B; cbn [sends sent]; constructor.
  - rewrite DATA_length, Buffer_slice_length by nia. lia.
  - apply IH; lia.
Qed.

(** X14. A complete transfer delivers the data: with a block size [bs] of
    at least 1 and a data source of any length that needs fewer than 65535
    full blocks, the run in which each DATA packet is acknowledged sends
    len / bs + 1 packets, none with more than [bs] payload bytes, whose
    payloads in order are the data source, and ends without an error on
    the last ACK. *)
Theorem X14_transfer_delivers_data (c : Ctx) (bs : Z) :
  block c = 0 -> blocksize c = Int bs -> 1 <= bs ->
  Z.of_nat (length (data c)) / bs < 65535 ->
  let N := Z.to_nat (Z.of_nat (length (data c)) / bs) in
  let r := transfer c (acks 1 (S N)) in
  snd r = sends (clientKey c) (data c) bs 0 (S N) ++ [Final None sendDataPacket] /\
  ended (fst r) = true /\
  length (sent (snd r)) = S N /\
  concat (map (skipn 4) (sent (snd r))) = data c /\
  Forall (fun pkt => Z.of_nat (length pkt) <= bs + 4) (sent (snd r)).
Proof.
  intros B0 B HS Q N r.
  pose proof (Z.div_mod (Z.of_nat (length (data c))) bs ltac:(lia)) as DM.
  pose proof (Z.mod_pos_bound (Z.of_nat (length (data c))) bs ltac:(lia)) as MB.
  assert (Q0 : 0 <= Z.of_nat (length (data c)) / bs) by (apply Z.div_pos; lia).
  assert (HN : Z.of_nat N = Z.of_nat (length (data c)) / bs) by (unfold N; lia).
  destruct (transfer_full_blocks c bs N B) as (c' & E & Bk & Dt & Bs & Ky); try nia.
  rewrite B0 in E, Bk. change (0 + 1) with 1 in E.
  assert (T : r = (mkFsm (set_try 1 (prepared c')) sendDataPacket None None true,
                   sends (clientKey c) (data c) bs 0 (S N) ++
                   [Final None sendDataPacket])).
  { unfold r. rewrite acks_snoc, transfer_app, E.
    replace (1 + Z.of_nat N) with (block c' + 1) by lia.
    rewrite (short_block_ends c' bs) by (rewrite ?Dt, ?Bs; auto; nia). reflexivity. }
  rewrite T. cbn [fst snd ended]. split; [reflexivity|]. split; [reflexivity|].
  rewrite sent_app. cbn [sent]. rewrite app_nil_r. split; [apply sent_sends_length|].
  split.
  - rewrite sends_payloads by lia. change (0 * bs) with 0.
    apply Buffer_slice_whole. nia.
  - apply sends_payload_bound; lia.
Qed.

Lemma X14_transfer_delivers_data_witness :
  let c := set_blocksize 2 (set_data [x61; x62; x63; x64; x65] (new_ctx [] [] [])) in
  sent (snd (transfer c (acks 1 3))) =
    [DATA 1 [x61; x62]; DATA 2 [x63; x64]; DATA 3 [x65]] /\
  concat (map (skipn 4) (sent (snd (transfer c (acks 1 3))))) = [x61; x62; x63; x64; x65] /\
  ended (fst (transfer c (acks 1 3))) = true.
Proof.
  intros c.
  destruct (X14_transfer_delivers_data c 2) as (T & E & _ & P & _);
    [reflexivity|reflexivity|lia|cbn; lia|].
  change (Z.to_nat (Z.of_nat (length (data c)) / 2)) with 2%nat in T, E, P.
  split; [rewrite T; reflexivity|]. split; [exact P|exact E].
Defined.

(** ** The largest transfer *)

(** X15. Block numbers do not wrap: when the data source holds 65535 full
    blocks or more, the ACK of block 65535 makes the preparation of block
    65536 raise the out-of-range exception of writeUInt16BE. The machine
    hands the exception to the final handler: after the 65535 DATA packets
    one ERROR datagram with code 0 and the message of the exception is
    sent, the connection has ended, and no later event has any effect. *)
Theorem X15_block_number_limit (c : Ctx) (bs : Z) (more : list Event) :
  block c = 0 -> blocksize c = Int bs -> 1 <= bs ->
  65535 * bs <= Z.of_nat (length (data c)) ->
  let r := transfer c (acks 1 (Z.to_nat 65535) ++ more) in
  (exists c', block c' = 65535 /\
     state_prepareDataPacket c' = Throw ERR_OUT_OF_RANGE /\
     fst r = mkFsm c' prepareDataPacket None None true) /\
  snd r =
    sends (clientKey c) (data c) bs 0 (Z.to_nat 65535) ++
    [Enter prepareDataPacket;
     Final (Some (ERR_OUT_OF_RANGE_message 65536)) prepareDataPacket;
     Out (clientKey c) (out_of_range_datagram 65536)] /\
  sent (snd r) =
    sent (sends (clientKey c) (data c) bs 0 (Z.to_nat 65535)) ++
    [out_of_range_datagram 65536] /\
  length (sent (snd r)) = S (Z.to_nat 65535).
Proof.
  intros B0 B HS L r. unfold r.
  replace (Z.to_nat 65535) with (S (Z.to_nat 65534)) by lia.
  rewrite acks_snoc, <- app_assoc, transfer_app.
  destruct (transfer_full_blocks c bs (Z.to_nat 65534) B) as (c' & E & Bk & Dt & Bs & Ky);
    try lia.
  rewrite B0 in E, Bk. change (0 + 1) with 1 in E. rewrite E.
  replace (1 + Z.of_nat (Z.to_nat 65534)) with 65535 by lia.
  change ([Datagram (ack 65535)] ++ more) with (Datagram (ack 65535) :: more).
  rewrite (block_number_overflow c' bs) by (rewrite ?Bk, ?Dt, ?Bs; auto; lia).
  cbn [fst snd]. rewrite Ky. split; [|split; [reflexivity|split]].
  - exists (set_try 1 (prepared c')). split; [cbn; lia|]. split; [|reflexivity].
    apply state_prepare_overflow. cbn. lia.
  - rewrite sent_app. reflexivity.
  - rewrite sent_app, length_app, sent_sends_length. cbn [sent length]. lia.
Qed.

Lemma X15_block_number_limit_witness :
  let c := set_blocksize 1 (set_data (repeat x00 (Z.to_nat 65535)) (new_ctx [] [] [])) in
  let r := transfer c (acks 1 (Z.to_nat 65535) ++ [Timeout]) in
  length (sent (snd r)) = S (Z.to_nat 65535) /\
  last (sent (snd r)) [] = out_of_range_datagram 65536 /\
  ended (fst r) = true.
Proof.
  intros c r.
  destruct (X15_block_number_limit c 1 [Timeout]) as ((c' & _ & _ & M) & _ & S & Len).
  - reflexivity.
  - reflexivity.
  - lia.
  - unfold c. cbn [data set_blocksize set_data]. rewrite repeat_length. lia.
  - split; [exact Len|]. split; [|fold r in M; rewrite M; reflexivity].
    fold r in S. rewrite S. apply last_last.
Defined.

(** ** Datagrams too short for their fields *)

(** X16. A datagram that is too short for the field the listener reads
    (fewer than 2 bytes, or opcode 4 with fewer than 4 bytes) makes the
    listener raise the out-of-range exception; the machine, with its
    context, listener and timer, is as before. *)
Theorem X16_truncated_datagram_raises (m : Fsm) (l : Listener) (msg : Buffer) :
  listener m = Some l ->
  (length msg < 2)%nat \/ (readUInt16BE msg 0 = Ok 4 /\ (length msg < 4)%nat) ->
  deliver (Datagram msg) m = (m, [Raise ERR_OUT_OF_RANGE]).
Proof.
  intros L [S|[O S]].
  - now apply deliver_short_datagram with l.
  - cbn [deliver]. rewrite L.
    assert (E : readUInt16BE msg 2 = Throw ERR_OUT_OF_RANGE).
    { destruct msg as [|b0 [|b1 [|b2 [|b3 r]]]]; simpl in S; try lia; reflexivity. }
    destruct l; cbn [listener_body]; unfold listener_oack, listener_data; rewrite O;
      cbn [bind Z.eqb Pos.eqb negb]; rewrite E; reflexivity.
Qed.

Lemma X16_truncated_datagram_raises_witness :
  let m := awaiting_data (set_block 1 (new_ctx [] [] [])) in
  deliver (Datagram [x00; x04; x00]) m = (m, [Raise ERR_OUT_OF_RANGE]).
Proof.
  intros m. apply (X16_truncated_datagram_raises m data_ack [x00; x04; x00]).
  - reflexivity.
  - right. split; [reflexivity|simpl; lia].
Defined.

(** ** What every reachable machine looks like *)

Lemma oack_options_ctx (entries : Map) (c c' : Ctx) (bs : list Buffer) :
  oack_options c entries = Ok (c', bs) -> c' = set_blocksize (blocksize c') c.
Proof.
  intros E. destruct (oack_options_again entries c c' c bs E eq_refl) as (x & E' & S & _).
  rewrite E in E'. now injection E' as <-.
Qed.

Lemma tryRoute_shape (c : Ctx) :
  forall (fuel : nat) (calls : list Effect) (i : nat) (h : Handled),
  tryRoute fuel c calls i = Ok h ->
  try (h_ctx h) = try c /\
  (h_next h = Some (to_state oack) \/ exists message, h_next h = Some (to_error message)).
Proof.
  induction fuel as [|f IH]; intros calls i h E; [discriminate|].
  cbn [tryRoute] in E. destruct (length (routes c) <=? i)%nat.
  { injection E as <-. split; [reflexivity|right; eexists; reflexivity]. }
  destruct (nth_error (routes c) i) as [[r|]|]; try (now apply IH in E).
  destruct (filter_matches (filter r) (filename c)); [|now apply IH in E].
  destruct (handler r (filename c) (mode c) (options c)).
  - injection E as <-. split; [reflexivity|now left].
  - injection E as <-. split; [reflexivity|right; eexists; reflexivity].
  - now apply IH in E.
Qed.

Lemma handler_shape (s : StateName) (c : Ctx) (h : Handled) :
  state_handler s c = Ok h -> enterable s c ->
  match h_next h with
  | Some (to_state s') => enterable s' (h_ctx h)
  | Some _ => True
  | None =>
    h_timeout h = Some (1000, s) /\ 1 <= try (h_ctx h) <= 4 /\
    ((h_listen h = Some oack_ack /\ s = oack) \/
     (h_listen h = Some data_ack /\ s = sendDataPacket))
  end.
Proof.
  intros E A. unfold enterable in *. destruct s; cbn [state_handler] in E.
  - unfold state_init in E. destruct (request c); [|discriminate].
    repeat match type of E with
    | bind ?r _ = Ok _ => destruct r as [[? ?]| |]; try discriminate; cbn [bind] in E
    | (if ?x then _ else _) = Ok _ => destruct x
    | Ok _ = Ok _ => injection E as <-
    end; cbn; auto. right. right. lia.
  - destruct (tryRoute_shape c _ _ _ h E) as [T [N|[message N]]]; rewrite N; [|exact I].
    right. right. rewrite T. destruct A as [A|[A|A]]; [discriminate|discriminate|exact A].
  - unfold state_oack in E. destruct A as [A|[A|A]]; try discriminate.
    destruct (Z.ltb_spec 3 (try c)); [injection E as <-; exact I|].
    destruct (Map_size _ =? 0)%nat; [injection E as <-; cbn; auto|].
    change (writeUInt16BE (Buffer_alloc 2) 6 0) with (Ok [x00; x06]) in E. cbn [bind] in E.
    destruct (oack_options _ _) as [[c' opts]| |] eqn:O; try discriminate.
    cbn [bind] in E. injection E as <-. cbn [h_next h_timeout h_listen h_ctx].
    apply oack_options_ctx in O. rewrite O. cbn [try set_blocksize set_try].
    split; [reflexivity|]. split; [lia|]. left. split; reflexivity.
  - unfold state_prepareDataPacket in E.
    repeat match type of E with
    | bind ?r _ = Ok _ => destruct r as [?| |]; try discriminate; cbn [bind] in E
    end. injection E as <-. cbn. right. right. lia.
  - unfold state_sendDataPacket in E. destruct A as [A|[A|A]]; try discriminate.
    destruct (Z.ltb_spec 3 (try c)); injection E as <-; [exact I|].
    cbn [h_next h_timeout h_listen h_ctx try set_try].
    split; [reflexivity|]. split; [lia|]. right. split; reflexivity.
Qed.

Lemma leave_well_formed (c : Ctx) (err : option jsstring) (s : StateName) :
  well_formed (fst (leave c err s)).
Proof. unfold leave. destruct (final c err); exact I. Qed.

Lemma goto_well_formed :
  forall (fuel : nat) (s : StateName) (c : Ctx),
  enterable s c -> well_formed (fst (goto fuel s c)).
Proof.
  induction fuel as [|f IH]; intros s c A; [exact I|].
  cbn [goto]. destruct (state_handler s c) as [h|e|] eqn:E; [| |exact I].
  - pose proof (handler_shape s c h E A) as H.
    destruct (h_next h) as [[s'| |message]|].
    + specialize (IH s' (h_ctx h) H). destruct (goto f s' (h_ctx h)). exact IH.
    + pose proof (leave_well_formed (h_ctx h) None s) as W.
      destruct (leave (h_ctx h) None s). exact W.
    + pose proof (leave_well_formed (h_ctx h) (Some message) s) as W.
      destruct (leave (h_ctx h) (Some message) s). exact W.
    + destruct H as (T & R & L). unfold well_formed.
      cbn [fst listener timer ctx current ended].
      rewrite T. destruct L as [[-> ->]|[-> ->]]; repeat split; try lia; auto.
  - pose proof (leave_well_formed (raised_ctx s c) (Some (raised_message s c e)) s) as W.
    destruct (leave _ _ s). exact W.
Qed.

Lemma listener_targets (l : Listener) (c : Ctx) (msg : Buffer) (t : Target) :
  listener_body l c msg = Ok (Some t) ->
  t = to_null \/ t = to_state prepareDataPacket.
Proof.
  destruct l; cbn [listener_body]; unfold listener_oack, listener_data; intros E;
    repeat match type of E with
    | bind ?r _ = Ok _ => destruct r as [?| |]; try discriminate; cbn [bind] in E
    | (if ?x then _ else _) = Ok _ => destruct x
    end; try discriminate; injection E as <-; auto.
Qed.

Lemma follow_well_formed (t : Target) (m : Fsm) :
  (forall s, t = to_state s -> enterable s (ctx m)) -> well_formed (fst (follow t m)).
Proof.
  intros H. destruct t; cbn [follow];
    [apply goto_well_formed, H; reflexivity|apply leave_well_formed..].
Qed.

Lemma deliver_well_formed (ev : Event) (m : Fsm) :
  well_formed m -> well_formed (fst (deliver ev m)).
Proof.
  intros W. destruct ev as [msg|]; cbn [deliver].
  - destruct (listener m) as [l|] eqn:L; [|exact W].
    destruct (listener_body l (ctx m) msg) as [[t|]| |] eqn:B; try exact W.
    apply follow_well_formed. intros s ->.
    destruct (listener_targets _ _ _ _ B) as [Z|Z]; [discriminate|].
    injection Z as ->. right. now left.
  - destruct (timer m) as [[ms s]|] eqn:T; [|exact W].
    apply follow_well_formed. intros s' Z. injection Z as <-.
    unfold well_formed in W. rewrite T in W.
    destruct (listener m); [|contradiction]. right. right. lia.
Qed.

Lemma run_well_formed (evs : list Event) :
  forall m : Fsm, well_formed m -> well_formed (fst (run evs m)).
Proof.
  induction evs as [|ev r IH]; intros m W; [exact W|].
  cbn [run]. pose proof (deliver_well_formed ev m W) as W1.
  destruct (deliver ev m) as [m1 es1]. specialize (IH m1 W1).
  destruct (run r m1). exact IH.
Qed.

Lemma connection_well_formed (key : jsstring) (rs : list (option Route))
    (req : Buffer) (evs : list Event) :
  well_formed (fst (connection key rs req evs)).
Proof.
  unfold connection, start.
  pose proof (goto_well_formed chain init (new_ctx key rs req) (or_introl eq_refl)) as W0.
  destruct (goto chain init (new_ctx key rs req)) as [m es].
  pose proof (run_well_formed evs m W0) as W1. destruct (run evs m). exact W1.
Qed.

Lemma ended_nothing_armed (m : Fsm) :
  well_formed m -> ended m = true -> listener m = None /\ timer m = None.
Proof.
  unfold well_formed. intros W E.
  destruct (listener m) as [l|]; destruct (timer m) as [[ms s]|]; try contradiction.
  - destruct W as (_ & _ & F & _). congruence.
  - split; reflexivity.
Qed.

(** X17. Whatever the request, the routes and the events, the machine of a
    connection either waits with its listener and its timer together (the
    timer re-enters the state it is in, oack or sendDataPacket, and
    ctx.try is between 1 and 4), or has neither listener nor timer; in
    particular an ended connection has nothing armed. *)
Theorem X17_machine_well_formed (key : jsstring) (rs : list (option Route))
    (req : Buffer) (evs : list Event) :
  well_formed (fst (connection key rs req evs)) /\
  (ended (fst (connection key rs req evs)) = true ->
   listener (fst (connection key rs req evs)) = None /\
   timer (fst (connection key rs req evs)) = None).
Proof.
  split; [apply connection_well_formed|].
  apply ended_nothing_armed, connection_well_formed.
Qed.

Lemma X17_machine_well_formed_witness :
  let m := fst (connection [] [serve [x61]] (RRQ [x66] [x6f] []) [Datagram (ack 1)]) in
  well_formed m /\ listener m = None /\ timer m = None.
Proof.
  intros m.
  destruct (X17_machine_well_formed [] [serve [x61]] (RRQ [x66] [x6f] []) [Datagram (ack 1)])
    as [W Q].
  split; [exact W|]. apply Q. reflexivity.
Defined.

(** ** The end of a connection *)

(** X18. Nothing happens after the end: once the final handler has ended
    the connection, no later datagram or timeout changes the machine or
    has any effect; no datagram is sent after termination. *)
Theorem X18_nothing_after_end (key : jsstring) (rs : list (option Route))
    (req : Buffer) (evs more : list Event) :
  ended (fst (connection key rs req evs)) = true ->
  connection key rs req (evs ++ more) = connection key rs req evs.
Proof.
  intros E.
  destruct (ended_nothing_armed _ (connection_well_formed key rs req evs) E) as [L T].
  unfold connection in *. destruct (start key rs req) as [m es].
  rewrite run_app. destruct (run evs m) as [m1 es1]. cbn [fst] in L, T.
  rewrite (run_quiet more m1 L T). now rewrite app_nil_r.
Qed.

Lemma X18_nothing_after_end_witness :
  connection [] [] [x00; x02] ([] ++ [Timeout; Datagram (ack 0)]) =
  connection [] [] [x00; x02] [].
Proof.
  apply (X18_nothing_after_end [] [] [x00; x02] [] [Timeout; Datagram (ack 0)]).
  reflexivity.
Defined.

Lemma finals_app (a b : list Effect) : finals (a ++ b) = (finals a + finals b)%nat.
Proof.
  induction a as [|e a IH]; [reflexivity|].
  change ((e :: a) ++ b) with (e :: (a ++ b)).
  destruct e; cbn [finals]; rewrite IH; reflexivity.
Qed.

Lemma tryRoute_no_final (c : Ctx) :
  forall (fuel : nat) (calls : list Effect) (i : nat) (h : Handled),
  tryRoute fuel c calls i = Ok h -> finals calls = O -> finals (h_effects h) = O.
Proof.
  induction fuel as [|f IH]; intros calls i h E Z; [discriminate|].
  cbn [tryRoute] in E. destruct (length (routes c) <=? i)%nat.
  { injection E as <-. exact Z. }
  assert (Z1 : finals (calls ++ [Call i]) = O) by (rewrite finals_app, Z; reflexivity).
  destruct (nth_error (routes c) i) as [[r|]|]; try (now apply IH in E).
  destruct (filter_matches (filter r) (filename c)); [|now apply IH in E].
  destruct (handler r (filename c) (mode c) (options c));
    [injection E as <-; exact Z1|injection E as <-; exact Z1|now apply IH in E].
Qed.

(* the state handlers do not run the final handler themselves *)
Lemma handler_no_final (s : StateName) (c : Ctx) (h : Handled) :
  state_handler s c = Ok h -> finals (h_effects h) = O.
Proof.
  intros E. destruct s; cbn [state_handler] in E.
  - unfold state_init in E. destruct (request c); [|discriminate].
    repeat match type of E with
    | bind ?r _ = Ok _ => destruct r as [[? ?]| |]; try discriminate; cbn [bind] in E
    | (if ?x then _ else _) = Ok _ => destruct x
    | Ok _ = Ok _ => injection E as <-
    end; reflexivity.
  - now apply tryRoute_no_final in E.
  - unfold state_oack in E.
    repeat match type of E with
    | bind ?r _ = Ok _ => destruct r as [[? ?]| |]; try discriminate; cbn [bind] in E
    | (if ?x then _ else _) = Ok _ => destruct x
    | Ok _ = Ok _ => injection E as <-
    end; try reflexivity.
    unfold writeUInt16BE in E.
    repeat match type of E with
    | bind ?r _ = Ok _ => destruct r as [[? ?]| |]; try discriminate; cbn [bind] in E
    | bind (if ?x then _ else _) _ = Ok _ => destruct x; try discriminate; cbn [bind] in E
    | Ok _ = Ok _ => injection E as <-
    end; reflexivity.
  - unfold state_prepareDataPacket in E.
    repeat match type of E with
    | bind ?r _ = Ok _ => destruct r as [?| |]; try discriminate; cbn [bind] in E
    end. injection E as <-. reflexivity.
  - unfold state_sendDataPacket in E. destruct (3 <? try c); injection E as <-; reflexivity.
Qed.

(* the final handler ends the machine, once *)
Lemma leave_once (c : Ctx) (err : option jsstring) (s : StateName) :
  finals (snd (leave c err s)) = 1%nat /\ ended (fst (leave c err s)) = true /\
  listener (fst (leave c err s)) = None /\ timer (fst (leave c err s)) = None.
Proof.
  unfold leave. destruct err as [message|]; [rewrite final_error|]; repeat split.
Qed.

Lemma goto_final_once :
  forall (fuel : nat) (s : StateName) (c : Ctx), final_once (goto fuel s c).
Proof.
  induction fuel as [|f IH]; intros s c; [repeat split; cbn; auto; discriminate|].
  cbn [goto]. destruct (state_handler s c) as [h|e|] eqn:E;
    [| |repeat split; cbn; auto; discriminate].
  2: { destruct (leave_once (raised_ctx s c) (Some (raised_message s c e)) s)
         as (A & B & C & D).
       destruct (leave _ _ s) as [m es]. unfold final_once. cbn [fst snd finals] in *.
       rewrite A. repeat split; auto; discriminate. }
  pose proof (handler_no_final s c h E) as Z.
  assert (P : forall r : Fsm * list Effect, final_once r ->
            final_once (let (m, es) := r in (m, Enter s :: h_effects h ++ es))).
  { intros [m es] (A & B & C). unfold final_once. cbn [fst snd finals] in *.
    rewrite finals_app, Z. cbn [Nat.add]. auto. }
  destruct (h_next h) as [[s'| |message]|].
  - apply P, IH.
  - apply P. destruct (leave_once (h_ctx h) None s) as (A & B & C & D).
    unfold final_once. rewrite A. repeat split; auto; discriminate.
  - apply P. destruct (leave_once (h_ctx h) (Some message) s) as (A & B & C & D).
    unfold final_once. rewrite A. repeat split; auto; discriminate.
  - unfold final_once. cbn [fst snd finals ended]. rewrite Z.
    repeat split; auto; discriminate.
Qed.

Lemma follow_final_once (t : Target) (m : Fsm) : final_once (follow t m).
Proof.
  destruct t as [s| |message]; cbn [follow]; [apply goto_final_once| |].
  - destruct (leave_once (ctx m) None (current m)) as (A & B & C & D).
    unfold final_once. rewrite A. repeat split; auto; discriminate.
  - destruct (leave_once (ctx m) (Some message) (current m)) as (A & B & C & D).
    unfold final_once. rewrite A. repeat split; auto; discriminate.
Qed.

Lemma deliver_final_once (ev : Event) (m : Fsm) :
  ended m = false -> final_once (deliver ev m).
Proof.
  intros E.
  assert (Same : forall es, finals es = O -> final_once (m, es)).
  { intros es Z. unfold final_once. cbn [fst snd]. rewrite Z.
    repeat split; auto; discriminate. }
  destruct ev as [msg|]; cbn [deliver].
  - destruct (listener m) as [l|]; [|now apply Same].
    destruct (listener_body l (ctx m) msg) as [[t|]| |]; try (now apply Same).
    apply follow_final_once.
  - destruct (timer m) as [[ms s]|]; [apply follow_final_once|now apply Same].
Qed.

Lemma run_final_once (evs : list Event) :
  forall m : Fsm, ended m = false -> final_once (run evs m).
Proof.
  induction evs as [|ev r IH]; intros m E.
  - unfold final_once. cbn. repeat split; auto; discriminate.
  - cbn [run]. destruct (deliver_final_once ev m E) as (A & B & C).
    destruct (deliver ev m) as [m1 es1]. cbn [fst snd] in A, B, C.
    destruct (finals es1) as [|[|n]] eqn:F; [| |lia].
    + specialize (IH m1 (C eq_refl)). destruct (run r m1) as [m2 es2].
      destruct IH as (A2 & B2 & C2). unfold final_once. cbn [fst snd] in *.
      rewrite finals_app, F. cbn [Nat.add]. auto.
    + destruct (B eq_refl) as (En & L & T). rewrite (run_quiet r m1 L T).
      unfold final_once. cbn [fst snd]. rewrite app_nil_r, F.
      repeat split; auto; discriminate.
Qed.

(** X19. The final handler runs at most once in a connection, and the
    connection is ended exactly when it has run. *)
Theorem X19_final_runs_once (key : jsstring) (rs : list (option Route))
    (req : Buffer) (evs : list Event) :
  (finals (snd (connection key rs req evs)) <= 1)%nat /\
  (ended (fst (connection key rs req evs)) = true <->
   finals (snd (connection key rs req evs)) = 1%nat).
Proof.
  assert (H : final_once (connection key rs req evs)).
  { unfold connection, start.
    destruct (goto_final_once chain init (new_ctx key rs req)) as (A & B & C).
    destruct (goto chain init (new_ctx key rs req)) as [m es]. cbn [fst snd] in A, B, C.
    destruct (finals es) as [|[|n]] eqn:F; [| |lia].
    - destruct (run_final_once evs m (C eq_refl)) as (A2 & B2 & C2).
      destruct (run evs m) as [m2 es2]. unfold final_once. cbn [fst snd] in *.
      rewrite finals_app, F. cbn [Nat.add]. auto.
    - destruct (B eq_refl) as (En & L & T). rewrite (run_quiet evs m L T).
      unfold final_once. cbn [fst snd]. rewrite app_nil_r, F.
      repeat split; auto; discriminate. }
  destruct H as (A & B & C). split; [exact A|]. split.
  - intros E. destruct (finals (snd (connection key rs req evs))) as [|[|n]]; [|reflexivity|lia].
    rewrite (C eq_refl) in E. discriminate.
  - intros F. apply (B F).
Qed.

Lemma X19_final_runs_once_witness :
  let r := connection [] [serve [x61]] (RRQ [x66] [x6f] [])
             [Timeout; Datagram (ack 1); Timeout; Datagram (ack 1)] in
  (finals (snd r) <= 1)%nat /\ ended (fst r) = true.
Proof.
  intros r.
  destruct (X19_final_runs_once [] [serve [x61]] (RRQ [x66] [x6f] [])
              [Timeout; Datagram (ack 1); Timeout; Datagram (ack 1)]) as [A [_ B]].
  split; [exact A|]. apply B. reflexivity.
Defined.

(** ** The transfer phase *)

Lemma same_source_refl (c : Ctx) : same_source c c.
Proof. unfold same_source. repeat split; lia. Qed.

Lemma same_source_trans (a b c : Ctx) :
  same_source a b -> same_source b c -> same_source a c.
Proof.
  unfold same_source. intros (A1 & A2 & A3 & A4 & A5 & A6 & A7) (B1 & B2 & B3 & B4 & B5 & B6 & B7).
  repeat split; try congruence. lia.
Qed.

Lemma goto_prepare_data_phase (c : Ctx) :
  0 <= block c ->
  data_phase (fst (goto chain prepareDataPacket c)) /\
  same_source c (ctx (fst (goto chain prepareDataPacket c))).
Proof.
  intros B. unfold chain. destruct (Z.lt_ge_cases (block c) 65535) as [L|L].
  - rewrite goto_prepare_ok by lia. cbn. unfold data_phase, same_source. cbn.
    repeat split; lia.
  - rewrite goto_prepare_overflow by lia. cbn. unfold data_phase, same_source. cbn.
    repeat split; lia.
Qed.

Lemma goto_send_data_phase (c : Ctx) :
  0 <= block c ->
  data_phase (fst (goto chain sendDataPacket c)) /\
  same_source c (ctx (fst (goto chain sendDataPacket c))).
Proof.
  intros B. unfold chain. destruct (Z.le_gt_cases (try c) 3) as [L|L].
  - rewrite goto_send_ok by lia. cbn. unfold data_phase, same_source. cbn.
    repeat split; lia.
  - rewrite goto_send_abort by lia. cbn. unfold data_phase, same_source. cbn.
    repeat split; lia.
Qed.

Lemma leave_data_phase (c : Ctx) (err : option jsstring) (s : StateName) :
  0 <= block c ->
  data_phase (fst (leave c err s)) /\ same_source c (ctx (fst (leave c err s))).
Proof.
  intros B. unfold leave. destruct err as [message|]; [rewrite final_error|];
    cbn; unfold data_phase; cbn; (split; [auto|apply same_source_refl]).
Qed.

Lemma deliver_data_phase (ev : Event) (m : Fsm) :
  data_phase m ->
  data_phase (fst (deliver ev m)) /\ same_source (ctx m) (ctx (fst (deliver ev m))).
Proof.
  intros D. pose proof D as [B P].
  assert (Same : forall es : list Effect, data_phase (fst (m, es)) /\ same_source (ctx m) (ctx (fst (m, es))))
    by (intros; split; [exact D|apply same_source_refl]).
  destruct ev as [msg|]; cbn [deliver].
  - destruct (listener m) as [[|]|] eqn:L; try apply Same; [contradiction|].
    cbn [listener_body].
    destruct (listener_data (ctx m) msg) as [[t|]| |] eqn:E; try apply Same.
    destruct (listener_targets data_ack _ _ _ E) as [T|T]; rewrite T; cbn [follow].
    + now apply leave_data_phase.
    + now apply goto_prepare_data_phase.
  - destruct (timer m) as [[ms s]|] eqn:T; [|apply Same].
    destruct (listener m) as [[|]|]; try contradiction.
    destruct s; try contradiction. cbn [follow]. now apply goto_send_data_phase.
Qed.

(** X20. Once the transfer phase has begun, it is not left and its
    parameters are fixed: whatever datagrams and timeouts follow, the
    machine never waits for an OACK acknowledgement again, ctx.data,
    ctx.blocksize, the options, filename, mode and client key stay as they
    are, and ctx.block never decreases. *)
Theorem X20_transfer_phase_fixed (evs : list Event) :
  forall m : Fsm, data_phase m ->
  data_phase (fst (run evs m)) /\ same_source (ctx m) (ctx (fst (run evs m))).
Proof.
  induction evs as [|ev r IH]; intros m D.
  - cbn [run fst]. split; [exact D|apply same_source_refl].
  - cbn [run]. destruct (deliver_data_phase ev m D) as [D1 S1].
    destruct (deliver ev m) as [m1 es1]. cbn [fst] in D1, S1.
    destruct (IH m1 D1) as [D2 S2]. destruct (run r m1) as [m2 es2]. cbn [fst] in *.
    split; [exact D2|]. now apply same_source_trans with (ctx m1).
Qed.

Lemma X20_transfer_phase_fixed_witness :
  let c := set_blocksize 2 (set_data [x61; x62; x63] (new_ctx [] [] [])) in
  let m := fst (transfer c []) in
  let m' := fst (run [Timeout; Datagram (ack 1); Datagram (ack 9)] m) in
  data_phase m' /\ blocksize (ctx m') = 2 /\ data (ctx m') = [x61; x62; x63].
Proof.
  intros c m m'.
  destruct (X20_transfer_phase_fixed [Timeout; Datagram (ack 1); Datagram (ack 9)] m)
    as [D (S1 & S2 & _)].
  - unfold data_phase. cbn. split; [lia|exact I].
  - split; [exact D|]. split; [exact S2|exact S1].
Defined.

(** ** Sizes at the edges *)

Lemma Buffer_slice_negative_end (d : Buffer) (e : Z) :
  e < 0 -> Buffer_slice d 0 e = firstn (length d - Z.to_nat (- e)) d.
Proof.
  intros N. unfold Buffer_slice, clampIndex. cbn [Z.ltb Z.compare].
  destruct (Z.ltb_spec e 0); [|lia].
  rewrite (Z.min_l 0) by lia. cbn [Z.to_nat skipn]. rewrite Z.sub_0_r.
  f_equal. lia.
Qed.

(** X21. Whatever the error message, ASCII or not, the final handler does
    not raise and sends one ERROR datagram of exactly 5 + message.length
    bytes (the length in UTF-16 units: a text whose UTF-8 form is longer is
    cut), which starts with opcode 5 and the code of the message, a code
    between 0 and 7. *)
Theorem X21_error_datagram_size (c : Ctx) (message : jsstring) :
  exists pkt : Buffer,
    final c (Some message) = Ok [Out (clientKey c) pkt] /\
    length pkt = (5 + length message)%nat /\
    firstn 4 pkt = [x00; x05; x00; byte_of (getErrorCode message)] /\
    0 <= getErrorCode message <= 7.
Proof.
  eexists. split; [apply final_error|].
  pose proof (utf8_write_length message (S (length message))) as W.
  split; [|split; [reflexivity|apply getErrorCode_range]].
  rewrite !length_app, length_skipn, repeat_length. cbn [length]. lia.
Qed.

(** X22. A negative block size (a blksize option such as "-5" is accepted)
    makes the transfer one packet long: block 1 carries the data source
    without its last |blocksize| bytes, and its ACK ends the connection
    without an error, as the packet length never equals blocksize + 4. *)
Theorem X22_negative_block_size (c : Ctx) (bs : Z) (evs : list Event) :
  block c = 0 -> blocksize c = Int bs -> bs < 0 ->
  snd (transfer c (Datagram (ack 1) :: evs)) =
    [Enter prepareDataPacket; Enter sendDataPacket;
     Out (clientKey c)
       (DATA 1 (firstn (length (data c) - Z.to_nat (- bs)) (data c)));
     Final None sendDataPacket] /\
  ended (fst (transfer c (Datagram (ack 1) :: evs))) = true.
Proof.
  intros B Bs N. unfold transfer, chain. rewrite goto_prepare_ok by lia.
  cbn [run]. set (c1 := set_try 1 (prepared c)).
  assert (B1 : block c1 = 1) by (cbn; lia).
  rewrite <- B1 at 1 3. rewrite deliver_ack by lia.
  assert (P : packet (prepared c) =
              DATA 1 (firstn (length (data c) - Z.to_nat (- bs)) (data c))).
  { rewrite (packet_prepared_Int c bs Bs), B.
    change (0 + 1) with 1. rewrite Z.mul_0_l, Z.mul_1_l.
    now rewrite Buffer_slice_negative_end by lia. }
  assert (Short : acknowledged data_ack c1 = to_null).
  { rewrite (acknowledged_Int c1 bs) by exact Bs.
    change (packet c1) with (packet (prepared c)). rewrite P, DATA_length.
    replace (_ =? _) with false; [reflexivity|]. symmetry. apply Z.eqb_neq. lia. }
  rewrite Short. cbn [follow awaiting_data ctx current]. unfold leave. cbn [final].
  rewrite run_quiet by reflexivity. rewrite P. split; reflexivity.
Qed.

Lemma X22_negative_block_size_witness :
  let c := set_blocksize (-2) (set_data [x61; x62; x63] (new_ctx [] [] [])) in
  sent (snd (transfer c [Datagram (ack 1); Timeout])) = [DATA 1 [x61]] /\
  ended (fst (transfer c [Datagram (ack 1); Timeout])) = true.
Proof.
  intros c.
  destruct (X22_negative_block_size c (-2) [Timeout]) as [T E];
    [reflexivity|reflexivity|lia|].
  split; [rewrite T; reflexivity|exact E].
Defined.

(** ** A whole download *)

Lemma goto_getData_answer (f : nat) (c : Ctx) (pre rest : list (option Route))
    (r : Route) (d : Buffer) :
  routes c = pre ++ Some r :: rest -> Forall (passed_over c) pre ->
  filter_matches (filter r) (filename c) = true ->
  handler r (filename c) (mode c) (options c) = answer_data d ->
  goto (S f) getData c =
  (let (m, es) := goto f oack (set_blocksize 512 (set_block 0 (set_data d c))) in
   (m, Enter getData :: (calls_from c pre 0 ++ [Call (length pre)]) ++ es)).
Proof.
  intros R F M H.
  apply (goto_next f getData oack c
           (next (set_blocksize 512 (set_block 0 (set_data d c)))
              (calls_from c pre 0 ++ [Call (length pre)]) (to_state oack)));
    [|reflexivity].
  cbn [state_handler]. unfold state_getData.
  replace (S (length (routes c))) with (length pre + S (S (length rest)))%nat
    by (rewrite R; list_length; lia).
  rewrite (tryRoute_passes c pre [] (Some r :: rest)) by assumption.
  cbn [length Nat.add app tryRoute].
  replace (length (routes c) <=? length pre)%nat with false
    by (symmetry; apply Nat.leb_gt; rewrite R; list_length; lia).
  replace (nth_error (routes c) (length pre)) with (Some (Some r))
    by (rewrite R, nth_error_app2, Nat.sub_diag by lia; reflexivity).
  rewrite M, H. reflexivity.
Qed.

Lemma transfer_complete (c : Ctx) (bs : Z) :
  block c = 0 -> blocksize c = Int bs -> 1 <= bs ->
  Z.of_nat (length (data c)) / bs < 65535 ->
  exists m : Fsm,
    transfer c (acks 1 (S (Z.to_nat (Z.of_nat (length (data c)) / bs)))) =
    (m, sends (clientKey c) (data c) bs 0
          (S (Z.to_nat (Z.of_nat (length (data c)) / bs))) ++
        [Final None sendDataPacket]) /\
    ended m = true.
Proof.
  intros B0 B HS Q. set (N := Z.to_nat (Z.of_nat (length (data c)) / bs)).
  pose proof (Z.div_mod (Z.of_nat (length (data c))) bs ltac:(lia)) as DM.
  pose proof (Z.mod_pos_bound (Z.of_nat (length (data c))) bs ltac:(lia)) as MB.
  assert (Q0 : 0 <= Z.of_nat (length (data c)) / bs) by (apply Z.div_pos; lia).
  assert (HN : Z.of_nat N = Z.of_nat (length (data c)) / bs) by (unfold N; lia).
  destruct (transfer_full_blocks c bs N B) as (c' & E & Bk & Dt & Bs & Ky); try nia.
  rewrite B0 in E, Bk. change (0 + 1) with 1 in E.
  exists (mkFsm (set_try 1 (prepared c')) sendDataPacket None None true).
  split; [|reflexivity].
  rewrite acks_snoc, transfer_app, E.
  replace (1 + Z.of_nat N) with (block c' + 1) by lia.
  rewrite (short_block_ends c' bs) by (rewrite ?Dt, ?Bs; auto; nia). reflexivity.
Qed.

Lemma sent_calls_from (c : Ctx) (rs : list (option Route)) :
  forall i : nat, sent (calls_from c rs i) = [].
Proof.
  induction rs as [|r rs IH]; intros i; [reflexivity|].
  cbn [calls_from]. rewrite sent_app, IH. destruct (consulted c r); reflexivity.
Qed.

(** X23. A whole download without options: for a read request with an
    ASCII filename and mode and no option, whose first answering route
    supplies [d] (fewer than 65535 blocks of 512 bytes), the connection
    sends no OACK; with every block acknowledged it passes through init,
    getData and oack once, sends len / 512 + 1 DATA packets of at most 512
    bytes whose payloads in order are [d], and ends without an error. *)
Theorem X23_download_without_options (key name md : jsstring)
    (pre rest : list (option Route)) (r : Route) (d : Buffer) :
  plain name -> name <> [] -> plain md ->
  Forall (passed_over (mkCtx key (pre ++ Some r :: rest) None name md 0 [] [] 0 0 [])) pre ->
  filter_matches (filter r) name = true ->
  handler r name md [] = answer_data d ->
  Z.of_nat (length d) / 512 < 65535 ->
  let c0 := mkCtx key (pre ++ Some r :: rest) None name md 0 [] [] 0 0 [] in
  let N := Z.to_nat (Z.of_nat (length d) / 512) in
  let res := connection key (pre ++ Some r :: rest)
               (RRQ (ascii_bytes name) (ascii_bytes md) []) (acks 1 (S N)) in
  snd res =
    [Enter init; Enter getData] ++ calls_from c0 pre 0 ++
    [Call (length pre); Enter oack] ++
    sends key d 512 0 (S N) ++ [Final None sendDataPacket] /\
  ended (fst res) = true /\
  concat (map (skipn 4) (sent (snd res))) = d.
Proof.
  intros Pn Ne Pm F M H Q c0 N res.
  destruct (plain_bytes name Pn) as [Nn Dn]. destruct (plain_bytes md Pm) as [Nm Dm].
  assert (I : state_handler init
                (new_ctx key (pre ++ Some r :: rest)
                   (RRQ (ascii_bytes name) (ascii_bytes md) [])) =
              Ok (next c0 [] (to_state getData))).
  { cbn [state_handler]. rewrite state_init_RRQ; auto.
    - rewrite Dn, Dm. reflexivity.
    - intros E. apply Ne. destruct name; [reflexivity|discriminate]. }
  set (c3 := mkCtx key (pre ++ Some r :: rest) None name md 1 [] d 0 512 []).
  destruct (transfer_complete c3 512) as (m & T & E); [reflexivity|reflexivity|lia|exact Q|].
  cbn [c3 data blocksize clientKey] in T. fold N in T.
  assert (C : res = (m, [Enter init; Enter getData] ++ calls_from c0 pre 0 ++
                        [Call (length pre); Enter oack] ++
                        sends key d 512 0 (S N) ++ [Final None sendDataPacket])).
  { unfold res, connection, start, chain.
    rewrite (goto_next _ init getData _ _ I) by reflexivity.
    cbn [h_ctx h_effects next].
    rewrite (goto_getData_answer _ c0 pre rest r d) by (try reflexivity; assumption).
    rewrite (goto_next _ oack prepareDataPacket _
               (next c3 [] (to_state prepareDataPacket))) by reflexivity.
    cbn [h_ctx h_effects next].
    unfold transfer, chain in T. rewrite (goto_prepare_ok _ c3) in T by (cbn; lia).
    rewrite (goto_prepare_ok _ c3) by (cbn; lia).
    destruct (run (acks 1 (S N)) (awaiting_data (set_try 1 (prepared c3)))) as [m' es'].
    pose proof (f_equal fst T) as T1. pose proof (f_equal snd T) as T2.
    cbn [fst snd] in T1, T2. rewrite <- T1, <- T2. flatten. reflexivity. }
  rewrite C. cbn [fst snd]. split; [reflexivity|]. split; [exact E|].
  rewrite !sent_app, sent_calls_from.
  change (sent [Enter init; Enter getData]) with (@nil Buffer).
  change (sent [Call (length pre); Enter oack]) with (@nil Buffer).
  change (sent [Final None sendDataPacket]) with (@nil Buffer).
  rewrite !app_nil_l, app_nil_r.
  rewrite sends_payloads by lia. change (0 * 512) with 0.
  apply Buffer_slice_whole.
  pose proof (Z.div_mod (Z.of_nat (length d)) 512 ltac:(lia)) as DM.
  pose proof (Z.mod_pos_bound (Z.of_nat (length d)) 512 ltac:(lia)) as MB.
  assert (Q0 : 0 <= Z.of_nat (length d) / 512) by (apply Z.div_pos; lia).
  unfold N. lia.
Qed.

Lemma X23_download_without_options_witness :
  let r := mkRoute filter_undefined (fun _ _ _ => answer_data [x61; x62; x63]) in
  let res := connection (js "c") [None; Some r]
               (RRQ (ascii_bytes (js "f")) (ascii_bytes (js "octet")) [])
               [Datagram (ack 1)] in
  sent (snd res) = [DATA 1 [x61; x62; x63]] /\ ended (fst res) = true.
Proof.
  intros r res.
  destruct (X23_download_without_options (js "c") (js "f") (js "octet") [None] [] r
              [x61; x62; x63]) as (T & E & _).
  - repeat constructor; cbn; lia.
  - discriminate.
  - repeat constructor; cbn; lia.
  - repeat constructor.
  - reflexivity.
  - reflexivity.
  - cbn. lia.
  - split; [|exact E]. etransitivity; [exact (f_equal sent T)|reflexivity].
Defined.

(** ** The claims on requests and acknowledgements *)

Lemma fold_put_holds (ps : list (jsstring * jsstring)) :
  holds_pairs (fold_left put ps []) ps.
Proof.
  unfold holds_pairs. rewrite fold_put_filter.
  assert (K := fold_set_keys (List.filter has_key ps)).
  split; [exact K|]. split; [rewrite K; apply first_occurrences_NoDup|].
  intros k I. split.
  - rewrite K. apply NoDup_count_occ'; [apply first_occurrences_NoDup|].
    now apply first_occurrences_In.
  - destruct (last_value_In k _ I) as (w & W). exists w. split; [exact W|].
    rewrite fold_set_get, W. reflexivity.
Qed.

(* init reads the filename from offset 2, the mode after it, and the
   options after the mode *)
Lemma state_init_reads (c : Ctx) (b : Buffer) (h : Handled) :
  request c = Some b -> state_init c = Ok h -> h_next h = Some (to_state getData) ->
  exists name r1 md req req',
    Packet_cstr (init_fuel b) (mkPacket b 2) = Ok (name, r1) /\
    Packet_cstr (init_fuel b) r1 = Ok (md, req) /\
    options_loop (init_fuel b) req [] = Ok (req', options (h_ctx h)).
Proof.
  intros R E N. unfold state_init in E. rewrite R in E.
  unfold Packet_uint16 in E. cbn [buf ptr] in E.
  destruct (readUInt16BE b 0) as [op| |]; try discriminate.
  cbn [bind Nat.add] in E. destruct (negb (op =? 1)).
  { injection E as <-. discriminate. }
  destruct (Packet_cstr (init_fuel b) (mkPacket b 2)) as [[name r1]| |] eqn:E1;
    try discriminate.
  cbn [bind] in E. destruct (length name =? 0)%nat.
  { injection E as <-. discriminate. }
  destruct (Packet_cstr (init_fuel b) r1) as [[md r2]| |] eqn:E2; try discriminate.
  cbn [bind] in E.
  destruct (options_loop (init_fuel b) r2 []) as [[r3 opts]| |] eqn:E3; try discriminate.
  cbn [bind] in E. injection E as <-. cbn [h_ctx options set_options].
  exists name, r1, md, r2, r3. auto.
Qed.

(** C6. A request laid out as a read request (opcode 1, then filename,
    mode and the option names and values, each followed by a zero byte) is
    accepted by init, and the options it leaves in the context hold the
    decoded options of the request that have a name: each name is a key
    once, at the place of its first occurrence in the request, and bound to
    the value of its last occurrence. For any request that init accepts,
    laid out so or not, the same holds of the pairs that stand behind the
    mode: the filename is read from offset 2, the mode after it, and the
    pairs from where the mode ends. *)
Theorem C6_duplicate_option_keys (key : jsstring) (rs : list (option Route)) :
  (forall (name md : Buffer) (opts : list (Buffer * Buffer)),
     no_NUL name -> name <> [] -> no_NUL md ->
     Forall (fun kv => no_NUL (fst kv) /\ no_NUL (snd kv)) opts ->
     exists h,
       state_init (new_ctx key rs (RRQ name md opts)) = Ok h /\
       h_next h = Some (to_state getData) /\
       holds_pairs (options (h_ctx h)) (map decoded opts)) /\
  (forall (b : Buffer) (h : Handled),
     state_init (new_ctx key rs b) = Ok h -> h_next h = Some (to_state getData) ->
     exists name r1 md req req' ps,
       Packet_cstr (init_fuel b) (mkPacket b 2) = Ok (name, r1) /\
       Packet_cstr (init_fuel b) r1 = Ok (md, req) /\
       option_pairs (init_fuel b) req = Ok (req', ps) /\
       holds_pairs (options (h_ctx h)) ps).
Proof.
  split.
  - intros name md opts Nn Ne Nm No. eexists. split; [now apply state_init_RRQ|].
    split; [reflexivity|]. cbn [h_ctx next options]. apply fold_put_holds.
  - intros b h E N.
    destruct (state_init_reads (new_ctx key rs b) b h eq_refl E N)
      as (name & r1 & md & req & req' & E1 & E2 & L).
    rewrite options_loop_pairs in L.
    destruct (option_pairs (init_fuel b) req) as [[r ps]| |] eqn:P; try discriminate.
    cbn [bind] in L. injection L as -> <-.
    exists name, r1, md, req, req', ps.
    split; [exact E1|]. split; [exact E2|]. split; [exact P|apply fold_put_holds].
Qed.

Lemma C6_duplicate_option_keys_witness :
  let b := RRQ [x66] [x6f] [([x61], [x31]); ([x62], [x32]); ([x61], [x33])] in
  exists h,
    state_init (new_ctx [] [] b) = Ok h /\
    map fst (options (h_ctx h)) = [js "a"; js "b"] /\
    Map_get (js "a") (options (h_ctx h)) = Some (js "3").
Proof.
  intros b.
  destruct (C6_duplicate_option_keys [] []) as (A & _).
  destruct (A [x66] [x6f] [([x61], [x31]); ([x62], [x32]); ([x61], [x33])])
    as (h & E & _ & K & _ & V).
  - repeat constructor; discriminate.
  - discriminate.
  - repeat constructor; discriminate.
  - repeat constructor; discriminate.
  - exists h. split; [exact E|]. split; [exact K|].
    destruct (V (js "a")) as (_ & v & L & G); [left; reflexivity|].
    vm_compute in L. injection L as <-. exact G.
Defined.

(** C3. While a listener is registered (the oack and sendDataPacket states
    register one), a datagram whose opcode is not 4, or whose block number
    is not the awaited one, changes nothing: the machine with its context
    (retry counter included), its timer and its listener is the same and
    nothing is sent. After any number of such datagrams the awaited ACK
    makes its transition. From the oack state, or when the acknowledged
    DATA packet was a full block, the next block is prepared and sent, and
    the machine waits in sendDataPacket with the listener and the timer of
    that state and a retry counter of 1 (when the block number 65536 is
    due, the connection ends with the ERROR datagram of the exception
    instead); when the acknowledged packet was not a full block, the
    connection ends through the final handler without an error. *)
Theorem C3_unexpected_datagram_ignored (m : Fsm) (l : Listener)
    (junk : list Buffer) (a : Buffer) :
  listener m = Some l ->
  Forall (mismatch (expected_block l (ctx m))) junk ->
  readUInt16BE a 0 = Ok 4 -> readUInt16BE a 2 = Ok (expected_block l (ctx m)) ->
  let full := Number_eqb (Z.of_nat (length (packet (ctx m))))
                (Number_plus (blocksize (ctx m)) 4) in
  let events := map Datagram junk ++ [Datagram a] in
  (forall msg, In msg junk -> deliver (Datagram msg) m = (m, [])) /\
  run (map Datagram junk) m = (m, []) /\
  (l = oack_ack \/ full = true -> 0 <= block (ctx m) < 65535 ->
   run events m =
   (mkFsm (set_try 1 (prepared (ctx m))) sendDataPacket
      (Some data_ack) (Some (1000, sendDataPacket)) false,
    [Enter prepareDataPacket; Enter sendDataPacket;
     Out (clientKey (ctx m)) (packet (prepared (ctx m)))])) /\
  (l = oack_ack \/ full = true -> 65535 <= block (ctx m) ->
   run events m =
   (mkFsm (ctx m) prepareDataPacket None None true,
    [Enter prepareDataPacket;
     Final (Some (ERR_OUT_OF_RANGE_message (block (ctx m) + 1))) prepareDataPacket;
     Out (clientKey (ctx m)) (out_of_range_datagram (block (ctx m) + 1))])) /\
  (l = data_ack -> full = false ->
   run events m = (mkFsm (ctx m) (current m) None None true, [Final None (current m)])).
Proof.
  intros L F O B full events.
  assert (R : run events m = follow (acknowledged l (ctx m)) m).
  { unfold events. rewrite run_app, (run_mismatch m l junk L F). cbn [run deliver].
    rewrite L, (listener_match l (ctx m) a O B).
    destruct (follow _ m) as [m' es]. now rewrite app_nil_r. }
  assert (A : l = oack_ack \/ full = true ->
              acknowledged l (ctx m) = to_state prepareDataPacket).
  { intros H. destruct l; [reflexivity|]. destruct H as [H|H]; [discriminate|].
    cbn [acknowledged]. fold full. rewrite H. reflexivity. }
  split; [|split; [|split; [|split]]].
  - intros msg I. apply deliver_mismatch with l; [assumption|].
    rewrite Forall_forall in F. now apply F.
  - now apply run_mismatch with l.
  - intros H K. rewrite R, (A H). cbn [follow]. unfold chain.
    now rewrite goto_prepare_ok by exact K.
  - intros H K. rewrite R, (A H). cbn [follow]. unfold chain.
    now rewrite goto_prepare_overflow by exact K.
  - intros -> H. rewrite R. cbn [acknowledged]. fold full. rewrite H. reflexivity.
Qed.

Lemma C3_unexpected_datagram_ignored_witness :
  let m := fst (connection [] [serve [x61; x62]]
                  (RRQ [x66] [x6f] [([x62; x6c; x6b; x73; x69; x7a; x65], [x32])]) []) in
  let junk := [ack 2; [x00; x05; x00; x00]; ack 1] in
  listener m = Some oack_ack /\ try (ctx m) = 1 /\
  run (map Datagram junk) m = (m, []) /\
  run (map Datagram junk ++ [Datagram (ack 0)]) m =
    (mkFsm (set_try 1 (prepared (ctx m))) sendDataPacket
       (Some data_ack) (Some (1000, sendDataPacket)) false,
     [Enter prepareDataPacket; Enter sendDataPacket; Out [] (DATA 1 [x61; x62])]).
Proof.
  intros m junk.
  destruct (C3_unexpected_datagram_ignored m oack_ack junk (ack 0))
    as (_ & R & A & _).
  - reflexivity.
  - repeat constructor.
    + exists 4. split; [reflexivity|]. right. exists 2. split; [reflexivity|].
      vm_compute. discriminate.
    + exists 5. split; [reflexivity|]. left. lia.
    + exists 4. split; [reflexivity|]. right. exists 1. split; [reflexivity|].
      vm_compute. discriminate.
  - reflexivity.
  - reflexivity.
  - split; [reflexivity|]. split; [reflexivity|]. split; [exact R|].
    rewrite A; [reflexivity|now left|].
    replace (block (ctx m)) with 0 by reflexivity. lia.
Defined.

(** C5 (as amended). When the options of a request hold a blksize with the
    text [v], the oack state sets the block size of the connection to
    Math.min(v, 1428) and sends an OACK that carries "blksize", a zero
    byte, the text of that number and a zero byte. When [v] denotes an
    integer [n] (in decimal, hexadecimal, octal or binary, with an exponent
    or white space around it) the number is min(n, 1428), in decimal in the
    OACK; when [v] denotes no number it is NaN. A request for "2000" is
    answered with 1428 and one for "100" with 100. *)
Theorem C5_blksize_negotiation :
  (forall (c : Ctx) (v : jsstring),
     NoDup (map fst (options c)) -> In (js "blksize", v) (options c) -> try c <= 3 ->
     let accepted := Math_min (ToNumber v) 1428 in
     (exists h before after,
        state_oack c = Ok h /\
        blocksize (h_ctx h) = accepted /\
        h_effects h =
          [Out (clientKey c)
             ([x00; x06] ++ before ++
              OACK_entry (js "blksize") (Number_toString accepted) ++ after)] /\
        h_next h = None) /\
     (forall n : Z, ToNumber v = Int n ->
        accepted = Int (Z.min n 1428) /\
        (- 2 ^ 53 <= n -> Number_toString accepted = String_of_int (Z.min n 1428))) /\
     (ToNumber v = NaN -> accepted = NaN /\ Number_toString accepted = js "NaN")) /\
  (let r := connection [] [serve [x61; x62; x63]]
              (RRQ [x66] (list_byte_of_string "octet")
                 [(list_byte_of_string "blksize", list_byte_of_string "2000")]) [] in
   blocksize (ctx (fst r)) = Int 1428 /\
   sent (snd r) = [[x00; x06] ++ list_byte_of_string "blksize" ++ [x00] ++
                   list_byte_of_string "1428" ++ [x00]]) /\
  (let r := connection [] [serve [x61; x62; x63]]
              (RRQ [x66] (list_byte_of_string "octet")
                 [(list_byte_of_string "blksize", list_byte_of_string "100")]) [] in
   blocksize (ctx (fst r)) = Int 100 /\
   sent (snd r) = [[x00; x06] ++ list_byte_of_string "blksize" ++ [x00] ++
                   list_byte_of_string "100" ++ [x00]]).
Proof.
  split; [|split; vm_compute; split; reflexivity].
  intros c v N I L accepted. split; [|split].
  - destruct (state_oack_blksize c v N I L) as (before & after & E).
    eexists _, before, after. split; [exact E|]. repeat split.
  - intros n T. unfold accepted. rewrite T, Math_min_Int. split; [reflexivity|].
    intros R. apply Number_toString_Int. lia.
  - intros T. unfold accepted. rewrite T. split; reflexivity.
Qed.

Lemma C5_blksize_negotiation_witness :
  let c := set_options [(js "tsize", js "0"); (js "blksize", js " 0x7d0 ")]
             (new_ctx [] [] []) in
  exists h before after,
    state_oack c = Ok h /\
    blocksize (h_ctx h) = Int 1428 /\
    h_effects h =
      [Out [] ([x00; x06] ++ before ++
               OACK_entry (js "blksize") (js "1428") ++ after)] /\
    h_next h = None.
Proof.
  intros c. destruct C5_blksize_negotiation as (H & _).
  destruct (H c (js " 0x7d0 ")) as ((h & before & after & E & B & O & X) & _ & _).
  - cbn. repeat constructor; cbn; intuition discriminate.
  - cbn. right. left. reflexivity.
  - cbn. lia.
  - exists h, before, after. split; [exact E|]. split; [exact B|]. split; [exact O|exact X].
Defined.

(* A request for the block size "abc": the OACK answers NaN, the block size
   of the connection is NaN, which is the smaller of no number and 1428. *)
Lemma C5_counterexample :
  let r := connection [] [serve [x61; x62; x63]]
             (RRQ [x66] (list_byte_of_string "octet")
                [(list_byte_of_string "blksize", list_byte_of_string "abc")]) [] in
  blocksize (ctx (fst r)) = NaN /\
  sent (snd r) = [[x00; x06] ++ list_byte_of_string "blksize" ++ [x00] ++
                  list_byte_of_string "NaN" ++ [x00]] /\
  forall x : Number, x <> NaN -> blocksize (ctx (fst r)) <> Math_min x 1428.
Proof.
  intros r.
  assert (B : blocksize (ctx (fst r)) = NaN) by (vm_compute; reflexivity).
  split; [exact B|]. split; [vm_compute; reflexivity|].
  intros x X. rewrite B. destruct x as [n|s m e| |s]; cbn [Math_min]; try congruence.
  - destruct (Number_ltb _ _); discriminate.
  - destruct (Number_ltb _ _); discriminate.
  - destruct (Number_ltb _ _); discriminate.
Qed.

(** C10 (as amended). A request of fewer than two bytes makes the opcode
    read of the init state raise the out-of-range exception: the handler
    reaches no [next]. The machine hands the exception to the final
    handler, so that the connection ends with one ERROR datagram, of code 0
    and with the message of the exception, whatever arrives later. From two
    bytes on the init handler returns. *)
Theorem C10_short_request_raises (key : jsstring) (rs : list (option Route)) (b : Buffer) :
  ((length b < 2)%nat ->
     state_init (new_ctx key rs b) = Throw ERR_OUT_OF_RANGE /\
     forall evs,
       connection key rs b evs =
       (mkFsm (mkCtx key rs None [] [] 0 [] [] 0 0 []) init None None true,
        [Enter init;
         Final (Some (js "Attempt to access memory outside buffer bounds")) init;
         Out key (ERROR_datagram x00 "Attempt to access memory outside buffer bounds")])) /\
  ((2 <= length b)%nat -> exists h, state_init (new_ctx key rs b) = Ok h).
Proof.
  split.
  - intros L.
    assert (E : state_init (new_ctx key rs b) = Throw ERR_OUT_OF_RANGE).
    { destruct b as [|b0 [|b1 r]]; simpl in L; try lia; reflexivity. }
    split; [exact E|]. intros evs.
    unfold connection, start. cbn [goto chain state_handler]. rewrite E.
    cbn [raised_ctx raised_message]. unfold ERR_BUFFER_OUT_OF_BOUNDS_message.
    rewrite leave_ascii by (repeat constructor; cbn; lia).
    rewrite run_quiet by reflexivity. reflexivity.
  - intros L. apply state_init_total with b; [reflexivity|assumption].
Qed.

Lemma C10_short_request_raises_witness :
  state_init (new_ctx [] [] [x00]) = Throw ERR_OUT_OF_RANGE /\
  length (sent (snd (connection [] [] [x00] [Timeout]))) = 1%nat /\
  exists h, state_init (new_ctx [] [] [x00; x01]) = Ok h.
Proof.
  split; [|split].
  - apply (C10_short_request_raises [] [] [x00]). simpl. lia.
  - destruct (C10_short_request_raises [] [] [x00]) as [[_ H] _]; [simpl; lia|].
    rewrite H. reflexivity.
  - apply (C10_short_request_raises [] [] [x00; x01]). simpl. lia.
Defined.

(* A request of one byte: init raises, and the connection does send a TFTP
   ERROR datagram, of 51 bytes, with code 0. *)
Lemma C10_counterexample :
  state_init (new_ctx [] [] [x00]) = Throw ERR_OUT_OF_RANGE /\
  sent (snd (connection [] [] [x00] [])) =
    [ERROR_datagram x00 "Attempt to access memory outside buffer bounds"] /\
  length (ERROR_datagram x00 "Attempt to access memory outside buffer bounds") = 51%nat /\
  sent (snd (connection [] [] [x00] [])) <> [].
Proof.
  split; [reflexivity|]. split; [reflexivity|]. split; [reflexivity|]. discriminate.
Qed.
